(** * Booking server: availability resolution and conflict detection

    A shallow embedding of the read path of the booking server:
    [database.py] ([get_db_connection], [convert_decimals],
    [resolve_resource_info]), [tools/booking_tools.py]
    ([get_calendar_codes], [get_active_bookings],
    [check_resource_availability]), [tools/resource_tools.py]
    ([list_available_resources], [find_free_resources]) and
    [tools/health_tools.py] ([health_check]); of the validation of
    [tools/activity_tools.py] ([_escape_xml], [validate_activity_data],
    [create_new_activity], [update_activity]); and of the dispatcher of
    [server.py] ([handle_call_tool]).

    The Python functions talk to PostgreSQL through psycopg2 and build
    dictionaries that are handed to [json.dumps].  Here
    - the database is a record of tables, each SQL statement is a function
      on those tables that follows the text of the statement;
    - exceptions and the sequence of statements sent to the database are
      threaded through a small state-and-error monad;
    - a report is the JSON value given to [json.dumps];
    - character data is ASCII ([UPPER]/[LOWER] act on the 26 letters) and
      is compared and ordered byte by byte; the columns read are not NULL,
      except [rlresourceid], which the code itself tests for NULL;
    - a floating-point number is the term of the operations that made it
      (see [pyfloat]). *)

From Stdlib Require Import ZArith Lia Bool List Ascii String.
From Stdlib Require Import Sorting.Sorted Sorting.Permutation.
From Stdlib Require Import Numbers.DecimalString.
From Stdlib Require Import QArith Qround Qabs Lqa.
From stdpp Require Import base decidable option list gmap strings sorting.

Import ListNotations.
Set Warnings "-register-all".
Local Open Scope string_scope.
Local Open Scope list_scope.
Local Open Scope Z_scope.

(* ================================================================== *)
(** ** Characters and strings *)

Definition ascii_code (c : ascii) : Z := Z.of_N (N_of_ascii c).

Definition ascii_of_code (z : Z) : ascii := ascii_of_N (Z.to_N z).

Definition is_upper (c : ascii) : bool :=
  (65 <=? ascii_code c) && (ascii_code c <=? 90).

Definition is_lower (c : ascii) : bool :=
  (97 <=? ascii_code c) && (ascii_code c <=? 122).

(** [UPPER] and [LOWER] of SQL, one character at a time. *)
Definition upper_char (c : ascii) : ascii :=
  if is_lower c then ascii_of_code (ascii_code c - 32) else c.

Definition lower_char (c : ascii) : ascii :=
  if is_upper c then ascii_of_code (ascii_code c + 32) else c.

Fixpoint string_map (f : ascii -> ascii) (s : string) : string :=
  match s with
  | EmptyString => EmptyString
  | String c s' => String (f c) (string_map f s')
  end.

Definition UPPER (s : string) : string := string_map upper_char s.
Definition LOWER (s : string) : string := string_map lower_char s.

(** The ASCII digits.  ([\d] of Python's [re] also matches the decimal
    digits of other scripts; text that is not ASCII is outside the
    model.) *)
Definition is_digit (c : ascii) : bool :=
  (48 <=? ascii_code c) && (ascii_code c <=? 57).

Definition digit_value (c : ascii) : Z := ascii_code c - 48.

(** The ASCII characters matched by [\s] of Python's [re] and removed by
    [str.strip()].  (Both also take the blanks that are not ASCII, such as
    the no-break space; text that is not ASCII is outside the model.) *)
Definition is_space (c : ascii) : bool :=
  let n := ascii_code c in
  ((9 <=? n) && (n <=? 13)) || ((28 <=? n) && (n <=? 32)).

Fixpoint lstrip (s : string) : string :=
  match s with
  | String c s' => if is_space c then lstrip s' else s
  | EmptyString => EmptyString
  end.

Fixpoint rstrip (s : string) : string :=
  match s with
  | EmptyString => EmptyString
  | String c s' =>
      match rstrip s' with
      | EmptyString => if is_space c then EmptyString else String c EmptyString
      | r => String c r
      end
  end.

(** [s.strip()] *)
Definition strip (s : string) : string := rstrip (lstrip s).

(** [s.split(',')]: always at least one field. *)
Fixpoint split_comma (s : string) : list string :=
  match s with
  | EmptyString => [EmptyString]
  | String c s' =>
      if Ascii.eqb c "," then EmptyString :: split_comma s'
      else match split_comma s' with
           | f :: fs => String c f :: fs
           | [] => [String c EmptyString]
           end
  end.

(** Decimal numeral of a non-negative integer, and zero padding as done by
    [%m], [%d], [%H], [%M] of [strftime]. *)
Definition decimal (z : Z) : string :=
  NilZero.string_of_uint (N.to_uint (Z.to_N z)).

Fixpoint zeros (n : nat) : string :=
  match n with
  | O => EmptyString
  | S n' => String "0" (zeros n')
  end.

Definition zero_pad (width : nat) (z : Z) : string :=
  let d := decimal z in
  String.append (zeros (width - String.length d)) d.

(* ================================================================== *)
(** ** Python values: exceptions, numbers, JSON *)

(** The exception classes that the modelled code can meet.  All of them
    derive from [Exception]. *)
Inductive exn : Type :=
| ValueError (msg : string)
| TypeError (msg : string)
| IndexError (msg : string)
| AttributeError (msg : string)
| DatabaseError (msg : string).

(** [str(e)] *)
Definition str_exn (e : exn) : string :=
  match e with
  | ValueError m | TypeError m | IndexError m
  | AttributeError m | DatabaseError m => m
  end.

Definition is_ValueError (e : exn) : bool :=
  match e with ValueError _ => true | _ => false end.

(** Floating-point values are kept as the term of operations that produced
    them: the conversion of a database value with [float()], [+], [/] and
    [round(_, 1)].  Their binary64 evaluation is not part of the model. *)
Inductive pyfloat : Type :=
| F_of_int (z : Z)
| F_sql_hours (seconds : Z)
| F_add (a b : pyfloat)
| F_div (a b : pyfloat)
| F_round1 (a : pyfloat).

Inductive pynum : Type :=
| PyInt (z : Z)
| PyFloat (f : pyfloat).

Definition as_float (n : pynum) : pyfloat :=
  match n with
  | PyInt z => F_of_int z
  | PyFloat f => f
  end.

(** [a + b] *)
Definition py_add (a b : pynum) : pynum :=
  match a, b with
  | PyInt x, PyInt y => PyInt (x + y)
  | _, _ => PyFloat (F_add (as_float a) (as_float b))
  end.

(** [a / b] (true division, always a float) *)
Definition py_div (a b : pynum) : pynum :=
  PyFloat (F_div (as_float a) (as_float b)).

(** [round(a, 1)]: an [int] is returned unchanged. *)
Definition py_round1 (a : pynum) : pynum :=
  match a with
  | PyInt z => PyInt z
  | PyFloat f => PyFloat (F_round1 f)
  end.

Inductive json : Type :=
| JNull
| JBool (b : bool)
| JNum (n : pynum)
| JStr (s : string)
| JList (l : list json)
| JDict (kv : list (string * json)).

Definition JInt (z : Z) : json := JNum (PyInt z).

(** [d[k]] on a JSON object, [None] when the key is absent. *)
Fixpoint assoc_get {A} (k : string) (kv : list (string * A)) : option A :=
  match kv with
  | [] => None
  | (k', v) :: kv' => if String.eqb k k' then Some v else assoc_get k kv'
  end.

Definition jget (k : string) (j : json) : option json :=
  match j with
  | JDict kv => assoc_get k kv
  | _ => None
  end.

(** The shape of every error report: [{"error": str(e)}]. *)
Definition error_report (msg : string) : json := JDict [("error", JStr msg)].

(* ================================================================== *)
(** ** [datetime] and [datetime.strptime(_, "%Y-%m-%d %H:%M")] *)

Record datetime : Type := mk_datetime {
  year : Z; month : Z; day : Z; hour : Z; minute : Z; second : Z
}.

Definition is_leap (y : Z) : bool :=
  (y mod 4 =? 0) && (negb (y mod 100 =? 0) || (y mod 400 =? 0)).

Definition days_in_month (y m : Z) : Z :=
  if m =? 2 then (if is_leap y then 29 else 28)
  else if (m =? 4) || (m =? 6) || (m =? 9) || (m =? 11) then 30
  else 31.

Definition days_before_year (y : Z) : Z :=
  let p := y - 1 in p * 365 + p / 4 - p / 100 + p / 400.

Fixpoint days_before_month_aux (y : Z) (n : nat) : Z :=
  match n with
  | O => 0
  | S n' => days_before_month_aux y n' + days_in_month y (Z.of_nat n)
  end.

Definition days_before_month (y m : Z) : Z :=
  days_before_month_aux y (Z.to_nat (m - 1)).

(** [date.toordinal()] *)
Definition toordinal (d : datetime) : Z :=
  days_before_year (year d) + days_before_month (year d) (month d) + day d.

(** Seconds elapsed since the start of day 0 of the proleptic Gregorian
    calendar: the order of timestamps, and [(a - b).total_seconds()] as a
    difference. *)
Definition seconds_of (d : datetime) : Z :=
  ((toordinal d * 24 + hour d) * 60 + minute d) * 60 + second d.

(** [d.strftime('%Y-%m-%d %H:%M')], for the years from 1000 on (below,
    the padding of [%Y] is the C library's choice). *)
Definition strftime (d : datetime) : string :=
  String.append (zero_pad 4 (year d))
    (String "-" (String.append (zero_pad 2 (month d))
      (String "-" (String.append (zero_pad 2 (day d))
        (String " " (String.append (zero_pad 2 (hour d))
          (String ":" (zero_pad 2 (minute d))))))))).

(** The regular expression that [_strptime] compiles for the format, as a
    backtracking matcher: each piece returns its matches in the order the
    regular-expression engine tries them. *)
Definition matcher (A : Type) : Type := string -> list (A * string).

Definition digit_in (lo hi : Z) (c : ascii) : bool :=
  is_digit c && (lo <=? digit_value c) && (digit_value c <=? hi).

Definition one_digit (lo hi : Z) : matcher Z := fun s =>
  match s with
  | String c r => if digit_in lo hi c then [(digit_value c, r)] else []
  | EmptyString => []
  end.

Definition two_digits (lo1 hi1 lo2 hi2 : Z) : matcher Z := fun s =>
  match s with
  | String c1 (String c2 r) =>
      if digit_in lo1 hi1 c1 && digit_in lo2 hi2 c2
      then [(10 * digit_value c1 + digit_value c2, r)] else []
  | _ => []
  end.

Definition literal (c : ascii) : matcher unit := fun s =>
  match s with
  | String c' r => if Ascii.eqb c c' then [(tt, r)] else []
  | EmptyString => []
  end.

Definition alt {A} (p q : matcher A) : matcher A := fun s => p s ++ q s.

Definition seq {A B} (p : matcher A) (k : A -> matcher B) : matcher B :=
  fun s => flat_map (fun '(a, r) => k a r) (p s).

(** [(?P<Y>\d\d\d\d)] *)
Definition re_Y : matcher Z :=
  seq (two_digits 0 9 0 9) (fun hi =>
  seq (two_digits 0 9 0 9) (fun lo r => [(100 * hi + lo, r)])).

(** [(?P<m>1[0-2]|0[1-9]|[1-9])] *)
Definition re_m : matcher Z :=
  alt (two_digits 1 1 0 2) (alt (two_digits 0 0 1 9) (one_digit 1 9)).

(** [(?P<d>3[0-1]|[1-2]\d|0[1-9]|[1-9]| [1-9])] *)
Definition re_d : matcher Z :=
  alt (two_digits 3 3 0 1) (alt (two_digits 1 2 0 9) (alt (two_digits 0 0 1 9)
    (alt (one_digit 1 9) (seq (literal " ") (fun _ => one_digit 1 9))))).

(** [(?P<H>2[0-3]|[0-1]\d|\d)] *)
Definition re_H : matcher Z :=
  alt (two_digits 2 2 0 3) (alt (two_digits 0 1 0 9) (one_digit 0 9)).

(** [(?P<M>[0-5]\d|\d)] *)
Definition re_M : matcher Z :=
  alt (two_digits 0 5 0 9) (one_digit 0 9).

(** [\s+], greedy: the longest run first. *)
Fixpoint re_spaces (s : string) : list (unit * string) :=
  match s with
  | String c r => if is_space c then re_spaces r ++ [(tt, r)] else []
  | EmptyString => []
  end.

Definition re_format : matcher datetime :=
  seq re_Y (fun y => seq (literal "-") (fun _ =>
  seq re_m (fun m => seq (literal "-") (fun _ =>
  seq re_d (fun d => seq re_spaces (fun _ =>
  seq re_H (fun h => seq (literal ":") (fun _ =>
  seq re_M (fun mi r => [(mk_datetime y m d h mi 0, r)]))))))))).

(** The double quote. *)
Definition quote_char : ascii := "034"%char.

(** [c] occurs in [s]. *)
Fixpoint has_char (c : ascii) (s : string) : bool :=
  match s with
  | EmptyString => false
  | String c' s' => Ascii.eqb c c' || has_char c s'
  end.

(** [s] is ASCII text: every character code is below 128. *)
Fixpoint ascii_text (s : string) : bool :=
  match s with
  | EmptyString => true
  | String c s' => (ascii_code c <? 128) && ascii_text s'
  end.

Definition hex_digit (n : Z) : ascii :=
  if n <? 10 then ascii_of_code (48 + n) else ascii_of_code (87 + n).

(** One character of [repr(s)], inside the quotes [quote]: the quote and
    the backslash get a backslash, tab, newline and carriage return their
    letter, the other control characters [\xhh]. *)
Definition repr_char (quote c : ascii) : string :=
  let n := ascii_code c in
  if Ascii.eqb c quote || Ascii.eqb c "\" then String "\" (String c EmptyString)
  else if n =? 9 then String "\" "t"
  else if n =? 10 then String "\" "n"
  else if n =? 13 then String "\" "r"
  else if (n <? 32) || (n =? 127) then
    String "\" (String "x" (String (hex_digit (n / 16))
                              (String (hex_digit (n mod 16)) EmptyString)))
  else String c EmptyString.

Fixpoint repr_body (quote : ascii) (s : string) : string :=
  match s with
  | EmptyString => EmptyString
  | String c s' => String.append (repr_char quote c) (repr_body quote s')
  end.

(** [repr(s)] of ASCII text: double quotes when [s] holds an apostrophe
    and no double quote, apostrophes otherwise. *)
Definition py_repr (s : string) : string :=
  let quote :=
    if has_char "'" s && negb (has_char quote_char s) then quote_char
    else "'"%char in
  String quote (String.append (repr_body quote s) (String quote EmptyString)).

(** [datetime.strptime(s, "%Y-%m-%d %H:%M")]: the first match of the
    regular expression must end at the end of [s], and the fields must
    name a day that exists.  Every failure is a [ValueError]. *)
Definition strptime (s : string) : exn + datetime :=
  match re_format s with
  | [] =>
      inl (ValueError (String.append "time data "
             (String.append (py_repr s)
                " does not match format '%Y-%m-%d %H:%M'")))
  | (d, rest) :: _ =>
      match rest with
      | String _ _ =>
          inl (ValueError (String.append "unconverted data remains: " rest))
      | EmptyString =>
          if year d <? 1 then
            inl (ValueError (String.append "year "
                   (String.append (decimal (year d)) " is out of range")))
          else if days_in_month (year d) (month d) <? day d then
            inl (ValueError "day is out of range for month")
          else inr d
      end
  end.

(* ================================================================== *)
(** ** The database, the environment and the effects of a call *)

(** Table [resources]. *)
Record resource_row : Type := mk_resource {
  reresourceid : string;
  redescri : string;
  retype : string;
  recodcal : string;
  flactive : Z
}.

(** Table [resourcelist]: one row per reserved interval of a resource. *)
Record reservation : Type := mk_reservation {
  rlresourceid : option string;
  rlprevbegin : datetime;
  rlprevend : datetime
}.

(** Table [tasks]. *)
Record task : Type := mk_task {
  tetitle : string;
  tetaskid : Z;
  tecodcal : string;
  telocation : string;
  telisris : string;
  teprevbegin : datetime;
  teprevend : datetime;
  testato : string
}.

(** Table [calendar]. *)
Record calendar_row : Type := mk_calendar {
  cacodcal : string;
  cadescri : string
}.

(** The statements that the modelled functions send with
    [cursor.execute], with their parameters. *)
Inductive statement : Type :=
| SelectResourceById (token : string)
| SelectResourcesByDescription (pattern : string)
| CountConflicts (resource_id : string) (end_dt start_dt : datetime)
| CountConflictsGrouped (resource_ids : list string) (end_dt start_dt : datetime)
| SelectTasks (end_dt start_dt : datetime) (codes : list string)
| SelectActiveResources
| SelectFreeResources (end_dt start_dt : datetime) (types : list (option string))
| CountCalendars
| CountActiveResources.

(** What a call can see and change: the tables, [os.environ], the outcome
    of the coming database operations ([faults]: one entry is used by each
    [psycopg2.connect] and each [cursor.execute] that reaches the server;
    [Some e] makes that operation raise [e], [None] and a used-up list let
    it succeed), and the statements given to [cursor.execute] so far, oldest
    first. *)
Record world : Type := mk_world {
  resources : list resource_row;
  resourcelist : list reservation;
  tasks : list task;
  calendar : list calendar_row;
  environ : list (string * string);
  faults : list (option exn);
  statements : list statement
}.

Definition set_faults (fs : list (option exn)) (w : world) : world :=
  mk_world (resources w) (resourcelist w) (tasks w) (calendar w)
           (environ w) fs (statements w).

Definition add_statement (st : statement) (w : world) : world :=
  mk_world (resources w) (resourcelist w) (tasks w) (calendar w)
           (environ w) (faults w) (statements w ++ [st]).

(** Computations that read and change the world and either return a value
    or raise an exception. *)
Definition M (A : Type) : Type := world -> (exn + A) * world.

Definition ret {A} (a : A) : M A := fun w => (inr a, w).

Definition raise {A} (e : exn) : M A := fun w => (inl e, w).

Definition bind {A B} (m : M A) (k : A -> M B) : M B := fun w =>
  match m w with
  | (inl e, w') => (inl e, w')
  | (inr a, w') => k a w'
  end.

(** [try: body  except Exception as e: handler(e)] *)
Definition try_except {A} (body : M A) (handler : exn -> M A) : M A := fun w =>
  match body w with
  | (inl e, w') => handler e w'
  | (inr a, w') => (inr a, w')
  end.

Definition lift {A} (r : exn + A) : M A := fun w => (r, w).

Notation "x <- m ;; k" := (bind m (fun x => k))
  (at level 100, m at next level, right associativity).

(** The next database operation fails or not, as [faults] says. *)
Definition database_operation : M unit := fun w =>
  match faults w with
  | Some e :: fs => (inl e, set_faults fs w)
  | None :: fs => (inr tt, set_faults fs w)
  | [] => (inr tt, w)
  end.

(** [get_db_connection()]: the exception of [psycopg2.connect] is logged
    and raised again. *)
Definition get_db_connection : M unit :=
  try_except database_operation (fun e => raise e).

(** [cursor.execute(statement, parameters)] followed by the fetch of the
    rows that [rows] computes from the tables. *)
Definition execute {R} (st : statement) (rows : world -> exn + list R)
  : M (list R) := fun w =>
  let w1 := add_statement st w in
  match database_operation w1 with
  | (inl e, w2) => (inl e, w2)
  | (inr _, w2) => (rows w2, w2)
  end.

(** [cursor.execute(statement, parameters)] for a statement whose text has
    a fixed number of placeholders.  psycopg2 merges the parameters into
    the text before it sends anything: with too few parameters it raises
    [IndexError], with too many [TypeError], and the server is not
    reached. *)
Definition execute_merged {R} (st : statement) (placeholders parameters : nat)
    (rows : world -> exn + list R) : M (list R) := fun w =>
  match Nat.compare parameters placeholders with
  | Lt => (inl (IndexError "tuple index out of range"), add_statement st w)
  | Gt => (inl (TypeError
                  "not all arguments converted during string formatting"),
           add_statement st w)
  | Eq => execute st rows w
  end.

(** [os.getenv(name)] *)
Definition getenv (name : string) : M (option string) := fun w =>
  (inr (assoc_get name (environ w)), w).

(* ================================================================== *)
(** ** SQL operators *)

Definition ts_lt (a b : datetime) : bool := seconds_of a <? seconds_of b.
Definition ts_gt (a b : datetime) : bool := seconds_of b <? seconds_of a.
Definition ts_le (a b : datetime) : bool := seconds_of a <=? seconds_of b.
Definition ts_ge (a b : datetime) : bool := seconds_of b <=? seconds_of a.

Definition member (x : string) (l : list string) : bool :=
  existsb (String.eqb x) l.

(** [ORDER BY] a key compared with [leb]. *)
Definition order_by {A} (leb : A -> A -> bool) (l : list A) : list A :=
  merge_sort (fun a b => Is_true (leb a b)) l.

(** A [LIKE] pattern: [%] is any run of characters, [_] any one character,
    a backslash takes the next character literally.  (PostgreSQL rejects a
    pattern whose last character is a lone backslash; the patterns built
    below end in [%], so that case is never reached and is cut short.) *)
Inductive like_item : Type :=
| LikeAny
| LikeOne
| LikeChar (c : ascii).

Fixpoint like_pattern (p : string) : list like_item :=
  match p with
  | EmptyString => []
  | String c p' =>
      if Ascii.eqb c "\" then
        match p' with
        | String c' p'' => LikeChar c' :: like_pattern p''
        | EmptyString => []
        end
      else if Ascii.eqb c "%" then LikeAny :: like_pattern p'
      else if Ascii.eqb c "_" then LikeOne :: like_pattern p'
      else LikeChar c :: like_pattern p'
  end.

Fixpoint like_items (items : list like_item) (s : string) : bool :=
  match items with
  | [] => match s with EmptyString => true | _ => false end
  | LikeAny :: items' =>
      (fix any (s : string) : bool :=
         like_items items' s
         || match s with
            | String _ s' => any s'
            | EmptyString => false
            end) s
  | LikeOne :: items' =>
      match s with
      | String _ s' => like_items items' s'
      | EmptyString => false
      end
  | LikeChar c :: items' =>
      match s with
      | String d s' => Ascii.eqb c d && like_items items' s'
      | EmptyString => false
      end
  end.

(** [s LIKE p] *)
Definition LIKE (s p : string) : bool := like_items (like_pattern p) s.

(* ================================================================== *)
(** ** database.py *)

Inductive resolution_type : Type := exact | single | multiple | not_found.

(** The dictionary returned by [resolve_resource_info]; for [not_found] the
    keys ['resources'] and ['calendar_code'] are absent. *)
Record resource_info : Type := mk_resource_info {
  info_type : resolution_type;
  info_resources : list resource_row;
  info_calendar_code : option string
}.

(** [SELECT ... FROM resources
     WHERE UPPER(reresourceid) = UPPER(%s) AND flactive = 1] *)
Definition select_resource_by_id (token : string) (w : world) : list resource_row :=
  List.filter (fun r => String.eqb (UPPER (reresourceid r)) (UPPER token)
                   && (flactive r =? 1))
         (resources w).

Definition resource_id_leb (a b : resource_row) : bool :=
  String.leb (reresourceid a) (reresourceid b).

(** [SELECT ... FROM resources
     WHERE LOWER(redescri) LIKE LOWER(%s) AND flactive = 1
     ORDER BY reresourceid] *)
Definition select_resources_by_description (pattern : string) (w : world)
  : list resource_row :=
  order_by resource_id_leb
    (List.filter (fun r => LIKE (LOWER (redescri r)) (LOWER pattern)
                      && (flactive r =? 1))
            (resources w)).

Definition description_pattern (resource : string) : string :=
  String "%" (String.append resource "%").

Definition resolve_resource_info (resource : string) : M resource_info :=
  _ <- get_db_connection ;;
  rows <- execute (SelectResourceById resource)
            (fun w => inr (select_resource_by_id resource w)) ;;
  match rows with
  | exact_match :: _ =>
      ret (mk_resource_info exact [exact_match] (Some (recodcal exact_match)))
  | [] =>
      matches <- execute (SelectResourcesByDescription (description_pattern resource))
                   (fun w => inr (select_resources_by_description
                                    (description_pattern resource) w)) ;;
      match matches with
      | first :: _ =>
          ret (mk_resource_info
                 (if (1 <? Z.of_nat (length matches)) then multiple else single)
                 matches (Some (recodcal first)))
      | [] => ret (mk_resource_info not_found [] None)
      end
  end.

(* ================================================================== *)
(** ** tools/booking_tools.py: [check_resource_availability] *)

(** [r.rlprevbegin < %s AND r.rlprevend > %s] with the parameters
    [(end_dt, start_dt)]. *)
Definition conflicts (end_dt start_dt : datetime) (r : reservation) : bool :=
  ts_lt (rlprevbegin r) end_dt && ts_gt (rlprevend r) start_dt.

Definition rl_is (resource_id : string) (r : reservation) : bool :=
  match rlresourceid r with
  | Some i => String.eqb i resource_id
  | None => false
  end.

Definition rl_in (resource_ids : list string) (r : reservation) : bool :=
  match rlresourceid r with
  | Some i => member i resource_ids
  | None => false
  end.

(** [SELECT COUNT( * ) as conflitti FROM resourcelist r
     WHERE r.rlresourceid = %s AND (r.rlprevbegin < %s AND r.rlprevend > %s)]:
    one row, holding the count. *)
Definition count_conflicts (resource_id : string) (end_dt start_dt : datetime)
    (w : world) : list Z :=
  [Z.of_nat (length (List.filter (fun r => rl_is resource_id r
                                      && conflicts end_dt start_dt r)
                            (resourcelist w)))].

(** [GROUP BY key] with [COUNT( * )]: one row per key that occurs. *)
Definition group_count (keys : list string) : list (string * Z) :=
  map (fun k => (k, Z.of_nat (length (List.filter (String.eqb k) keys))))
      (List.nodup String.string_dec keys).

(** [SELECT r.rlresourceid, COUNT( * ) as conflitti FROM resourcelist r
     WHERE r.rlresourceid IN (%s, ..., %s)
     AND (r.rlprevbegin < %s AND r.rlprevend > %s)
     GROUP BY r.rlresourceid]: a resource without a conflicting row has no
    row in the result.  An empty [IN ()] is a syntax error. *)
Definition count_conflicts_grouped (resource_ids : list string)
    (end_dt start_dt : datetime) (w : world) : exn + list (string * Z) :=
  match resource_ids with
  | [] => inl (DatabaseError "syntax error in IN ()")
  | _ :: _ =>
      inr (group_count
             (omap rlresourceid
                (List.filter (fun r => rl_in resource_ids r
                                       && conflicts end_dt start_dt r)
                             (resourcelist w))))
  end.

(** [{r['rlresourceid']: r['conflitti'] for r in results}] *)
Definition dict_of_rows (results : list (string * Z)) : gmap string Z :=
  fold_left (fun d r => <[fst r := snd r]> d) results ∅.

(** The loop that fills [free_resources] and [busy_list]. *)
Definition split_free_busy (busy_resources : gmap string Z)
    (rs : list resource_row) : list string * list string :=
  fold_left
    (fun acc res =>
       match busy_resources !! reresourceid res with
       | None => (fst acc ++ [reresourceid res], snd acc)
       | Some _ => (fst acc, snd acc ++ [reresourceid res])
       end)
    rs ([], []).

Definition JLen {A} (l : list A) : json := JInt (Z.of_nat (length l)).

Definition specific_report (resource : string) (r : resource_row) (conflitti : Z)
  : json :=
  JDict [
    ("risorsa", JDict [
       ("ricerca_originale", JStr resource);
       ("tipo", JStr "risorsa_specifica");
       ("id", JStr (reresourceid r));
       ("descrizione", JStr (redescri r)) ]);
    ("disponibile", JBool (conflitti =? 0));
    ("conflitti", JInt conflitti) ].

Definition multiple_report (resource : string) (rs : list resource_row)
    (free_resources busy_list : list string) : json :=
  JDict [
    ("risorsa", JDict [
       ("ricerca_originale", JStr resource);
       ("tipo", JStr "ricerca_multipla");
       ("risorse_trovate", JLen rs);
       ("elenco_risorse", JList (map (fun r => JStr (reresourceid r)) rs)) ]);
    ("risultato", JDict [
       ("almeno_una_libera", JBool (0 <? Z.of_nat (length free_resources)));
       ("risorse_libere", JList (map JStr free_resources));
       ("risorse_occupate", JList (map JStr busy_list));
       ("totale_libere", JLen free_resources);
       ("totale_occupate", JLen busy_list) ]) ].

Definition not_found_message (resource : string) : string :=
  String.append "Risorsa '" (String.append resource "' non trovata").

Definition is_exact (t : resolution_type) : bool :=
  match t with exact => true | _ => false end.

(** The body of the [try] block.  The two tests of
    [resource_info['type'] == 'exact'], before and after the fetch, are one
    branch each here. *)
Definition check_resource_availability_body
    (resource start_time end_time : string) : M json :=
  start_dt <- lift (strptime start_time) ;;
  end_dt <- lift (strptime end_time) ;;
  resource_info <- resolve_resource_info resource ;;
  match info_type resource_info with
  | not_found => ret (error_report (not_found_message resource))
  | _ =>
      _ <- get_db_connection ;;
      if is_exact (info_type resource_info) then
        match info_resources resource_info with
        | [] => raise (IndexError "list index out of range")
        | r0 :: _ =>
            results <- execute (CountConflicts (reresourceid r0) end_dt start_dt)
                         (fun w => inr (count_conflicts (reresourceid r0)
                                          end_dt start_dt w)) ;;
            match results with
            | [] => raise (IndexError "list index out of range")
            | conflitti :: _ => ret (specific_report resource r0 conflitti)
            end
        end
      else
        let resource_ids := map reresourceid (info_resources resource_info) in
        results <- execute (CountConflictsGrouped resource_ids end_dt start_dt)
                     (count_conflicts_grouped resource_ids end_dt start_dt) ;;
        let busy_resources := dict_of_rows results in
        let fb := split_free_busy busy_resources (info_resources resource_info) in
        ret (multiple_report resource (info_resources resource_info)
               (fst fb) (snd fb))
  end.

Definition check_resource_availability
    (resource start_time end_time : string) : M json :=
  try_except (check_resource_availability_body resource start_time end_time)
             (fun e => ret (error_report (str_exn e))).

(* ================================================================== *)
(** ** tools/booking_tools.py: [get_active_bookings] *)

(** [get_calendar_codes()]: [os.getenv] returns [None] for a missing
    variable, and [None.split] raises. *)
Definition get_calendar_codes : M (list string) :=
  calendar_codes <- getenv "CALENDAR_CODES" ;;
  match calendar_codes with
  | None => raise (AttributeError "'NoneType' object has no attribute 'split'")
  | Some codes => ret (map strip (split_comma codes))
  end.

(** A row of the task query. *)
Record booking : Type := mk_booking {
  evento : string;
  id_evento : Z;
  cod_calendario : string;
  nome_calendario : string;
  location : string;
  lista_risorse : string;
  inizio : datetime;
  fine : datetime;
  durata_ore : pynum
}.

(** The select list of the task query for a task joined with its calendar;
    [durata_ore] is [EXTRACT(EPOCH FROM (teprevend - teprevbegin))/3600]. *)
Definition booking_of (t : task) (c : calendar_row) : booking :=
  mk_booking (tetitle t) (tetaskid t) (cacodcal c) (cadescri c)
             (telocation t) (telisris t) (teprevbegin t) (teprevend t)
             (PyFloat (F_sql_hours (seconds_of (teprevend t)
                                    - seconds_of (teprevbegin t)))).

(** [FROM tasks T1 JOIN calendar T2 ON T1.tecodcal = T2.cacodcal] *)
Definition tasks_join_calendar (w : world) : list (task * calendar_row) :=
  flat_map (fun t =>
              map (fun c => (t, c))
                  (List.filter (fun c => String.eqb (tecodcal t) (cacodcal c))
                               (calendar w)))
           (tasks w).

(** [WHERE T1.teprevbegin <= %s AND T1.teprevend >= %s
     AND T1.testato = 'C' AND T2.cacodcal IN (%s, %s, %s)]
    with the parameters [(end_dt, start_dt, c1, c2, c3)]. *)
Definition task_selected (end_dt start_dt : datetime) (codes : list string)
    (tc : task * calendar_row) : bool :=
  ts_le (teprevbegin (fst tc)) end_dt
  && ts_ge (teprevend (fst tc)) start_dt
  && String.eqb (testato (fst tc)) "C"
  && member (cacodcal (snd tc)) codes.

(** [ORDER BY T2.cadescri, T1.teprevbegin] *)
Definition booking_leb (a b : booking) : bool :=
  if String.eqb (nome_calendario a) (nome_calendario b)
  then ts_le (inizio a) (inizio b)
  else String.leb (nome_calendario a) (nome_calendario b).

(** The task query.  Its text has five placeholders, two for the window and
    three inside [IN (%s, %s, %s)]; psycopg2 raises when the parameter
    tuple [(end_dt, start_dt) + tuple(calendar_codes)] is shorter or longer
    than that. *)
Definition select_tasks (end_dt start_dt : datetime) (codes : list string)
    (w : world) : exn + list booking :=
  match Nat.compare (length codes) 3 with
  | Lt => inl (IndexError "tuple index out of range")
  | Gt => inl (TypeError
                 "not all arguments converted during string formatting")
  | Eq =>
      inr (order_by booking_leb
             (map (fun tc => booking_of (fst tc) (snd tc))
                  (List.filter (task_selected end_dt start_dt codes)
                               (tasks_join_calendar w))))
  end.

(** A value of [bookings_by_resource]. *)
Record calendar_group : Type := mk_group {
  group_nome_calendario : string;
  eventi : list json;
  ore_totali : pynum
}.

Definition evento_info (b : booking) : json :=
  JDict [
    ("evento", JStr (evento b));
    ("id_evento", JInt (id_evento b));
    ("inizio", JStr (strftime (inizio b)));
    ("fine", JStr (strftime (fine b)));
    ("durata_ore", JNum (py_round1 (durata_ore b)));
    ("risorse_impegnate", JStr (lista_risorse b)) ].

(** [d[k] = f(d[k])] on a dictionary kept in insertion order. *)
Fixpoint assoc_update {A} (k : string) (f : A -> A) (d : list (string * A))
  : list (string * A) :=
  match d with
  | [] => []
  | (k', v) :: d' =>
      if String.eqb k k' then (k', f v) :: d'
      else (k', v) :: assoc_update k f d'
  end.

(** The state of the first loop: [bookings_by_resource], [total_events],
    [total_hours]. *)
Definition totals : Type := (list (string * calendar_group) * Z * pynum)%type.

Definition add_booking (acc : totals) (b : booking) : totals :=
  let '(bookings_by_resource, total_events, total_hours) := acc in
  let cod_cal := cod_calendario b in
  let d :=
    match assoc_get cod_cal bookings_by_resource with
    | None => bookings_by_resource
                ++ [(cod_cal, mk_group (nome_calendario b) [] (PyInt 0))]
    | Some _ => bookings_by_resource
    end in
  (assoc_update cod_cal
     (fun g => mk_group (group_nome_calendario g)
                        (eventi g ++ [evento_info b])
                        (py_add (ore_totali g) (durata_ore b)))
     d,
   total_events + 1,
   py_add total_hours (durata_ore b)).

(** The second loop: every group total is rounded. *)
Definition round_groups (d : list (string * calendar_group))
  : list (string * calendar_group) :=
  map (fun kg => (fst kg,
                  mk_group (group_nome_calendario (snd kg)) (eventi (snd kg))
                           (py_round1 (ore_totali (snd kg)))))
      d.

Definition group_json (g : calendar_group) : json :=
  JDict [
    ("nome_calendario", JStr (group_nome_calendario g));
    ("eventi", JList (eventi g));
    ("ore_totali", JNum (ore_totali g)) ].

(** [(end_dt - start_dt).total_seconds() / 3600] *)
Definition hours_between (start_dt end_dt : datetime) : pynum :=
  py_div (PyFloat (F_of_int (seconds_of end_dt - seconds_of start_dt)))
         (PyInt 3600).

(** The report built from the rows of the task query. *)
Definition bookings_report (start_time end_time : string)
    (start_dt end_dt : datetime) (results : list booking) : json :=
  let '(bookings_by_resource, total_events, total_hours) :=
    fold_left add_booking results ([], 0, PyInt 0) in
  let bookings_by_resource := round_groups bookings_by_resource in
  JDict [
    ("periodo", JDict [
       ("inizio", JStr start_time);
       ("fine", JStr end_time);
       ("durata_totale_ore", JNum (py_round1 (hours_between start_dt end_dt))) ]);
    ("riepilogo", JDict [
       ("risorse_impegnate", JLen bookings_by_resource);
       ("eventi_totali", JInt total_events);
       ("ore_totali", JNum (py_round1 total_hours)) ]);
    ("risorse", JDict (map (fun kg => (fst kg, group_json (snd kg)))
                           bookings_by_resource)) ].

(** The body of the [try] block.  [convert_decimals] has nothing to
    convert: the durations are floats already and the other values are
    strings and integers. *)
Definition get_active_bookings_body (start_time end_time : string) : M json :=
  start_dt <- lift (strptime start_time) ;;
  end_dt <- lift (strptime end_time) ;;
  calendar_codes <- get_calendar_codes ;;
  _ <- get_db_connection ;;
  results <- execute_merged (SelectTasks end_dt start_dt calendar_codes)
               5 (2 + length calendar_codes)
               (select_tasks end_dt start_dt calendar_codes) ;;
  ret (bookings_report start_time end_time start_dt end_dt results).

Definition get_active_bookings (start_time end_time : string) : M json :=
  try_except (get_active_bookings_body start_time end_time)
             (fun e => ret (error_report (str_exn e))).

(* ================================================================== *)
(** ** tools/resource_tools.py *)

Definition resource_type_leb (by_description : bool) (a b : resource_row)
  : bool :=
  if String.eqb (retype a) (retype b)
  then (if by_description then String.leb (redescri a) (redescri b)
        else String.leb (reresourceid a) (reresourceid b))
  else String.leb (retype a) (retype b).

(** [SELECT ... FROM resources WHERE flactive = 1
     ORDER BY retype, redescri] *)
Definition select_active_resources (w : world) : list resource_row :=
  order_by (resource_type_leb true)
    (List.filter (fun r => flactive r =? 1) (resources w)).

Definition list_available_resources_body : M json :=
  _ <- get_db_connection ;;
  results <- execute SelectActiveResources
               (fun w => inr (select_active_resources w)) ;;
  let resources :=
    map (fun r => JDict [
           ("id", JStr (reresourceid r));
           ("description", JStr (redescri r));
           ("type", JStr (retype r));
           ("calendar_code", JStr (recodcal r)) ])
        results in
  ret (JDict [ ("total_resources", JLen resources);
               ("resources", JList resources) ]).

Definition list_available_resources : M json :=
  try_except list_available_resources_body
             (fun e => ret (error_report (str_exn e))).

(** [SELECT DISTINCT r.rlresourceid FROM resourcelist r
     WHERE (r.rlprevbegin < %s AND r.rlprevend > %s)], without its NULLs. *)
Definition busy_resource_ids (end_dt start_dt : datetime) (w : world)
  : list string :=
  List.nodup String.string_dec
    (omap rlresourceid
       (List.filter (conflicts end_dt start_dt) (resourcelist w))).

(** [res.retype = %s] with a parameter that is [NULL] when the environment
    variable is not set. *)
Definition sql_eq_param (s : string) (p : option string) : bool :=
  match p with
  | Some v => String.eqb s v
  | None => false
  end.

(** The [CASE] expression [tipo_descrizione]. *)
Definition tipo_descrizione (rooms vehicles projectors : option string)
    (r : resource_row) : string :=
  if sql_eq_param (retype r) rooms then "Aule/Stanze"
  else if sql_eq_param (retype r) vehicles then "Automezzi"
  else if sql_eq_param (retype r) projectors then "Proiettori"
  else "Altro".

(** The query of [find_free_resources]: the active resources whose id is
    not among the busy ones, [ORDER BY res.retype, res.reresourceid]. *)
Definition select_free_resources (end_dt start_dt : datetime) (w : world)
  : list resource_row :=
  order_by (resource_type_leb false)
    (List.filter (fun r => (flactive r =? 1)
                           && negb (member (reresourceid r)
                                      (busy_resource_ids end_dt start_dt w)))
                 (resources w)).

Definition add_free_resource (rooms vehicles projectors : option string)
    (acc : list (string * list json) * Z) (r : resource_row)
  : list (string * list json) * Z :=
  let tipo := tipo_descrizione rooms vehicles projectors r in
  let d :=
    match assoc_get tipo (fst acc) with
    | None => fst acc ++ [(tipo, [])]
    | Some _ => fst acc
    end in
  (assoc_update tipo
     (fun l => l ++ [JDict [ ("id", JStr (reresourceid r));
                             ("descrizione", JStr (redescri r));
                             ("tipo_codice", JStr (retype r)) ]])
     d,
   snd acc + 1).

Definition find_free_resources_body (start_time end_time : string) : M json :=
  start_dt <- lift (strptime start_time) ;;
  end_dt <- lift (strptime end_time) ;;
  _ <- get_db_connection ;;
  ROOMS_TYPE <- getenv "RESOURCE_TYPE_ROOMS" ;;
  VEHICLES_TYPE <- getenv "RESOURCE_TYPE_VEHICLES" ;;
  PROJECTORS_TYPE <- getenv "RESOURCE_TYPE_PROJECTORS" ;;
  results <- execute (SelectFreeResources end_dt start_dt
                        [ROOMS_TYPE; VEHICLES_TYPE; PROJECTORS_TYPE])
               (fun w => inr (select_free_resources end_dt start_dt w)) ;;
  let '(resources_by_type, total_free) :=
    fold_left (add_free_resource ROOMS_TYPE VEHICLES_TYPE PROJECTORS_TYPE)
              results ([], 0) in
  ret (JDict [
    ("periodo_richiesto", JDict [
       ("inizio", JStr start_time);
       ("fine", JStr end_time);
       ("durata_ore", JNum (py_round1 (hours_between start_dt end_dt))) ]);
    ("riepilogo", JDict [
       ("risorse_libere_totali", JInt total_free);
       ("tipi_disponibili", JLen resources_by_type) ]);
    ("risorse_per_tipo",
     JDict (map (fun kv => (fst kv, JList (snd kv))) resources_by_type)) ]).

Definition find_free_resources (start_time end_time : string) : M json :=
  try_except (find_free_resources_body start_time end_time)
             (fun e => ret (error_report (str_exn e))).

(* ================================================================== *)
(** ** Vocabulary of the properties *)

(** [needle] occurs in [hay]. *)
Definition contains (needle hay : string) : Prop :=
  exists pre post, hay = String.append pre (String.append needle post).

(** [token] occurs in [description], letter case aside. *)
Definition contains_ci (token description : string) : Prop :=
  contains (LOWER token) (LOWER description).

(** [a] and [b] are equal, letter case aside. *)
Definition equal_ci (a b : string) : Prop := UPPER a = UPPER b.

Definition like_special (c : ascii) : bool :=
  Ascii.eqb c "\" || Ascii.eqb c "%" || Ascii.eqb c "_".

(** No character of [s] has a meaning of its own in a [LIKE] pattern. *)
Fixpoint like_free (s : string) : bool :=
  match s with
  | EmptyString => true
  | String c s' => negb (like_special c) && like_free s'
  end.

(** The strict overlap of the availability check, as a proposition. *)
Definition strict_overlap (b e : datetime) (start_dt end_dt : datetime) : Prop :=
  seconds_of b < seconds_of end_dt /\ seconds_of e > seconds_of start_dt.

(** The overlap with its bounds included. *)
Definition inclusive_overlap (b e : datetime) (start_dt end_dt : datetime) : Prop :=
  seconds_of b <= seconds_of end_dt /\ seconds_of e >= seconds_of start_dt.

Definition set_resourcelist (rl : list reservation) (w : world) : world :=
  mk_world (resources w) rl (tasks w) (calendar w)
           (environ w) (faults w) (statements w).

Definition is_conflict_statement (st : statement) : bool :=
  match st with
  | CountConflicts _ _ _ | CountConflictsGrouped _ _ _ => true
  | _ => false
  end.

(** The first [strptime] failure of a call that parses [start_time] and
    then [end_time]. *)
Definition parse_failure (start_time end_time : string) : option exn :=
  match strptime start_time with
  | inl e => Some e
  | inr _ => match strptime end_time with
             | inl e => Some e
             | inr _ => None
             end
  end.

(** The kind that [resolve_resource_info] gives to a list of description
    matches. *)
Definition kind_of_matches (matches : list resource_row) : resolution_type :=
  match matches with
  | [] => not_found
  | [_] => single
  | _ :: _ :: _ => multiple
  end.

Fixpoint literal_items (s : string) : list like_item :=
  match s with
  | EmptyString => []
  | String c s' => LikeChar c :: literal_items s'
  end.

(** The primitives leave the tables and the environment alone. *)
Definition same_tables (w w' : world) : Prop :=
  resources w' = resources w /\ resourcelist w' = resourcelist w /\
  tasks w' = tasks w /\ calendar w' = calendar w /\ environ w' = environ w.

(** The order of [ORDER BY reresourceid]. *)
Definition id_le (a b : resource_row) : Prop :=
  String.leb (reresourceid a) (reresourceid b) = true.

Definition world_of_resources (rs : list resource_row) : world :=
  mk_world rs [] [] [] [] [] [].

(** The number of reservations of [resource_id] that conflict with the
    window. *)
Definition conflict_count (resource_id : string) (end_dt start_dt : datetime)
    (w : world) : Z :=
  Z.of_nat (length (List.filter (fun r => rl_is resource_id r
                                          && conflicts end_dt start_dt r)
                                (resourcelist w))).

Definition absent (d : gmap string Z) (r : resource_row) : bool :=
  match d !! reresourceid r with
  | None => true
  | Some _ => false
  end.

(** [j[k1][k2]...] *)
Fixpoint jpath (keys : list string) (j : json) : option json :=
  match keys with
  | [] => Some j
  | k :: keys' =>
      match jget k j with
      | Some j' => jpath keys' j'
      | None => None
      end
  end.

(** Two rooms with similar descriptions, a vehicle and a retired room; one
    reservation of the first room from 09:00 to 10:00. *)
Definition campus : world :=
  mk_world
    [mk_resource "AULA02" "Aula Corsi Grande" "R" "CAL1" 1;
     mk_resource "AULA01" "Aula Corsi" "R" "CAL1" 1;
     mk_resource "FIAT01" "Fiat Panda" "V" "CAL2" 1;
     mk_resource "AULA00" "Aula corsi chiusa" "R" "CAL1" 0]
    [mk_reservation (Some "AULA01")
       (mk_datetime 2024 6 1 9 0 0) (mk_datetime 2024 6 1 10 0 0)]
    [] [] [] [] [].

(** The rows of one calendar, in the order of the query. *)
Definition rows_of_calendar (k : string) (results : list booking) : list booking :=
  List.filter (fun b => String.eqb (cod_calendario b) k) results.

(** The events that the report lists under calendar code [k]. *)
Definition reported_events (k : string) (report : json) : option json :=
  jpath ["risorse"; k; "eventi"] report.

(** A confirmed lesson from 10:00 to 11:00 in the first of three listed
    calendars, a draft, and a confirmed task of a calendar that is not
    listed. *)
Definition timetable (calendar_codes : string) : world :=
  mk_world [] []
    [mk_task "Lezione" 7 "CAL1" "Aula 1" "AULA01"
       (mk_datetime 2024 6 1 10 0 0) (mk_datetime 2024 6 1 11 0 0) "C";
     mk_task "Bozza" 8 "CAL1" "Aula 1" "AULA01"
       (mk_datetime 2024 6 1 11 0 0) (mk_datetime 2024 6 1 12 0 0) "P";
     mk_task "Riunione" 9 "CAL9" "Sala" "SALA01"
       (mk_datetime 2024 6 1 11 0 0) (mk_datetime 2024 6 1 12 0 0) "C"]
    [mk_calendar "CAL1" "Aule"; mk_calendar "CAL2" "Automezzi";
     mk_calendar "CAL9" "Sale"]
    [("CALENDAR_CODES", calendar_codes)] [] [].

(** Three confirmed tasks of two listed calendars, stored in another order
    than the one of the query: two lessons of the first calendar, from
    09:00 to 10:10 and from 11:00 to 12:00, and a seminar of the second
    from 11:00 to 12:10. *)
Definition agenda : world :=
  mk_world [] []
    [mk_task "Seminario" 3 "CAL2" "Sala" "FIAT01"
       (mk_datetime 2024 6 1 11 0 0) (mk_datetime 2024 6 1 12 10 0) "C";
     mk_task "Lezione B" 2 "CAL1" "Aula 1" "AULA01"
       (mk_datetime 2024 6 1 11 0 0) (mk_datetime 2024 6 1 12 0 0) "C";
     mk_task "Lezione A" 1 "CAL1" "Aula 1" "AULA01"
       (mk_datetime 2024 6 1 9 0 0) (mk_datetime 2024 6 1 10 10 0) "C"]
    [mk_calendar "CAL1" "Aule"; mk_calendar "CAL2" "Automezzi";
     mk_calendar "CAL3" "Proiettori"]
    [("CALENDAR_CODES", "CAL1,CAL2,CAL3")] [] [].

(** [m] does not see the difference between the reservation lists [rl]
    and [rl']: started in two worlds that differ only there, it returns the
    same result and leaves two worlds that differ only there. *)
Definition frames {A} (rl rl' : list reservation) (m : M A) : Prop :=
  forall w,
    resourcelist w = rl ->
    m (set_resourcelist rl' w)
    = (fst (m w), set_resourcelist rl' (snd (m w)))
    /\ resourcelist (snd (m w)) = rl.

(** Opens the tools down to the monad. *)
Ltac unfold_operations :=
  unfold get_active_bookings, get_active_bookings_body,
    check_resource_availability, check_resource_availability_body,
    find_free_resources, find_free_resources_body,
    try_except, bind, lift, ret.

(** The order of an [ORDER BY] on a character column and then on a second
    key compared by [leb2]. *)
Definition lex_leb {A} (key : A -> string) (leb2 : A -> A -> bool)
    (a b : A) : bool :=
  if String.eqb (key a) (key b) then leb2 a b else String.leb (key a) (key b).

(** The entry of one resource in the report of
    [list_available_resources]. *)
Definition resource_json (r : resource_row) : json :=
  JDict [ ("id", JStr (reresourceid r));
          ("description", JStr (redescri r));
          ("type", JStr (retype r));
          ("calendar_code", JStr (recodcal r)) ].

(** The entry of one resource in the report of [find_free_resources]. *)
Definition free_resource_json (r : resource_row) : json :=
  JDict [ ("id", JStr (reresourceid r));
          ("descrizione", JStr (redescri r));
          ("tipo_codice", JStr (retype r)) ].

(** The rows that the [CASE] expression labels [label]. *)
Definition rows_of_type (rooms vehicles projectors : option string)
    (label : string) (results : list resource_row) : list resource_row :=
  List.filter (fun r => String.eqb (tipo_descrizione rooms vehicles projectors r)
                                   label)
              results.

(** The number of commas of a string. *)
Fixpoint count_commas (s : string) : nat :=
  match s with
  | EmptyString => O
  | String c s' => if Ascii.eqb c "," then S (count_commas s') else count_commas s'
  end.

(** The last character of a string. *)
Fixpoint last_char (s : string) : option ascii :=
  match s with
  | EmptyString => None
  | String c EmptyString => Some c
  | String _ s' => last_char s'
  end.

Definition first_char (s : string) : option ascii :=
  match s with
  | EmptyString => None
  | String c _ => Some c
  end.

(** [s] neither starts nor ends with a blank. *)
Definition stripped (s : string) : Prop :=
  (forall c, first_char s = Some c -> is_space c = false)
  /\ (forall c, last_char s = Some c -> is_space c = false).


(** The run [r] of a tool ended with the report of the exception [e], and
    the pending outcomes of the database that are left are [fs]. *)
Definition reports_failure (e : exn) (fs : list (option exn))
    (r : (exn + json) * world) : Prop :=
  fst r = inr (JDict [("error", JStr (str_exn e))]) /\ faults (snd r) = fs.

(** The first match that the regular-expression engine finds for [p] at
    the start of [s] is [a], followed by [r]. *)
Definition first_match {A} (p : matcher A) (s : string) (a : A) (r : string)
  : Prop :=
  exists tl, p s = (a, r) :: tl.

(** The decimal digit [v] as a character. *)
Definition digit_char (v : Z) : ascii := ascii_of_code (48 + v).

(* ================================================================== *)
(** ** tools/activity_tools.py: [_escape_xml] *)

(** [s.replace(old, new)] for a one-character [old].  Strings are kept as
    their UTF-8 bytes; the characters replaced here are ASCII, and no byte
    of a longer character equals one of them. *)
Fixpoint replace (old : ascii) (new : string) (s : string) : string :=
  match s with
  | EmptyString => EmptyString
  | String c s' =>
      if Ascii.eqb c old then String.append new (replace old new s')
      else String c (replace old new s')
  end.

(** [ActivityManager._escape_xml(text)]: five replacements, one after the
    other, each over the result of the one before. *)
Definition _escape_xml (text : string) : string :=
  match text with
  | EmptyString => EmptyString
  | _ =>
      replace "'" "&#39;"
        (replace quote_char "&quot;"
           (replace ">" "&gt;"
              (replace "<" "&lt;"
                 (replace "&" "&amp;" text))))
  end.

(** The entity that stands for a character of markup, and the character
    itself otherwise. *)
Definition xml_entity (c : ascii) : string :=
  if Ascii.eqb c "&" then "&amp;"
  else if Ascii.eqb c "<" then "&lt;"
  else if Ascii.eqb c ">" then "&gt;"
  else if Ascii.eqb c quote_char then "&quot;"
  else if Ascii.eqb c "'" then "&#39;"
  else String c EmptyString.

(** Every character replaced by its entity, in one pass. *)
Fixpoint escape_once (text : string) : string :=
  match text with
  | EmptyString => EmptyString
  | String c s => String.append (xml_entity c) (escape_once s)
  end.

(** [s] starts with [p]. *)
Fixpoint starts_with (p s : string) : bool :=
  match p, s with
  | EmptyString, _ => true
  | String a p', String b s' => Ascii.eqb a b && starts_with p' s'
  | String _ _, EmptyString => false
  end.

(** The entity reference at the start of [s], after its ampersand: the
    character it stands for and the number of characters to skip. *)
Definition entity_reference (s : string) : option (ascii * nat) :=
  if starts_with "amp;" s then Some ("&"%char, 4%nat)
  else if starts_with "lt;" s then Some ("<"%char, 3%nat)
  else if starts_with "gt;" s then Some (">"%char, 3%nat)
  else if starts_with "quot;" s then Some (quote_char, 5%nat)
  else if starts_with "#39;" s then Some ("'"%char, 4%nat)
  else None.

(** What an XML parser reads in an attribute value or in character data
    that uses these five references, from left to right; [skip] characters
    of a reference are still to be passed over. *)
Fixpoint xml_unescape_from (skip : nat) (s : string) : string :=
  match s with
  | EmptyString => EmptyString
  | String c r =>
      match skip with
      | S k => xml_unescape_from k r
      | O =>
          if Ascii.eqb c "&" then
            match entity_reference r with
            | Some (ch, len) => String ch (xml_unescape_from len r)
            | None => String c (xml_unescape_from O r)
            end
          else String c (xml_unescape_from O r)
      end
  end.

Definition xml_unescape (s : string) : string := xml_unescape_from O s.

(* ================================================================== *)
(** ** tools/activity_tools.py: validation of an activity *)

Definition title_error : string := "Il titolo è obbligatorio".
Definition resource_error : string := "L'ID risorsa è obbligatorio".
Definition order_error : string :=
  "La data e ora di fine deve essere successiva alla data e ora di inizio".
Definition past_error : string :=
  "La data e ora di inizio non può essere nel passato".
Definition format_error : string :=
  "Formato data non valido. Utilizzare YYYY-MM-DD HH:MM".

(** A value of [datetime.now()]: the clock to the second, and its
    microseconds. *)
Record clock_reading : Type := mk_clock {
  now_second : datetime;
  now_microsecond : Z
}.

(** [start_dt < now] for a parsed [start_dt], whose microseconds are 0. *)
Definition before_now (start_dt : datetime) (now : clock_reading) : bool :=
  (seconds_of start_dt <? seconds_of (now_second now))
  || ((seconds_of start_dt =? seconds_of (now_second now))
      && (0 <? now_microsecond now)).

(** The dictionary that [validate_activity_data] returns. *)
Record validation : Type := mk_validation {
  valid : bool;
  errors : list string
}.

(** [not s or not s.strip()] *)
Definition blank (s : string) : bool := String.eqb (strip s) EmptyString.

(** [validate_activity_data(title, resource_id, start_time, end_time)],
    with [now] the value of [datetime.now()] if the function comes to read
    the clock.  Only a [ValueError] of the [try] block is caught. *)
Definition validate_activity_data
    (title resource_id start_time end_time : string) (now : clock_reading)
  : exn + validation :=
  let errors := [] in
  let errors := if blank title then errors ++ [title_error] else errors in
  let errors :=
    if blank resource_id then errors ++ [resource_error] else errors in
  let checked : exn + list string :=
    match strptime start_time with
    | inl e => inl e
    | inr start_dt =>
        match strptime end_time with
        | inl e => inl e
        | inr end_dt =>
            let errors :=
              if ts_ge start_dt end_dt then errors ++ [order_error]
              else errors in
            let errors :=
              if before_now start_dt now then errors ++ [past_error]
              else errors in
            inr errors
        end
    end in
  match checked with
  | inr errors =>
      inr (mk_validation (Nat.eqb (length errors) 0) errors)
  | inl e =>
      if is_ValueError e then
        let errors := errors ++ [format_error] in
        inr (mk_validation (Nat.eqb (length errors) 0) errors)
      else inl e
  end.

(** [sep.join(l)] *)
Fixpoint join (sep : string) (l : list string) : string :=
  match l with
  | [] => EmptyString
  | x :: rest =>
      match rest with
      | [] => x
      | _ :: _ => String.append x (String.append sep (join sep rest))
      end
  end.

(** The value of [resource_ids]: the string itself, or a list. *)
Inductive resource_ids_value : Type :=
| IdStr (s : string)
| IdList (l : list string).

(** [[rid.strip() for rid in resource_id.split(',')]] when [resource_id]
    has a comma, [resource_id] itself otherwise. *)
Definition resource_ids_of (resource_id : string) : resource_ids_value :=
  if has_char "," resource_id
  then IdList (map strip (split_comma resource_id))
  else IdStr resource_id.

Fixpoint characters (s : string) : list string :=
  match s with
  | EmptyString => []
  | String c s' => String c EmptyString :: characters s'
  end.

(** [for x in resource_ids]: the items of a list, the characters of a
    string. *)
Definition iterate (resource_ids : resource_ids_value) : list string :=
  match resource_ids with
  | IdStr s => characters s
  | IdList l => l
  end.

Definition resource_ids_json (resource_ids : resource_ids_value) : json :=
  match resource_ids with
  | IdStr s => JStr s
  | IdList l => JList (map JStr l)
  end.

(** The validation loop of [create_new_activity] and [update_activity]:
    the first id that is not valid, with its errors.  Each call of
    [validate_activity_data] whose dates parse reads the clock once;
    [clock n] is reading number [n], and [n] readings were made before. *)
Fixpoint first_rejected (title : string) (ids : list string)
    (start_time end_time : string) (clock : nat -> clock_reading) (n : nat)
  : exn + option (string * list string) :=
  match ids with
  | [] => inr None
  | resource_id :: rest =>
      match validate_activity_data title resource_id start_time end_time
              (clock n) with
      | inl e => inl e
      | inr validation =>
          if valid validation
          then first_rejected title rest start_time end_time clock (S n)
          else inr (Some (resource_id, errors validation))
      end
  end.

(** [f"Dati non validi per risorsa {resource_id}: " + ", ".join(errors)] *)
Definition rejection_message (resource_id : string) (errors : list string)
  : string :=
  String.append "Dati non validi per risorsa "
    (String.append resource_id (String.append ": " (join ", " errors))).

Definition update_details (task_id : Z) (title : string)
    (resource_ids : resource_ids_value) (start_time end_time : string)
  : json :=
  JDict [ ("task_id", JInt task_id);
          ("title", JStr title);
          ("resource_ids", resource_ids_json resource_ids);
          ("start_time", JStr start_time);
          ("end_time", JStr end_time) ].

Section Activities.

(** The parts that talk to the REST service are parameters:
    [ActivityManager().create_activity] with its result, and the part of
    [update_activity] from [ActivityManager()] to the response it
    builds. *)
Variable manager_create_activity :
  string -> list string -> string -> string -> M json.
Variable update_request :
  Z -> string -> resource_ids_value -> string -> string -> string -> M json.

(** [create_new_activity(title, resource_ids, start_time, end_time)] *)
Definition create_new_activity (title : string)
    (resource_ids : resource_ids_value) (start_time end_time : string)
    (clock : nat -> clock_reading) : M json :=
  let resource_ids :=
    match resource_ids with
    | IdStr s => [s]
    | IdList l => l
    end in
  rejected <- lift (first_rejected title resource_ids start_time end_time
                      clock 0) ;;
  match rejected with
  | Some (resource_id, errors) =>
      ret (JDict [ ("success", JBool false);
                   ("error", JStr (rejection_message resource_id errors)) ])
  | None =>
      manager_create_activity title resource_ids start_time end_time
  end.

(** [update_activity(task_id, title, resource_id, start_time, end_time,
    location, description, priority)] *)
Definition update_activity (task_id : Z)
    (title resource_id start_time end_time location description : string)
    (priority : Z) (clock : nat -> clock_reading) : M json :=
  let resource_ids := resource_ids_of resource_id in
  try_except
    (rejected <- lift (first_rejected title (iterate resource_ids)
                         start_time end_time clock 0) ;;
     match rejected with
     | Some (resource_id_single, errors) =>
         ret (JDict [
           ("success", JBool false);
           ("error", JStr (rejection_message resource_id_single errors));
           ("details", update_details task_id title resource_ids
                         start_time end_time) ])
     | None =>
         update_request task_id title resource_ids start_time end_time
           location
     end)
    (fun e =>
       ret (JDict [
         ("success", JBool false);
         ("error", JStr (String.append "Errore imprevisto: " (str_exn e)));
         ("details", update_details task_id title resource_ids
                       start_time end_time) ])).

End Activities.

(** The data of an activity pass the validation read at [now]. *)
Definition acceptable (title resource_id start_time end_time : string)
    (now : clock_reading) : Prop :=
  blank title = false
  /\ blank resource_id = false
  /\ exists start_dt end_dt,
       strptime start_time = inr start_dt
       /\ strptime end_time = inr end_dt
       /\ seconds_of start_dt < seconds_of end_dt
       /\ before_now start_dt now = false.

(* ================================================================== *)
(** ** server.py: [handle_call_tool] *)

(** The tool functions that the server imports, applied to the values of
    the arguments as they come. *)
Record tools : Type := mk_tools {
  tool_get_active_bookings : json -> json -> M json;
  tool_check_resource_availability : json -> json -> json -> M json;
  tool_find_free_resources : json -> json -> M json;
  tool_list_available_resources : M json;
  tool_health_check : M json;
  tool_create_activity :
    json -> json -> json -> json -> json -> json -> json -> M json;
  tool_update_activity :
    json -> json -> json -> json -> json -> json -> json -> json -> M json
}.

(** What the call of a handler can raise: the [KeyError] of
    [arguments[key]], or an exception of the tool. *)
Inductive raised : Type :=
| KeyError (key : string)
| Raised (e : exn).

(** [str(e)]; the text of a [KeyError] is the [repr] of its key. *)
Definition str_raised (e : raised) : string :=
  match e with
  | KeyError key => py_repr key
  | Raised e => str_exn e
  end.

(** [arguments[key]] *)
Definition item (arguments : gmap string json) (key : string)
  : raised + json :=
  match arguments !! key with
  | Some v => inr v
  | None => inl (KeyError key)
  end.

(** [arguments.get(key, value)] *)
Definition get_or (arguments : gmap string json) (key : string) (value : json)
  : json :=
  match arguments !! key with
  | Some v => v
  | None => value
  end.

Definition and_then {A B} (r : raised + A) (k : A -> raised + B)
  : raised + B :=
  match r with
  | inl e => inl e
  | inr a => k a
  end.

(** The dictionary [tool_handlers].  The call of a handler evaluates the
    arguments of the tool from left to right and gives the coroutine of
    the tool. *)
Definition tool_handlers (t : tools) (arguments : gmap string json)
  : list (string * (raised + M json)) :=
  [ ("get_active_bookings",
     and_then (item arguments "start_date") (fun start_date =>
     and_then (item arguments "end_date") (fun end_date =>
     inr (tool_get_active_bookings t start_date end_date))));
    ("check_resource_availability",
     and_then (item arguments "resource") (fun resource =>
     and_then (item arguments "start_time") (fun start_time =>
     and_then (item arguments "end_time") (fun end_time =>
     inr (tool_check_resource_availability t resource start_time end_time)))));
    ("find_free_resources",
     and_then (item arguments "start_time") (fun start_time =>
     and_then (item arguments "end_time") (fun end_time =>
     inr (tool_find_free_resources t start_time end_time))));
    ("list_available_resources", inr (tool_list_available_resources t));
    ("health_check", inr (tool_health_check t));
    ("create_activity",
     and_then (item arguments "title") (fun title =>
     and_then (item arguments "resource_id") (fun resource_id =>
     and_then (item arguments "start_time") (fun start_time =>
     and_then (item arguments "end_time") (fun end_time =>
     inr (tool_create_activity t title resource_id start_time end_time
            (get_or arguments "location" (JStr EmptyString))
            (get_or arguments "description" (JStr EmptyString))
            (get_or arguments "priority" (JInt 5))))))));
    ("update_activity",
     and_then (item arguments "task_id") (fun task_id =>
     and_then (item arguments "title") (fun title =>
     and_then (item arguments "resource_id") (fun resource_id =>
     and_then (item arguments "start_time") (fun start_time =>
     and_then (item arguments "end_time") (fun end_time =>
     inr (tool_update_activity t task_id title resource_id start_time
            end_time
            (get_or arguments "location" (JStr EmptyString))
            (get_or arguments "description" (JStr EmptyString))
            (get_or arguments "priority" (JInt 5))))))))) ].

(** [handle_call_tool(name, arguments)]: the value whose JSON text is the
    [text] of the one [TextContent] returned. *)
Definition handle_call_tool (t : tools) (name : string)
    (arguments : gmap string json) : world -> json * world := fun w =>
  let body : (raised + json) * world :=
    match assoc_get name (tool_handlers t arguments) with
    | Some handler =>
        match handler with
        | inl e => (inl e, w)
        | inr tool =>
            match tool w with
            | (inl e, w') => (inl (Raised e), w')
            | (inr result, w') => (inr result, w')
            end
        end
    | None =>
        (inl (Raised (ValueError (String.append "Tool sconosciuto: " name))), w)
    end in
  match body with
  | (inr result, w') => (result, w')
  | (inl e, w') => (error_report (str_raised e), w')
  end.

(** The keys that the handler of a tool reads with [arguments[key]], in
    the order in which it reads them. *)
Definition required_keys (name : string) : option (list string) :=
  assoc_get name
    [ ("get_active_bookings", ["start_date"; "end_date"]);
      ("check_resource_availability", ["resource"; "start_time"; "end_time"]);
      ("find_free_resources", ["start_time"; "end_time"]);
      ("list_available_resources", []);
      ("health_check", []);
      ("create_activity", ["title"; "resource_id"; "start_time"; "end_time"]);
      ("update_activity",
       ["task_id"; "title"; "resource_id"; "start_time"; "end_time"]) ].

(** An instance of the tools for examples: the query tools of this
    development where the arguments are strings, and [null] for every
    other call. *)
Definition on_strings2 (f : string -> string -> M json) (a b : json) : M json :=
  match a, b with
  | JStr a, JStr b => f a b
  | _, _ => ret JNull
  end.

Definition query_tools : tools :=
  mk_tools
    (on_strings2 get_active_bookings)
    (fun r a b => match r with
                  | JStr r => on_strings2 (check_resource_availability r) a b
                  | _ => ret JNull
                  end)
    (on_strings2 find_free_resources)
    list_available_resources
    (ret JNull)
    (fun _ _ _ _ _ _ _ => ret JNull)
    (fun _ _ _ _ _ _ _ _ => ret JNull).

(* ================================================================== *)
(** ** database.py: [convert_decimals] *)

(** A finite [Decimal]: [unscaled * 10 ^ (- scale)]. *)
Record py_decimal : Type := mk_decimal {
  unscaled : Z;
  scale : Z
}.

(** The Python values that a row or a report can hold.  A dictionary
    keeps its items in insertion order. *)
Inductive pyvalue : Type :=
| PNone
| PBool (b : bool)
| PInt_ (z : Z)
| PFloat_ (f : pyfloat)
| PDecimal (d : py_decimal)
| PStr (s : string)
| PList (l : list pyvalue)
| PTuple (l : list pyvalue)
| PDict (kv : list (pyvalue * pyvalue)).

Section ConvertDecimals.

(** [float(d)] for a [Decimal]. *)
Variable float_of_decimal : py_decimal -> pyfloat.

(** [convert_decimals(obj)] *)
Fixpoint convert_decimals (obj : pyvalue) : pyvalue :=
  match obj with
  | PDecimal d => PFloat_ (float_of_decimal d)
  | PDict kv =>
      PDict (map (fun item => let '(key, value) := item in
                              (key, convert_decimals value)) kv)
  | PList l => PList (map convert_decimals l)
  | _ => obj
  end.

End ConvertDecimals.

(** A [Decimal] can be reached from [obj] through items of lists and
    values of dictionaries. *)
Fixpoint reaches_decimal (obj : pyvalue) : bool :=
  match obj with
  | PDecimal _ => true
  | PDict kv =>
      existsb (fun item => let '(_, value) := item in reaches_decimal value) kv
  | PList l => existsb reaches_decimal l
  | _ => false
  end.

(** [obj] holds a [Decimal] somewhere, keys and tuples included. *)
Fixpoint holds_decimal (obj : pyvalue) : bool :=
  match obj with
  | PDecimal _ => true
  | PDict kv =>
      existsb (fun item => let '(key, value) := item in
                           holds_decimal key || holds_decimal value) kv
  | PList l | PTuple l => existsb holds_decimal l
  | _ => false
  end.
(* ================================================================== *)
(** ** tools/health_tools.py: [health_check] *)

(** [now.isoformat()]: the microseconds are printed when they are not 0. *)
Definition isoformat (now : clock_reading) : string :=
  let d := now_second now in
  String.append (zero_pad 4 (year d))
    (String "-" (String.append (zero_pad 2 (month d))
      (String "-" (String.append (zero_pad 2 (day d))
        (String "T" (String.append (zero_pad 2 (hour d))
          (String ":" (String.append (zero_pad 2 (minute d))
            (String ":" (String.append (zero_pad 2 (second d))
              (if now_microsecond now =? 0 then EmptyString
               else String "." (zero_pad 6 (now_microsecond now))))))))))))).

(** [SELECT COUNT( * ) as count FROM calendar] *)
Definition count_calendars (w : world) : list Z :=
  [Z.of_nat (length (calendar w))].

(** [SELECT COUNT( * ) as count FROM resources WHERE flactive = 1] *)
Definition count_active_resources (w : world) : list Z :=
  [Z.of_nat (length (List.filter (fun r => flactive r =? 1) (resources w)))].

(** The body of the [try] block; [fetchone()] of no row is [None], which
    has no ['count']. *)
Definition health_check_body (now : clock_reading) : M json :=
  _ <- get_db_connection ;;
  cal_rows <- execute CountCalendars (fun w => inr (count_calendars w)) ;;
  res_rows <- execute CountActiveResources
                (fun w => inr (count_active_resources w)) ;;
  match cal_rows, res_rows with
  | cal_result :: _, res_result :: _ =>
      ret (JDict [ ("status", JStr "healthy");
                   ("database_connection", JStr "ok");
                   ("calendari_totali", JNum (PyInt cal_result));
                   ("risorse_attive", JNum (PyInt res_result));
                   ("timestamp", JStr (isoformat now)) ])
  | _, _ => raise (TypeError "'NoneType' object is not subscriptable")
  end.

(** [health_check()], with [now] the value of [datetime.now()] in the
    branch that is taken. *)
Definition health_check (now : clock_reading) : M json :=
  try_except (health_check_body now)
    (fun e => ret (JDict [ ("status", JStr "unhealthy");
                           ("database_connection", JStr "error");
                           ("error", JStr (str_exn e));
                           ("timestamp", JStr (isoformat now)) ])).

(* ================================================================== *)
(** ** The form of a date *)

(** [s] has the form [form], where a capital letter of the form stands
    for a decimal digit and every other character for itself. *)
Fixpoint fits (form s : string) : bool :=
  match form, s with
  | EmptyString, EmptyString => true
  | String f form', String c s' =>
      (if is_upper f then is_digit c else Ascii.eqb f c) && fits form' s'
  | _, _ => false
  end.

(** [s] is in the form [YYYY-MM-DD HH:MM], as the specification words
    it. *)
Definition in_form (s : string) : bool := fits "YYYY-MM-DD HH:MM" s.

(* ================================================================== *)
(** ** The numbers of a report, read as exact fractions *)

(** A rounding to one decimal place: the nearest multiple of one tenth,
    and the even one of the two when they are as near. *)
Definition Qround1 (x : Q) : Q :=
  let t := (x * 10)%Q in
  let f := Qfloor t in
  let n := match Qcompare (t - inject_Z f) (1 # 2) with
           | Lt => f
           | Gt => f + 1
           | Eq => if Z.even f then f else f + 1
           end in
  (inject_Z n * (1 # 10))%Q.

(** What is assumed of [round(x, 1)]: the result is within half a tenth of
    [x], it depends on the value of [x] only, and an integer is left as it
    is.  Which of two tenths that are as near is taken is left open: for
    binary floating point it depends on the representation of [x]. *)
Definition nearest_tenth (round1 : Q -> Q) : Prop :=
  (forall x, (Qabs (round1 x - x) <= 1 # 20)%Q)
  /\ (forall x y, (x == y)%Q -> (round1 x == round1 y)%Q)
  /\ (forall z, (round1 (inject_Z z) == inject_Z z)%Q).

Definition Qsum (l : list Q) : Q := fold_right Qplus 0%Q l.

Section ExactReading.

(** The rounding that stands for [round(x, 1)]. *)
Variable round1 : Q -> Q.

(** The value of a floating-point term when every operation but the
    rounding is exact: the hours of the database are the seconds over
    3600. *)
Fixpoint float_value (f : pyfloat) : Q :=
  match f with
  | F_of_int z => inject_Z z
  | F_sql_hours seconds => (inject_Z seconds * (1 # 3600))%Q
  | F_add a b => (float_value a + float_value b)%Q
  | F_div a b => (float_value a / float_value b)%Q
  | F_round1 a => round1 (float_value a)
  end.

Definition num_value (n : pynum) : Q :=
  match n with
  | PyInt z => inject_Z z
  | PyFloat f => float_value f
  end.

(** The unrounded hours of a row of the task query. *)
Definition hours_of (b : booking) : Q := num_value (durata_ore b).

(** The unrounded hours of the rows of calendar [k]. *)
Definition calendar_hours (results : list booking) (k : string) : Q :=
  Qsum (map hours_of (rows_of_calendar k results)).

End ExactReading.

(* ================================================================== *)
(** ** Effects: what the primitives do when no fault is pending *)

Lemma faults_add_statement st w : faults (add_statement st w) = faults w.
Proof. reflexivity. Qed.

Lemma get_db_connection_ok w :
  faults w = [] -> get_db_connection w = (inr tt, w).
Proof.
  intros H. unfold get_db_connection, try_except, database_operation.
  now rewrite H.
Qed.

Lemma execute_ok {R} st (rows : world -> exn + list R) w :
  faults w = [] ->
  execute st rows w = (rows (add_statement st w), add_statement st w).
Proof.
  intros H. unfold execute, database_operation.
  rewrite faults_add_statement, H. reflexivity.
Qed.

(** [ORDER BY] reorders and nothing else. *)
Lemma order_by_Permutation {A} (leb : A -> A -> bool) l :
  Permutation (order_by leb l) l.
Proof. unfold order_by. apply merge_sort_Permutation. Qed.

Lemma order_by_In {A} (leb : A -> A -> bool) l x :
  In x (order_by leb l) <-> In x l.
Proof.
  split; apply Permutation_in;
    [apply order_by_Permutation | symmetry; apply order_by_Permutation].
Qed.

(* ================================================================== *)
(** ** [LIKE] with a pattern [%token%] *)

Lemma lower_char_special c : like_special (lower_char c) = like_special c.
Proof. destruct c as [[] [] [] [] [] [] [] []]; reflexivity. Qed.

Lemma like_free_LOWER s : like_free (LOWER s) = like_free s.
Proof.
  induction s as [|c s IH]; [reflexivity|].
  change (LOWER (String c s)) with (String (lower_char c) (LOWER s)).
  simpl. now rewrite lower_char_special, IH.
Qed.

Lemma LOWER_append a b :
  LOWER (String.append a b) = String.append (LOWER a) (LOWER b).
Proof.
  induction a as [|c a IH]; [reflexivity|].
  change (LOWER (String.append (String c a) b))
    with (String (lower_char c) (LOWER (String.append a b))).
  now rewrite IH.
Qed.

Lemma like_pattern_free s rest :
  like_free s = true ->
  like_pattern (String.append s rest) = literal_items s ++ like_pattern rest.
Proof.
  induction s as [|c s IH]; intros H; [reflexivity|].
  change (like_free (String c s)) with (negb (like_special c) && like_free s) in H.
  change (like_pattern (String.append (String c s) rest))
    with (like_pattern (String c (String.append s rest))).
  change (literal_items (String c s) ++ like_pattern rest)
    with (LikeChar c :: (literal_items s ++ like_pattern rest)).
  cbn [like_pattern].
  apply andb_prop in H as [Hc Hs]. unfold like_special in Hc.
  apply negb_true_iff in Hc.
  apply orb_false_elim in Hc as [Hc H3]. apply orb_false_elim in Hc as [H1 H2].
  rewrite H1, H2, H3. now rewrite IH.
Qed.

Lemma append_nil_l s : String.append EmptyString s = s.
Proof. reflexivity. Qed.

Lemma append_cons c a b :
  String.append (String c a) b = String c (String.append a b).
Proof. reflexivity. Qed.

Lemma append_nil_r s : String.append s EmptyString = s.
Proof. induction s as [|c s IH]; [reflexivity|]. now rewrite append_cons, IH. Qed.

Lemma like_any_unfold items s :
  like_items (LikeAny :: items) s
  = like_items items s
    || match s with
       | String _ s' => like_items (LikeAny :: items) s'
       | EmptyString => false
       end.
Proof. destruct s; reflexivity. Qed.

(** A leading [%] lets the rest of the pattern start anywhere. *)
Lemma like_any_spec items s :
  like_items (LikeAny :: items) s = true <->
  exists pre rest, s = String.append pre rest /\ like_items items rest = true.
Proof.
  induction s as [|c s IH]; rewrite like_any_unfold.
  - rewrite orb_false_r. split.
    + intros H. now exists EmptyString, EmptyString.
    + intros (pre & rest & E & H). destruct pre as [|c' pre].
      * rewrite append_nil_l in E. now rewrite E.
      * rewrite append_cons in E. discriminate.
  - rewrite orb_true_iff, IH. split.
    + intros [H | (pre & rest & E & H)].
      * now exists EmptyString, (String c s).
      * exists (String c pre), rest. now rewrite append_cons, E.
    + intros (pre & rest & E & H). destruct pre as [|c' pre].
      * left. rewrite append_nil_l in E. now rewrite E.
      * right. rewrite append_cons in E. injection E as -> ->.
        now exists pre, rest.
Qed.

(** Literal characters followed by [%] match the strings they begin. *)
Lemma like_literal_spec t s :
  like_items (literal_items t ++ [LikeAny]) s = true <->
  exists post, s = String.append t post.
Proof.
  revert s. induction t as [|c t IH]; intros s.
  - change (literal_items EmptyString ++ [LikeAny]) with [LikeAny].
    split; [intros _; now exists s|intros _].
    apply like_any_spec. exists s, EmptyString.
    now rewrite append_nil_r.
  - change (literal_items (String c t) ++ [LikeAny])
      with (LikeChar c :: (literal_items t ++ [LikeAny])).
    destruct s as [|d s].
    + split; [discriminate|]. intros (post & E).
      rewrite append_cons in E. discriminate.
    + change (like_items (LikeChar c :: (literal_items t ++ [LikeAny])) (String d s))
        with (Ascii.eqb c d && like_items (literal_items t ++ [LikeAny]) s).
      rewrite andb_true_iff, IH. split.
      * intros [Hc (post & ->)]. apply Ascii.eqb_eq in Hc as ->.
        exists post. now rewrite append_cons.
      * intros (post & E). rewrite append_cons in E. injection E as -> ->.
        split; [apply Ascii.eqb_refl|now exists post].
Qed.

(** For a token without special characters, [LIKE '%token%'] is the
    occurrence of the token. *)
Lemma LIKE_description_pattern token s :
  like_free token = true ->
  LIKE s (description_pattern token) = true <-> contains token s.
Proof.
  intros Hfree. unfold LIKE, description_pattern, contains.
  change (like_pattern (String "%" (String.append token "%")))
    with (LikeAny :: like_pattern (String.append token "%")).
  rewrite like_pattern_free by assumption.
  change (like_pattern "%") with [LikeAny].
  rewrite like_any_spec. split.
  - intros (pre & rest & -> & H). apply like_literal_spec in H as (post & ->).
    now exists pre, post.
  - intros (pre & post & ->). exists pre, (String.append token post).
    split; [reflexivity|]. apply like_literal_spec. now exists post.
Qed.

Lemma LOWER_description_pattern token :
  LOWER (description_pattern token) = description_pattern (LOWER token).
Proof.
  unfold description_pattern.
  change (LOWER (String "%" (String.append token "%")))
    with (String "%" (LOWER (String.append token "%"))).
  now rewrite LOWER_append.
Qed.

Lemma LIKE_LOWER_contains_ci token description :
  like_free token = true ->
  LIKE (LOWER description) (LOWER (description_pattern token)) = true
  <-> contains_ci token description.
Proof.
  intros H. rewrite LOWER_description_pattern.
  apply LIKE_description_pattern. now rewrite like_free_LOWER.
Qed.

(* ================================================================== *)
(** ** [resolve_resource_info] *)

Lemma select_resource_by_id_add_statement token st w :
  select_resource_by_id token (add_statement st w) = select_resource_by_id token w.
Proof. reflexivity. Qed.

(** The run of [resolve_resource_info] when the database answers. *)
Lemma resolve_resource_info_run resource w :
  faults w = [] ->
  resolve_resource_info resource w =
  let w1 := add_statement (SelectResourceById resource) w in
  match select_resource_by_id resource w with
  | exact_match :: _ =>
      (inr (mk_resource_info exact [exact_match] (Some (recodcal exact_match))), w1)
  | [] =>
      let matches :=
        select_resources_by_description (description_pattern resource) w in
      let w2 :=
        add_statement (SelectResourcesByDescription (description_pattern resource)) w1 in
      match matches with
      | first :: _ =>
          (inr (mk_resource_info
                  (if 1 <? Z.of_nat (length matches) then multiple else single)
                  matches (Some (recodcal first))), w2)
      | [] => (inr (mk_resource_info not_found [] None), w2)
      end
  end.
Proof.
  intros Hf. unfold resolve_resource_info, bind.
  rewrite get_db_connection_ok by assumption.
  rewrite execute_ok by assumption.
  rewrite select_resource_by_id_add_statement.
  destruct (select_resource_by_id resource w) as [|r rs]; [|reflexivity].
  rewrite execute_ok by (now rewrite faults_add_statement).
  cbv zeta.
  change (select_resources_by_description (description_pattern resource)
            (add_statement (SelectResourcesByDescription (description_pattern resource))
               (add_statement (SelectResourceById resource) w)))
    with (select_resources_by_description (description_pattern resource) w).
  destruct (select_resources_by_description (description_pattern resource) w);
    reflexivity.
Qed.

Lemma same_tables_refl w : same_tables w w.
Proof. now repeat split. Qed.

Lemma same_tables_trans w1 w2 w3 :
  same_tables w1 w2 -> same_tables w2 w3 -> same_tables w1 w3.
Proof.
  unfold same_tables. intros (A1 & A2 & A3 & A4 & A5) (B1 & B2 & B3 & B4 & B5).
  repeat split; congruence.
Qed.

Lemma database_operation_inv w r w' :
  database_operation w = (r, w') ->
  same_tables w w' /\ statements w' = statements w.
Proof.
  unfold database_operation.
  destruct (faults w) as [|[e|] fs]; intros [= <- <-];
    split; try apply same_tables_refl; try reflexivity; now repeat split.
Qed.

Lemma get_db_connection_inv w r w' :
  get_db_connection w = (r, w') ->
  same_tables w w' /\ statements w' = statements w.
Proof.
  unfold get_db_connection, try_except, raise.
  destruct (database_operation w) as [[e|u] w0] eqn:E; intros [= <- <-];
    now apply database_operation_inv in E.
Qed.

Lemma execute_inv {R} st (rows : world -> exn + list R) w r w' :
  execute st rows w = (r, w') ->
  same_tables w w' /\ statements w' = statements w ++ [st]
  /\ (forall l, r = inr l -> rows w' = inr l).
Proof.
  unfold execute.
  destruct (database_operation (add_statement st w)) as [[e|u] w0] eqn:E;
    intros [= <- <-]; apply database_operation_inv in E as [T S];
    (split; [|split]);
    try (eapply same_tables_trans; [|exact T]; now repeat split);
    try exact S; try discriminate.
  intros l Hl. exact Hl.
Qed.

Lemma select_resource_by_id_tables token w w' :
  same_tables w w' ->
  select_resource_by_id token w' = select_resource_by_id token w.
Proof. intros (H & _). unfold select_resource_by_id. now rewrite H. Qed.

Lemma select_resources_by_description_tables p w w' :
  same_tables w w' ->
  select_resources_by_description p w' = select_resources_by_description p w.
Proof. intros (H & _). unfold select_resources_by_description. now rewrite H. Qed.

Lemma kind_of_matches_length m ms :
  (if 1 <? Z.of_nat (length (m :: ms)) then multiple else single)
  = kind_of_matches (m :: ms).
Proof.
  destruct ms as [|m' ms]; [reflexivity|].
  cbn [kind_of_matches].
  destruct (Z.ltb_spec 1 (Z.of_nat (length (m :: m' :: ms)))) as [H|H];
    [reflexivity|].
  cbn [length] in H. lia.
Qed.

(** Whatever the faults, a resolution that returns has one of two
    shapes: the first row of the id query alone, with only that query sent,
    or the rows of the description query, sent after an id query that
    found nothing. *)
Lemma resolve_resource_info_inv resource w info w1 :
  resolve_resource_info resource w = (inr info, w1) ->
  same_tables w w1 /\
  ( (exists r rest, select_resource_by_id resource w = r :: rest
       /\ info = mk_resource_info exact [r] (Some (recodcal r))
       /\ statements w1 = statements w ++ [SelectResourceById resource])
  \/ (select_resource_by_id resource w = []
      /\ statements w1 = statements w
           ++ [SelectResourceById resource;
               SelectResourcesByDescription (description_pattern resource)]
      /\ info_resources info
         = select_resources_by_description (description_pattern resource) w
      /\ info_type info = kind_of_matches (info_resources info)
      /\ info_calendar_code info = option_map recodcal (head (info_resources info)))).
Proof.
  unfold resolve_resource_info, bind.
  destruct (get_db_connection w) as [[e|u] w0] eqn:E0; [discriminate|].
  apply get_db_connection_inv in E0 as [T0 S0].
  destruct (execute (SelectResourceById resource) _ w0) as [[e|rows] wa] eqn:Ea;
    [discriminate|].
  apply execute_inv in Ea as (Ta & Sa & Ra). specialize (Ra _ eq_refl).
  injection Ra as Ra.
  assert (Twa : same_tables w wa) by (eapply same_tables_trans; eassumption).
  rewrite (select_resource_by_id_tables _ _ _ Twa) in Ra.
  destruct rows as [|r rest].
  - destruct (execute (SelectResourcesByDescription _) _ wa)
      as [[e|matches] wb] eqn:Eb; [discriminate|].
    apply execute_inv in Eb as (Tb & Sb & Rb). specialize (Rb _ eq_refl).
    injection Rb as Rb.
    assert (Twb : same_tables w wb) by (eapply same_tables_trans; eassumption).
    rewrite (select_resources_by_description_tables _ _ _ Twb) in Rb.
    assert (Sw : statements wb = statements w
              ++ [SelectResourceById resource;
                  SelectResourcesByDescription (description_pattern resource)]).
    { rewrite Sb, Sa, S0, <- app_assoc. reflexivity. }
    destruct matches as [|m ms]; unfold ret; intros [= <- <-];
      (split; [exact Twb|right]); cbn [info_resources info_type info_calendar_code];
      repeat split; auto.
    apply kind_of_matches_length.
  - unfold ret. intros [= <- <-]. split; [exact Twa|left].
    exists r, rest. repeat split; auto. now rewrite Sa, S0.
Qed.

Lemma select_resource_by_id_In token w r :
  In r (select_resource_by_id token w) <->
  In r (resources w) /\ flactive r = 1 /\ equal_ci (reresourceid r) token.
Proof.
  unfold select_resource_by_id, equal_ci.
  rewrite filter_In, andb_true_iff, String.eqb_eq, Z.eqb_eq. tauto.
Qed.

Lemma select_resources_by_description_In token w r :
  like_free token = true ->
  In r (select_resources_by_description (description_pattern token) w) <->
  In r (resources w) /\ flactive r = 1 /\ contains_ci token (redescri r).
Proof.
  intros Hfree. unfold select_resources_by_description.
  rewrite order_by_In, filter_In, andb_true_iff, Z.eqb_eq.
  rewrite (LIKE_LOWER_contains_ci _ _ Hfree). tauto.
Qed.

Lemma leb_trans a b c :
  String.leb a b = true -> String.leb b c = true -> String.leb a c = true.
Proof.
  intros H1 H2. apply Is_true_true.
  apply Is_true_true in H1, H2.
  exact (transitivity (R := String.le) H1 H2).
Qed.

Lemma order_by_resource_id_sorted l :
  StronglySorted id_le (order_by resource_id_leb l).
Proof.
  unfold order_by.
  assert (Htot : Total (fun a b => Is_true (resource_id_leb a b))).
  { intros a b. unfold resource_id_leb.
    destruct (String.leb_total (reresourceid a) (reresourceid b)) as [H|H];
      rewrite H; [left|right]; exact I. }
  assert (Htr : Transitive (fun a b => Is_true (resource_id_leb a b))).
  { intros a b c H1 H2. unfold resource_id_leb in *.
    apply Is_true_true. apply Is_true_true in H1, H2.
    eapply leb_trans; eassumption. }
  pose proof (StronglySorted_merge_sort
                (fun a b => Is_true (resource_id_leb a b)) l) as H.
  induction H as [|x xs Hs IH Hall]; constructor; [exact IH|].
  eapply List.Forall_impl; [|exact Hall].
  intros y Hy. now apply Is_true_true in Hy.
Qed.

Lemma order_by_NoDup {A} (leb : A -> A -> bool) l :
  List.NoDup l -> List.NoDup (order_by leb l).
Proof.
  intros H. eapply Permutation_NoDup; [|exact H].
  symmetry. apply order_by_Permutation.
Qed.

(* ================================================================== *)
(** ** Resolution of a resource token *)

(** C6.  When an active resource has an id equal to the token, letter case
    aside, [resolve_resource_info] returns kind [exact] with one resource,
    an active one whose id equals the token (the resource itself when no
    other active resource bears that id), together with its calendar code;
    the id query is the only statement sent, so the description search is
    not consulted, whatever the descriptions hold. *)
Theorem exact_id_takes_precedence :
  forall (w : world) (token : string) (r0 : resource_row),
    faults w = [] ->
    In r0 (resources w) ->
    flactive r0 = 1 ->
    equal_ci (reresourceid r0) token ->
    exists r,
      resolve_resource_info token w
      = (inr (mk_resource_info exact [r] (Some (recodcal r))),
         add_statement (SelectResourceById token) w)
      /\ statements (add_statement (SelectResourceById token) w)
         = statements w ++ [SelectResourceById token]
      /\ In r (resources w) /\ flactive r = 1
      /\ equal_ci (reresourceid r) token
      /\ ((forall r', In r' (resources w) -> flactive r' = 1 ->
                      equal_ci (reresourceid r') token -> r' = r0) ->
          r = r0).
Proof.
  intros w token r0 Hf Hin Hact Heq.
  assert (H0 : In r0 (select_resource_by_id token w))
    by (apply select_resource_by_id_In; auto).
  rewrite resolve_resource_info_run by assumption. cbv zeta.
  destruct (select_resource_by_id token w) as [|r rest] eqn:E; [destruct H0|].
  assert (Hr : In r (select_resource_by_id token w)) by (rewrite E; now left).
  apply select_resource_by_id_In in Hr as (Hr1 & Hr2 & Hr3).
  exists r. repeat split; auto.
Qed.

Lemma exact_id_takes_precedence_witness :
  exists r,
    resolve_resource_info "AULA01"
      (world_of_resources
         [mk_resource "AULA02" "Sala aula01 bis" "R" "CAL1" 1;
          mk_resource "aula01" "Aula Corsi" "R" "CAL2" 1])
    = (inr (mk_resource_info exact [r] (Some (recodcal r))),
       add_statement (SelectResourceById "AULA01")
         (world_of_resources
            [mk_resource "AULA02" "Sala aula01 bis" "R" "CAL1" 1;
             mk_resource "aula01" "Aula Corsi" "R" "CAL2" 1]))
    /\ reresourceid r = "aula01".
Proof.
  destruct (exact_id_takes_precedence
              (world_of_resources
                 [mk_resource "AULA02" "Sala aula01 bis" "R" "CAL1" 1;
                  mk_resource "aula01" "Aula Corsi" "R" "CAL2" 1])
              "AULA01" (mk_resource "aula01" "Aula Corsi" "R" "CAL2" 1)
              eq_refl (or_intror (or_introl eq_refl)) eq_refl eq_refl)
    as (r & H & _ & _ & _ & _ & Hu).
  exists r. split; [exact H|].
  rewrite Hu; [reflexivity|].
  intros r' [<-|[<-|[]]] _ Hci; [discriminate Hci|reflexivity].
Defined.

(** The search by description where it does what it is meant to do.  For
    a token that equals no active id and holds none of the characters [%],
    [_] and backslash, [resolve_resource_info] returns as matches the
    active resources whose description contains the token, letter case
    aside: those and no others, none twice unless the table holds it twice,
    in ascending order of their ids; the kind is [not_found], [single] or
    [multiple] by their number, and the calendar code is that of the first
    match. *)
Lemma description_matches :
  forall (w : world) (token : string),
    faults w = [] ->
    like_free token = true ->
    (forall r, In r (resources w) -> flactive r = 1 ->
               ~ equal_ci (reresourceid r) token) ->
    exists matches w1,
      resolve_resource_info token w
      = (inr (mk_resource_info (kind_of_matches matches) matches
                               (option_map recodcal (head matches))), w1)
      /\ (forall r, In r matches <->
                    In r (resources w) /\ flactive r = 1
                    /\ contains_ci token (redescri r))
      /\ (List.NoDup (resources w) -> List.NoDup matches)
      /\ StronglySorted id_le matches.
Proof.
  intros w token Hf Hfree Hno.
  rewrite resolve_resource_info_run by assumption. cbv zeta.
  destruct (select_resource_by_id token w) as [|r rest] eqn:E.
  - exists (select_resources_by_description (description_pattern token) w).
    eexists. split; [|split; [|split]].
    + destruct (select_resources_by_description (description_pattern token) w)
        as [|m ms] eqn:Em; [reflexivity|].
      rewrite kind_of_matches_length. reflexivity.
    + intros r. now apply select_resources_by_description_In.
    + intros Hnd. unfold select_resources_by_description.
      apply order_by_NoDup. now apply List.NoDup_filter.
    + apply order_by_resource_id_sorted.
  - exfalso.
    assert (Hr : In r (select_resource_by_id token w)) by (rewrite E; now left).
    apply select_resource_by_id_In in Hr as (Hr1 & Hr2 & Hr3).
    exact (Hno r Hr1 Hr2 Hr3).
Qed.

Lemma description_matches_witness :
  exists matches w1,
    resolve_resource_info "aula corsi"
      (world_of_resources
         [mk_resource "AULA02" "Aula Corsi Grande" "R" "CAL2" 1;
          mk_resource "AULA01" "Aula Corsi" "R" "CAL1" 1;
          mk_resource "AULA00" "Aula corsi chiusa" "R" "CAL3" 0])
    = (inr (mk_resource_info (kind_of_matches matches) matches
                             (option_map recodcal (head matches))), w1)
    /\ map reresourceid matches = ["AULA01"; "AULA02"]
    /\ StronglySorted id_le matches.
Proof.
  destruct (description_matches
              (world_of_resources
                 [mk_resource "AULA02" "Aula Corsi Grande" "R" "CAL2" 1;
                  mk_resource "AULA01" "Aula Corsi" "R" "CAL1" 1;
                  mk_resource "AULA00" "Aula corsi chiusa" "R" "CAL3" 0])
              "aula corsi" eq_refl eq_refl)
    as (matches & w1 & H & _ & _ & Hs).
  - intros r [<-|[<-|[<-|[]]]] _ Hci; discriminate Hci.
  - exists matches, w1. split; [exact H|]. split; [|exact Hs].
    vm_compute in H. injection H as _ H _. now subst matches.
Defined.

Lemma contains_has_char c needle hay :
  contains (String c needle) hay -> has_char c hay = true.
Proof.
  intros (pre & post & ->). induction pre as [|x pre IH].
  - rewrite append_nil_l, append_cons. cbn [has_char].
    now rewrite Ascii.eqb_refl.
  - rewrite append_cons. cbn [has_char]. rewrite IH. apply orb_true_r.
Qed.

(** C4 at its failing inputs.  The token goes into the [LIKE] pattern as
    it is, so its [_] and [%] are wildcards.  The token [a_c] equals no id
    and the description [abc] does not contain it, yet the resource is
    returned as a match; the token [%] is returned every active resource,
    although no description holds a [%]. *)
Lemma unescaped_token_acts_as_pattern :
  (exists info r,
     select_resource_by_id "a_c"
       (world_of_resources [mk_resource "X1" "abc" "V" "CAL2" 1]) = []
     /\ fst (resolve_resource_info "a_c"
               (world_of_resources [mk_resource "X1" "abc" "V" "CAL2" 1]))
        = inr info
     /\ In r (info_resources info)
     /\ ~ contains_ci "a_c" (redescri r))
  /\ (exists info,
        fst (resolve_resource_info "%" campus) = inr info
        /\ info_type info = multiple
        /\ map reresourceid (info_resources info)
           = ["AULA01"; "AULA02"; "FIAT01"]
        /\ forall r, In r (info_resources info) ->
                     ~ contains_ci "%" (redescri r)).
Proof.
  split.
  - eexists. exists (mk_resource "X1" "abc" "V" "CAL2" 1).
    split; [reflexivity|]. split; [vm_compute; reflexivity|].
    split; [now left|].
    intros (pre & post & E). vm_compute in E.
    destruct pre as [|c1 pre]; [discriminate|].
    destruct pre as [|c2 pre]; [discriminate|].
    destruct pre as [|c3 pre]; [discriminate|].
    destruct pre as [|c4 pre]; discriminate.
  - eexists. split; [vm_compute; reflexivity|].
    split; [reflexivity|]. split; [reflexivity|].
    intros r Hr Hc. unfold contains_ci in Hc.
    change (LOWER "%") with (String "%" EmptyString) in Hc.
    apply contains_has_char in Hc.
    cbn [info_resources In] in Hr.
    destruct Hr as [<-|[<-|[<-|[]]]]; vm_compute in Hc; discriminate.
Qed.

(* ================================================================== *)
(** ** The conflict mapping and the free/busy split *)

Lemma split_free_busy_acc d rs free busy :
  fold_left
    (fun acc res =>
       match d !! reresourceid res with
       | None => (fst acc ++ [reresourceid res], snd acc)
       | Some _ => (fst acc, snd acc ++ [reresourceid res])
       end)
    rs (free, busy)
  = (free ++ map reresourceid (List.filter (absent d) rs),
     busy ++ map reresourceid (List.filter (fun r => negb (absent d r)) rs)).
Proof.
  revert free busy. induction rs as [|r rs IH]; intros free busy.
  - cbn. now rewrite !app_nil_r.
  - cbn [fold_left List.filter].
    assert (Ha : absent d r = match d !! reresourceid r with
                              | None => true | Some _ => false end)
      by reflexivity.
    destruct (d !! reresourceid r); rewrite Ha; cbn [fst snd negb map];
      rewrite IH, <- app_assoc; reflexivity.
Qed.

Lemma split_free_busy_spec d rs :
  split_free_busy d rs
  = (map reresourceid (List.filter (absent d) rs),
     map reresourceid (List.filter (fun r => negb (absent d r)) rs)).
Proof. unfold split_free_busy. now rewrite split_free_busy_acc. Qed.

Lemma filter_length_split {A} (f : A -> bool) l :
  (length (List.filter f l) + length (List.filter (fun x => negb (f x)) l)
   = length l)%nat.
Proof.
  induction l as [|x l IH]; [reflexivity|].
  cbn [List.filter]. destruct (f x); cbn [negb length]; lia.
Qed.

Lemma dict_of_rows_acc (f : string -> Z) ks (d : gmap string Z) i :
  fold_left (fun d r => <[fst r := snd r]> d) (map (fun k => (k, f k)) ks) d !! i
  = if member i ks then Some (f i) else d !! i.
Proof.
  revert d. induction ks as [|k ks IH]; intros d; [reflexivity|].
  cbn [map fold_left fst snd]. rewrite IH. unfold member. cbn [existsb].
  fold (member i ks).
  destruct (member i ks); [now rewrite orb_true_r|]. rewrite orb_false_r.
  destruct (String.eqb_spec i k) as [->|Hne].
  - apply lookup_insert_eq.
  - apply lookup_insert_ne. congruence.
Qed.

Lemma member_In x l : member x l = true <-> In x l.
Proof.
  unfold member. rewrite existsb_exists. split.
  - intros (y & Hy & E). apply String.eqb_eq in E. now subst.
  - intros H. exists x. split; [exact H|apply String.eqb_refl].
Qed.

(** The dictionary built from the grouped query: a key is present exactly
    when it occurs among the grouped keys, with the number of its
    occurrences. *)
Lemma dict_of_group_count keys i :
  dict_of_rows (group_count keys) !! i
  = if member i keys
    then Some (Z.of_nat (length (List.filter (String.eqb i) keys)))
    else None.
Proof.
  unfold dict_of_rows, group_count.
  rewrite (dict_of_rows_acc
             (fun k => Z.of_nat (length (List.filter (String.eqb k) keys)))).
  rewrite lookup_empty.
  destruct (member i (List.nodup string_dec keys)) eqn:E1;
    destruct (member i keys) eqn:E2; try reflexivity.
  - apply member_In, List.nodup_In, member_In in E1. congruence.
  - apply member_In in E2. apply (List.nodup_In string_dec), member_In in E2.
    congruence.
Qed.

Lemma omap_rlresourceid_count i (f : reservation -> bool) rl :
  length (List.filter (String.eqb i) (omap rlresourceid (List.filter f rl)))
  = length (List.filter (fun r => rl_is i r && f r) rl).
Proof.
  induction rl as [|r rl IH]; [reflexivity|].
  cbn [List.filter]. unfold rl_is at 1.
  destruct (f r) eqn:Ef.
  - cbn [omap list_omap]. destruct (rlresourceid r) as [k|] eqn:Ek.
    + cbn [List.filter]. rewrite (String.eqb_sym i k).
      destruct (String.eqb k i); cbn [andb length]; now rewrite IH.
    + cbn [andb]. exact IH.
  - rewrite andb_false_r. exact IH.
Qed.

Lemma member_filter_length i l :
  member i l = negb (Nat.eqb (length (List.filter (String.eqb i) l)) 0).
Proof.
  induction l as [|k l IH]; [reflexivity|].
  unfold member in *. cbn [existsb List.filter].
  destruct (String.eqb i k); [reflexivity|exact IH].
Qed.

(** The mapping built by the multiple-resource branch: a queried id is
    absent when none of its reservations conflicts with the window, and
    otherwise bound to the number of those that do. *)
Lemma grouped_conflicts_lookup ids end_dt start_dt w i :
  In i ids ->
  dict_of_rows
    (group_count
       (omap rlresourceid
          (List.filter (fun r => rl_in ids r && conflicts end_dt start_dt r)
                       (resourcelist w)))) !! i
  = if conflict_count i end_dt start_dt w =? 0 then None
    else Some (conflict_count i end_dt start_dt w).
Proof.
  intros Hi. rewrite dict_of_group_count, member_filter_length.
  rewrite omap_rlresourceid_count.
  assert (E : List.filter (fun r => rl_is i r
                                    && (rl_in ids r && conflicts end_dt start_dt r))
                          (resourcelist w)
              = List.filter (fun r => rl_is i r && conflicts end_dt start_dt r)
                            (resourcelist w)).
  { apply List.filter_ext. intros r. unfold rl_is, rl_in.
    destruct (rlresourceid r) as [k|]; [|reflexivity].
    destruct (String.eqb_spec k i) as [->|]; [|reflexivity].
    apply member_In in Hi. now rewrite Hi. }
  rewrite E. unfold conflict_count.
  destruct (length (List.filter _ (resourcelist w))) as [|n]; reflexivity.
Qed.

(** The run of [check_resource_availability] once the dates are parsed and
    the resolution has returned a kind other than [exact] and [not_found]:
    the grouped query is sent and the report has the multiple shape. *)
Lemma check_resource_availability_grouped
    w resource start_time end_time start_dt end_dt info w1 :
  strptime start_time = inr start_dt ->
  strptime end_time = inr end_dt ->
  resolve_resource_info resource w = (inr info, w1) ->
  info_type info = single \/ info_type info = multiple ->
  faults w1 = [] ->
  let ids := map reresourceid (info_resources info) in
  let busy_resources :=
    dict_of_rows
      (group_count
         (omap rlresourceid
            (List.filter (fun r => rl_in ids r && conflicts end_dt start_dt r)
                         (resourcelist w)))) in
  check_resource_availability resource start_time end_time w
  = (inr (multiple_report resource (info_resources info)
            (map reresourceid
               (List.filter (absent busy_resources) (info_resources info)))
            (map reresourceid
               (List.filter (fun r => negb (absent busy_resources r))
                            (info_resources info)))),
     add_statement (CountConflictsGrouped ids end_dt start_dt) w1).
Proof.
  intros Hs He Hres Hkind Hf ids busy_resources.
  pose proof (resolve_resource_info_inv _ _ _ _ Hres) as [T Hshape].
  assert (Hne : ids <> []).
  { unfold ids.
    destruct Hshape as [(r & rest & _ & -> & _)|(_ & _ & _ & Hk & _)].
    - destruct Hkind; discriminate.
    - intros E. apply map_eq_nil in E. rewrite E in Hk. cbn in Hk.
      destruct Hkind; congruence. }
  assert (Hq : count_conflicts_grouped ids end_dt start_dt
                 (add_statement (CountConflictsGrouped ids end_dt start_dt) w1)
               = inr (group_count
                        (omap rlresourceid
                           (List.filter
                              (fun r => rl_in ids r && conflicts end_dt start_dt r)
                              (resourcelist w))))).
  { unfold count_conflicts_grouped.
    destruct ids as [|i0 ids']; [congruence|].
    change (resourcelist (add_statement
                            (CountConflictsGrouped (i0 :: ids') end_dt start_dt) w1))
      with (resourcelist w1).
    destruct T as (_ & -> & _). reflexivity. }
  assert (Hx : is_exact (info_type info) = false)
    by (destruct Hkind as [-> | ->]; reflexivity).
  unfold check_resource_availability, try_except,
    check_resource_availability_body, bind, lift.
  rewrite Hs, He, Hres.
  fold ids.
  destruct Hkind as [Hk|Hk]; rewrite Hk in *;
    rewrite get_db_connection_ok by assumption;
    cbn [is_exact];
    rewrite execute_ok by assumption;
    rewrite Hq; unfold ret;
    rewrite split_free_busy_spec; reflexivity.
Qed.

Lemma kind_of_matches_not_exact l : kind_of_matches l <> exact.
Proof. destruct l as [|a [|b l]]; discriminate. Qed.

(** The run of [check_resource_availability] for an [exact] resolution:
    the count query for the one resource, and the specific report. *)
Lemma check_resource_availability_exact
    w resource start_time end_time start_dt end_dt info w1 :
  strptime start_time = inr start_dt ->
  strptime end_time = inr end_dt ->
  resolve_resource_info resource w = (inr info, w1) ->
  info_type info = exact ->
  faults w1 = [] ->
  exists r,
    info_resources info = [r]
    /\ In r (select_resource_by_id resource w)
    /\ check_resource_availability resource start_time end_time w
       = (inr (specific_report resource r
                 (conflict_count (reresourceid r) end_dt start_dt w)),
          add_statement (CountConflicts (reresourceid r) end_dt start_dt) w1).
Proof.
  intros Hs He Hres Hkind Hf.
  pose proof (resolve_resource_info_inv _ _ _ _ Hres) as [T Hshape].
  destruct Hshape as [(r & rest & Hsel & -> & _)|(_ & _ & _ & Hk & _)].
  2: { rewrite Hkind in Hk. symmetry in Hk. now apply kind_of_matches_not_exact in Hk. }
  exists r. split; [reflexivity|]. split; [rewrite Hsel; now left|].
  unfold check_resource_availability, try_except,
    check_resource_availability_body, bind, lift.
  rewrite Hs, He, Hres. cbn [info_type info_resources is_exact].
  rewrite get_db_connection_ok by assumption.
  rewrite execute_ok by assumption.
  unfold count_conflicts, ret, conflict_count.
  change (resourcelist (add_statement
                          (CountConflicts (reresourceid r) end_dt start_dt) w1))
    with (resourcelist w1).
  destruct T as (_ & -> & _). reflexivity.
Qed.

(* ================================================================== *)
(** ** The availability report *)

(** C2, as amended.  When the resolution of the token has kind [exact],
    [check_resource_availability] sends the count query for that one
    resource and returns the specific report: the resolved id, its
    description, the number of conflicting reservations and a flag that is
    true exactly when that number is 0.  When the kind is [single], the one
    matched resource goes through the grouped query and the report has the
    multiple shape, the resource being listed as free when it has no
    conflicting reservation and as busy otherwise. *)
Theorem exact_gets_specific_report :
  forall (w : world) (resource start_time end_time : string)
         (start_dt end_dt : datetime) (info : resource_info) (w1 : world),
    strptime start_time = inr start_dt ->
    strptime end_time = inr end_dt ->
    resolve_resource_info resource w = (inr info, w1) ->
    faults w1 = [] ->
    (info_type info = exact ->
     exists r report,
       info_resources info = [r]
       /\ check_resource_availability resource start_time end_time w
          = (inr report,
             add_statement (CountConflicts (reresourceid r) end_dt start_dt) w1)
       /\ report = specific_report resource r
                     (conflict_count (reresourceid r) end_dt start_dt w)
       /\ jpath ["risorsa"; "id"] report = Some (JStr (reresourceid r))
       /\ jpath ["risorsa"; "descrizione"] report = Some (JStr (redescri r))
       /\ jpath ["disponibile"] report
          = Some (JBool (conflict_count (reresourceid r) end_dt start_dt w =? 0))
       /\ jpath ["conflitti"] report
          = Some (JInt (conflict_count (reresourceid r) end_dt start_dt w)))
    /\
    (info_type info = single ->
     exists r,
       info_resources info = [r]
       /\ check_resource_availability resource start_time end_time w
          = (inr (if conflict_count (reresourceid r) end_dt start_dt w =? 0
                  then multiple_report resource [r] [reresourceid r] []
                  else multiple_report resource [r] [] [reresourceid r]),
             add_statement
               (CountConflictsGrouped [reresourceid r] end_dt start_dt) w1)).
Proof.
  intros w resource start_time end_time start_dt end_dt info w1 Hs He Hres Hf.
  split; intros Hkind.
  - destruct (check_resource_availability_exact
                _ _ _ _ _ _ _ _ Hs He Hres Hkind Hf) as (r & Hr & _ & Hrun).
    exists r. eexists. split; [exact Hr|]. split; [exact Hrun|].
    repeat split; reflexivity.
  - pose proof (check_resource_availability_grouped
                  _ _ _ _ _ _ _ _ Hs He Hres (or_introl Hkind) Hf) as Hrun.
    cbv zeta in Hrun.
    pose proof (resolve_resource_info_inv _ _ _ _ Hres) as [_ Hshape].
    assert (Hone : exists r, info_resources info = [r]).
    { destruct Hshape as [(r & rest & _ & -> & _)|(_ & _ & _ & Hk & _)];
        [discriminate|].
      rewrite Hkind in Hk.
      destruct (info_resources info) as [|r [|r' l]]; try discriminate.
      now exists r. }
    destruct Hone as (r & Hr). exists r. split; [exact Hr|].
    rewrite Hrun, Hr. cbn [map List.filter].
    unfold absent.
    rewrite (grouped_conflicts_lookup [reresourceid r] end_dt start_dt w
               (reresourceid r) (or_introl eq_refl)).
    destruct (conflict_count (reresourceid r) end_dt start_dt w =? 0);
      reflexivity.
Qed.

Lemma exact_gets_specific_report_witness :
  exists report,
    fst (check_resource_availability "aula01"
           "2024-06-01 09:30" "2024-06-01 10:30" campus) = inr report
    /\ jpath ["risorsa"; "id"] report = Some (JStr "AULA01")
    /\ jpath ["disponibile"] report = Some (JBool false)
    /\ jpath ["conflitti"] report = Some (JInt 1).
Proof.
  destruct (exact_gets_specific_report campus "aula01"
              "2024-06-01 09:30" "2024-06-01 10:30"
              (mk_datetime 2024 6 1 9 30 0) (mk_datetime 2024 6 1 10 30 0)
              (mk_resource_info exact
                 [mk_resource "AULA01" "Aula Corsi" "R" "CAL1" 1] (Some "CAL1"))
              (add_statement (SelectResourceById "aula01") campus)
              eq_refl eq_refl eq_refl eq_refl) as [H _].
  destruct (H eq_refl) as (r & report & Hr & Hrun & _ & Hid & _ & Hd & Hc).
  injection Hr as <-.
  exists report. rewrite Hrun. repeat split; assumption.
Defined.

(** C2, as stated, fails for kind [single]: the token [grande] matches one
    description, and the report has the multiple shape, without the
    availability flag and the conflict count of the specific report. *)
Lemma single_gets_multiple_report_counterexample :
  exists info report,
    fst (resolve_resource_info "grande" campus) = inr info
    /\ info_type info = single
    /\ fst (check_resource_availability "grande"
              "2024-06-01 09:30" "2024-06-01 10:30" campus) = inr report
    /\ jpath ["risorsa"; "tipo"] report = Some (JStr "ricerca_multipla")
    /\ jpath ["disponibile"] report = None
    /\ jpath ["conflitti"] report = None.
Proof.
  do 2 eexists.
  split; [vm_compute; reflexivity|].
  split; [reflexivity|].
  split; [vm_compute; reflexivity|].
  repeat split; reflexivity.
Qed.

(** C7.  For a resolution of kind [multiple],
    [check_resource_availability] splits the matched resources by the
    conflict mapping of the grouped query (an id is absent from it exactly
    when none of its reservations conflicts with the window): the free
    list holds the ids absent from the mapping, the busy list those present
    in it; no id is in both, the lengths add up to the number of matched
    resources, the reported totals are those lengths, and the
    at-least-one-free flag is true exactly when the free list is not
    empty. *)
Theorem multiple_partition_complete :
  forall (w : world) (resource start_time end_time : string)
         (start_dt end_dt : datetime) (info : resource_info) (w1 : world),
    strptime start_time = inr start_dt ->
    strptime end_time = inr end_dt ->
    resolve_resource_info resource w = (inr info, w1) ->
    info_type info = multiple ->
    faults w1 = [] ->
    exists (busy_resources : gmap string Z) (free busy : list string)
           (report : json) (flag : bool),
      fst (check_resource_availability resource start_time end_time w)
      = inr report
      /\ report = multiple_report resource (info_resources info) free busy
      /\ (forall i, In i (map reresourceid (info_resources info)) ->
            busy_resources !! i
            = if conflict_count i end_dt start_dt w =? 0 then None
              else Some (conflict_count i end_dt start_dt w))
      /\ free = map reresourceid
                  (List.filter (absent busy_resources) (info_resources info))
      /\ busy = map reresourceid
                  (List.filter (fun r => negb (absent busy_resources r))
                               (info_resources info))
      /\ (forall i, In i free -> ~ In i busy)
      /\ (length free + length busy = length (info_resources info))%nat
      /\ jpath ["risorsa"; "risorse_trovate"] report
         = Some (JNum (PyInt (Z.of_nat (length (info_resources info)))))
      /\ jpath ["risultato"; "risorse_libere"] report
         = Some (JList (map JStr free))
      /\ jpath ["risultato"; "risorse_occupate"] report
         = Some (JList (map JStr busy))
      /\ jpath ["risultato"; "totale_libere"] report
         = Some (JNum (PyInt (Z.of_nat (length free))))
      /\ jpath ["risultato"; "totale_occupate"] report
         = Some (JNum (PyInt (Z.of_nat (length busy))))
      /\ jpath ["risultato"; "almeno_una_libera"] report = Some (JBool flag)
      /\ (flag = true <-> free <> []).
Proof.
  intros w resource start_time end_time start_dt end_dt info w1
         Hs He Hres Hkind Hf.
  pose proof (check_resource_availability_grouped
                _ _ _ _ _ _ _ _ Hs He Hres (or_intror Hkind) Hf) as Hrun.
  cbv zeta in Hrun.
  set (ids := map reresourceid (info_resources info)) in *.
  set (d := dict_of_rows _) in Hrun.
  exists d.
  exists (map reresourceid (List.filter (absent d) (info_resources info))).
  exists (map reresourceid
            (List.filter (fun r => negb (absent d r)) (info_resources info))).
  eexists.
  exists (0 <? Z.of_nat (length (map reresourceid
                                   (List.filter (absent d) (info_resources info))))).
  split; [rewrite Hrun; reflexivity|].
  split; [reflexivity|].
  split; [intros i Hi; now apply grouped_conflicts_lookup|].
  split; [reflexivity|]. split; [reflexivity|].
  split.
  { intros i Hfree Hbusy.
    apply in_map_iff in Hfree as (r & <- & Hr).
    apply in_map_iff in Hbusy as (r' & E & Hr').
    apply filter_In in Hr as [_ Hr]. apply filter_In in Hr' as [_ Hr'].
    unfold absent in Hr, Hr'. rewrite E in Hr'.
    destruct (d !! reresourceid r); discriminate. }
  split.
  { rewrite !length_map. apply filter_length_split. }
  repeat (split; [reflexivity|]).
  destruct (map reresourceid (List.filter (absent d) (info_resources info)));
    cbn [length]; split; intros H;
    first [discriminate | reflexivity | now contradiction H].
Qed.

Lemma multiple_partition_complete_witness :
  exists report,
    fst (check_resource_availability "aula corsi"
           "2024-06-01 09:30" "2024-06-01 10:30" campus) = inr report
    /\ jpath ["risorsa"; "risorse_trovate"] report = Some (JNum (PyInt 2))
    /\ jpath ["risultato"; "risorse_libere"] report = Some (JList [JStr "AULA02"])
    /\ jpath ["risultato"; "risorse_occupate"] report = Some (JList [JStr "AULA01"])
    /\ jpath ["risultato"; "totale_libere"] report = Some (JNum (PyInt 1))
    /\ jpath ["risultato"; "totale_occupate"] report = Some (JNum (PyInt 1))
    /\ jpath ["risultato"; "almeno_una_libera"] report = Some (JBool true).
Proof.
  destruct (multiple_partition_complete campus "aula corsi"
              "2024-06-01 09:30" "2024-06-01 10:30"
              (mk_datetime 2024 6 1 9 30 0) (mk_datetime 2024 6 1 10 30 0)
              (mk_resource_info multiple
                 [mk_resource "AULA01" "Aula Corsi" "R" "CAL1" 1;
                  mk_resource "AULA02" "Aula Corsi Grande" "R" "CAL1" 1]
                 (Some "CAL1"))
              (add_statement (SelectResourcesByDescription "%aula corsi%")
                 (add_statement (SelectResourceById "aula corsi") campus))
              eq_refl eq_refl eq_refl eq_refl eq_refl)
    as (d & free & busy & report & flag & Hrun & Hrep & _).
  exists report. split; [exact Hrun|].
  vm_compute in Hrun. injection Hrun as <-.
  repeat split; reflexivity.
Defined.

(** C8.  When the resolution of the token returns [not_found],
    [check_resource_availability] returns (it does not raise) the error
    report [{"error": "Risorsa '<token>' non trovata"}], which names the
    token, and the statements of the call are the two queries of the
    resolution: no conflict query is sent. *)
Theorem not_found_is_reported :
  forall (w : world) (resource start_time end_time : string)
         (start_dt end_dt : datetime) (info : resource_info) (w1 : world),
    strptime start_time = inr start_dt ->
    strptime end_time = inr end_dt ->
    resolve_resource_info resource w = (inr info, w1) ->
    info_type info = not_found ->
    exists sent,
      check_resource_availability resource start_time end_time w
      = (inr (JDict [("error",
                      JStr (String.append "Risorsa '"
                              (String.append resource "' non trovata")))]),
         w1)
      /\ statements w1 = statements w ++ sent
      /\ sent = [SelectResourceById resource;
                 SelectResourcesByDescription (description_pattern resource)]
      /\ forallb (fun st => negb (is_conflict_statement st)) sent = true.
Proof.
  intros w resource start_time end_time start_dt end_dt info w1
         Hs He Hres Hkind.
  eexists. split; [|split; [|split; [reflexivity|reflexivity]]].
  - unfold check_resource_availability, try_except,
      check_resource_availability_body, bind, lift.
    rewrite Hs, He, Hres, Hkind. reflexivity.
  - apply resolve_resource_info_inv in Hres as [_ Hshape].
    destruct Hshape as [(r & rest & _ & -> & _)|(_ & Hst & _)];
      [discriminate|exact Hst].
Qed.

Lemma not_found_is_reported_witness :
  check_resource_availability "NOPE" "2024-06-01 09:30" "2024-06-01 10:30" campus
  = (inr (JDict [("error", JStr "Risorsa 'NOPE' non trovata")]),
     add_statement (SelectResourcesByDescription "%NOPE%")
       (add_statement (SelectResourceById "NOPE") campus)).
Proof.
  destruct (not_found_is_reported campus "NOPE"
              "2024-06-01 09:30" "2024-06-01 10:30"
              (mk_datetime 2024 6 1 9 30 0) (mk_datetime 2024 6 1 10 30 0)
              (mk_resource_info not_found [] None)
              (add_statement (SelectResourcesByDescription "%NOPE%")
                 (add_statement (SelectResourceById "NOPE") campus))
              eq_refl eq_refl eq_refl eq_refl)
    as (sent & H & _).
  exact H.
Defined.

(* ================================================================== *)
(** ** Back-to-back intervals *)

Lemma conflicts_back_to_back end_dt start_dt r :
  seconds_of (rlprevend r) = seconds_of start_dt
  \/ seconds_of (rlprevbegin r) = seconds_of end_dt ->
  conflicts end_dt start_dt r = false.
Proof.
  unfold conflicts, ts_lt, ts_gt. intros [H|H]; rewrite H.
  - rewrite Z.ltb_irrefl. apply andb_false_r.
  - now rewrite Z.ltb_irrefl.
Qed.

Lemma filter_remove_rejected {A} (f : A -> bool) before x after :
  f x = false ->
  List.filter f (before ++ x :: after) = List.filter f (before ++ after).
Proof.
  intros H. rewrite !List.filter_app. cbn [List.filter]. now rewrite H.
Qed.

(** The frame rules of the monad, for two reservation lists. *)
Section Frames.

Variables rl rl' : list reservation.

Lemma frames_ret {A} (a : A) : frames rl rl' (ret a).
Proof. intros w H. now split. Qed.

Lemma frames_raise {A} e : frames rl rl' (@raise A e).
Proof. intros w H. now split. Qed.

Lemma frames_getenv name : frames rl rl' (getenv name).
Proof. intros w H. now split. Qed.

Lemma frames_bind {A B} (m : M A) (k : A -> M B) :
  frames rl rl' m -> (forall a, frames rl rl' (k a)) -> frames rl rl' (bind m k).
Proof.
  intros Hm Hk w H. unfold bind.
  destruct (Hm w H) as [E1 H1]. rewrite E1.
  destruct (m w) as [[e|a] w1]; cbn [fst snd] in *; [now split|].
  exact (Hk a w1 H1).
Qed.

(** The value bound after [lift r] is the one that [r] holds. *)
Lemma frames_bind_lift {A B} (r : exn + A) (k : A -> M B) :
  (forall a, r = inr a -> frames rl rl' (k a)) ->
  frames rl rl' (bind (lift r) k).
Proof.
  intros Hk. destruct r as [e|a].
  - intros w H. now split.
  - intros w H. exact (Hk a eq_refl w H).
Qed.

Lemma frames_try_except {A} (body : M A) (handler : exn -> M A) :
  frames rl rl' body -> (forall e, frames rl rl' (handler e)) ->
  frames rl rl' (try_except body handler).
Proof.
  intros Hm Hk w H. unfold try_except.
  destruct (Hm w H) as [E1 H1]. rewrite E1.
  destruct (body w) as [[e|a] w1]; cbn [fst snd] in *; [|now split].
  exact (Hk e w1 H1).
Qed.

Lemma frames_database_operation : frames rl rl' database_operation.
Proof.
  intros w H. unfold database_operation.
  change (faults (set_resourcelist rl' w)) with (faults w).
  destruct (faults w) as [|[e|] fs]; now split.
Qed.

Lemma frames_get_db_connection : frames rl rl' get_db_connection.
Proof.
  apply frames_try_except; [apply frames_database_operation|].
  intros e. apply frames_raise.
Qed.

(** A statement frames when its rows are the same for both lists. *)
Lemma frames_execute {R} st (rows : world -> exn + list R) :
  (forall w, resourcelist w = rl -> rows (set_resourcelist rl' w) = rows w) ->
  frames rl rl' (execute st rows).
Proof.
  intros Hrows w H. unfold execute.
  change (add_statement st (set_resourcelist rl' w))
    with (set_resourcelist rl' (add_statement st w)).
  destruct (frames_database_operation (add_statement st w) H) as [E1 H1].
  rewrite E1.
  destruct (database_operation (add_statement st w)) as [[e|u] w1];
    cbn [fst snd] in *; [now split|].
  rewrite (Hrows w1 H1). now split.
Qed.

Lemma frames_resolve_resource_info resource :
  frames rl rl' (resolve_resource_info resource).
Proof.
  unfold resolve_resource_info.
  apply frames_bind; [apply frames_get_db_connection|intros _].
  apply frames_bind; [now apply frames_execute|intros rows].
  destruct rows as [|r0 rows]; [|apply frames_ret].
  apply frames_bind; [now apply frames_execute|intros matches].
  destruct matches; apply frames_ret.
Qed.

End Frames.

(** A reservation [r] that the conflict predicate rejects for a window,
    and the list of reservations with and without it. *)
Section RejectedReservation.

Variables end_dt start_dt : datetime.
Variable r : reservation.
Variables before after : list reservation.
Hypothesis rejected : conflicts end_dt start_dt r = false.

(** Without [r], the three queries on [resourcelist] return the same
    rows. *)
Lemma conflict_queries_without_rejected w :
  resourcelist w = before ++ r :: after ->
  (forall resource_id,
     count_conflicts resource_id end_dt start_dt
       (set_resourcelist (before ++ after) w)
     = count_conflicts resource_id end_dt start_dt w)
  /\ (forall resource_ids,
        count_conflicts_grouped resource_ids end_dt start_dt
          (set_resourcelist (before ++ after) w)
        = count_conflicts_grouped resource_ids end_dt start_dt w)
  /\ busy_resource_ids end_dt start_dt (set_resourcelist (before ++ after) w)
     = busy_resource_ids end_dt start_dt w.
Proof.
  intros Hrl. split; [|split].
  - intros resource_id. unfold count_conflicts.
    cbn [resourcelist set_resourcelist]. rewrite Hrl.
    rewrite filter_remove_rejected; [reflexivity|].
    rewrite rejected. apply andb_false_r.
  - intros resource_ids. unfold count_conflicts_grouped.
    destruct resource_ids as [|i ids]; [reflexivity|].
    cbn [resourcelist set_resourcelist]. rewrite Hrl.
    rewrite filter_remove_rejected; [reflexivity|].
    rewrite rejected. apply andb_false_r.
  - unfold busy_resource_ids.
    cbn [resourcelist set_resourcelist]. rewrite Hrl.
    now rewrite filter_remove_rejected.
Qed.

Lemma frames_check_resource_availability resource start_time end_time :
  strptime start_time = inr start_dt ->
  strptime end_time = inr end_dt ->
  frames (before ++ r :: after) (before ++ after)
         (check_resource_availability resource start_time end_time).
Proof.
  intros Hs He. unfold check_resource_availability.
  apply frames_try_except; [|intros e; apply frames_ret].
  unfold check_resource_availability_body.
  apply frames_bind_lift. intros sd Hsd.
  rewrite Hs in Hsd. injection Hsd as <-.
  apply frames_bind_lift. intros ed Hed.
  rewrite He in Hed. injection Hed as <-.
  apply frames_bind; [apply frames_resolve_resource_info|intros info].
  assert (Hrest : frames (before ++ r :: after) (before ++ after)
            (_ <- get_db_connection ;;
             if is_exact (info_type info) then
               match info_resources info with
               | [] => raise (IndexError "list index out of range")
               | r0 :: _ =>
                   results <- execute
                                (CountConflicts (reresourceid r0) end_dt start_dt)
                                (fun w => inr (count_conflicts (reresourceid r0)
                                                 end_dt start_dt w)) ;;
                   match results with
                   | [] => raise (IndexError "list index out of range")
                   | conflitti :: _ => ret (specific_report resource r0 conflitti)
                   end
               end
             else
               results <- execute
                            (CountConflictsGrouped
                               (map reresourceid (info_resources info))
                               end_dt start_dt)
                            (count_conflicts_grouped
                               (map reresourceid (info_resources info))
                               end_dt start_dt) ;;
               ret (multiple_report resource (info_resources info)
                      (fst (split_free_busy (dict_of_rows results)
                              (info_resources info)))
                      (snd (split_free_busy (dict_of_rows results)
                              (info_resources info)))))).
  { apply frames_bind; [apply frames_get_db_connection|intros _].
    destruct (is_exact (info_type info)).
    - destruct (info_resources info) as [|r0 rs]; [apply frames_raise|].
      apply frames_bind.
      + apply frames_execute. intros w Hw. f_equal.
        now apply conflict_queries_without_rejected.
      + intros results. destruct results; [apply frames_raise|apply frames_ret].
    - apply frames_bind; [|intros results; apply frames_ret].
      apply frames_execute. intros w Hw.
      now apply conflict_queries_without_rejected. }
  destruct (info_type info); try exact Hrest. apply frames_ret.
Qed.

Lemma frames_find_free_resources start_time end_time :
  strptime start_time = inr start_dt ->
  strptime end_time = inr end_dt ->
  frames (before ++ r :: after) (before ++ after)
         (find_free_resources start_time end_time).
Proof.
  intros Hs He. unfold find_free_resources.
  apply frames_try_except; [|intros e; apply frames_ret].
  unfold find_free_resources_body.
  apply frames_bind_lift. intros sd Hsd.
  rewrite Hs in Hsd. injection Hsd as <-.
  apply frames_bind_lift. intros ed Hed.
  rewrite He in Hed. injection Hed as <-.
  apply frames_bind; [apply frames_get_db_connection|intros _].
  apply frames_bind; [apply frames_getenv|intros rooms].
  apply frames_bind; [apply frames_getenv|intros vehicles].
  apply frames_bind; [apply frames_getenv|intros projectors].
  apply frames_bind.
  - apply frames_execute. intros w Hw. f_equal.
    unfold select_free_resources.
    change (resources (set_resourcelist (before ++ after) w)) with (resources w).
    destruct (conflict_queries_without_rejected w Hw) as (_ & _ & ->).
    reflexivity.
  - intros results.
    destruct (fold_left _ results ([], 0)). apply frames_ret.
Qed.

End RejectedReservation.

(** C5.  A reservation that ends when the window starts, or starts when
    the window ends, does not satisfy the conflict predicate, whatever its
    resource.  With it or without it in [resourcelist], the count query
    returns the same count for every resource, the grouped query the same
    rows for every set of resources, the set of busy resources of
    [find_free_resources] is the same, and so are the reports of
    [check_resource_availability] and [find_free_resources] for that
    window. *)
Theorem back_to_back_never_conflicts :
  forall (w : world) (end_dt start_dt : datetime) (r : reservation)
         (before after : list reservation),
    resourcelist w = before ++ r :: after ->
    seconds_of (rlprevend r) = seconds_of start_dt
    \/ seconds_of (rlprevbegin r) = seconds_of end_dt ->
    conflicts end_dt start_dt r = false
    /\ (forall resource_id,
          count_conflicts resource_id end_dt start_dt w
          = count_conflicts resource_id end_dt start_dt
              (set_resourcelist (before ++ after) w))
    /\ (forall resource_ids,
          count_conflicts_grouped resource_ids end_dt start_dt w
          = count_conflicts_grouped resource_ids end_dt start_dt
              (set_resourcelist (before ++ after) w))
    /\ busy_resource_ids end_dt start_dt w
       = busy_resource_ids end_dt start_dt
           (set_resourcelist (before ++ after) w)
    /\ (forall resource start_time end_time,
          strptime start_time = inr start_dt ->
          strptime end_time = inr end_dt ->
          fst (check_resource_availability resource start_time end_time w)
          = fst (check_resource_availability resource start_time end_time
                   (set_resourcelist (before ++ after) w))
          /\ fst (find_free_resources start_time end_time w)
             = fst (find_free_resources start_time end_time
                      (set_resourcelist (before ++ after) w))).
Proof.
  intros w end_dt start_dt r before after Hrl Hb2b.
  pose proof (conflicts_back_to_back end_dt start_dt r Hb2b) as Hc.
  destruct (conflict_queries_without_rejected
              end_dt start_dt r before after Hc w Hrl) as (H1 & H2 & H3).
  split; [exact Hc|].
  split; [intros i; symmetry; apply H1|].
  split; [intros ids; symmetry; apply H2|].
  split; [symmetry; exact H3|].
  intros resource start_time end_time Hs He. split.
  - destruct (frames_check_resource_availability
                end_dt start_dt r before after Hc resource start_time end_time
                Hs He w Hrl) as [E _].
    now rewrite E.
  - destruct (frames_find_free_resources
                end_dt start_dt r before after Hc start_time end_time
                Hs He w Hrl) as [E _].
    now rewrite E.
Qed.

Lemma back_to_back_never_conflicts_witness :
  count_conflicts "AULA01"
    (mk_datetime 2024 6 1 11 0 0) (mk_datetime 2024 6 1 10 0 0) campus
  = [0]
  /\ exists report,
       fst (check_resource_availability "AULA01"
              "2024-06-01 10:00" "2024-06-01 11:00" campus) = inr report
       /\ jpath ["conflitti"] report = Some (JInt 0)
       /\ jpath ["disponibile"] report = Some (JBool true).
Proof.
  destruct (back_to_back_never_conflicts campus
              (mk_datetime 2024 6 1 11 0 0) (mk_datetime 2024 6 1 10 0 0)
              (mk_reservation (Some "AULA01")
                 (mk_datetime 2024 6 1 9 0 0) (mk_datetime 2024 6 1 10 0 0))
              [] [] eq_refl (or_introl eq_refl))
    as (_ & H & _ & _ & Hreport).
  split; [rewrite H; reflexivity|].
  destruct (Hreport "AULA01" "2024-06-01 10:00" "2024-06-01 11:00"
              eq_refl eq_refl) as [E _].
  rewrite E. eexists. split; [vm_compute; reflexivity|].
  split; reflexivity.
Defined.

(* ================================================================== *)
(** ** The task query and the report of [get_active_bookings] *)

(** The run of [get_active_bookings] when the dates are parsed, the codes
    are read and the database answers: the task query is sent with the
    codes as they are, and its failure becomes an error report. *)
Lemma get_active_bookings_run w start_time end_time start_dt end_dt codes :
  strptime start_time = inr start_dt ->
  strptime end_time = inr end_dt ->
  get_calendar_codes w = (inr codes, w) ->
  faults w = [] ->
  get_active_bookings start_time end_time w
  = (match select_tasks end_dt start_dt codes w with
     | inr results =>
         inr (bookings_report start_time end_time start_dt end_dt results)
     | inl e => inr (error_report (str_exn e))
     end,
     add_statement (SelectTasks end_dt start_dt codes) w).
Proof.
  intros Hs He Hc Hf.
  unfold get_active_bookings, try_except, get_active_bookings_body, bind, lift.
  rewrite Hs, He, Hc.
  rewrite get_db_connection_ok by assumption.
  unfold execute_merged.
  change (Nat.compare (2 + length codes) 5)
    with (Nat.compare (length codes) 3).
  destruct (Nat.compare (length codes) 3) eqn:E.
  - rewrite execute_ok by assumption.
    change (select_tasks end_dt start_dt codes
              (add_statement (SelectTasks end_dt start_dt codes) w))
      with (select_tasks end_dt start_dt codes w).
    destruct (select_tasks end_dt start_dt codes w); reflexivity.
  - unfold select_tasks. rewrite E. reflexivity.
  - unfold select_tasks. rewrite E. reflexivity.
Qed.

Lemma tasks_join_calendar_In w t c :
  In (t, c) (tasks_join_calendar w) <->
  In t (tasks w) /\ In c (calendar w) /\ tecodcal t = cacodcal c.
Proof.
  unfold tasks_join_calendar. rewrite in_flat_map. split.
  - intros (t' & Ht & Hin). apply in_map_iff in Hin as (c' & E & Hc).
    injection E as -> ->. apply filter_In in Hc as [Hc E].
    apply String.eqb_eq in E. auto.
  - intros (Ht & Hc & E). exists t. split; [exact Ht|].
    apply in_map_iff. exists c. split; [reflexivity|].
    apply filter_In. split; [exact Hc|]. now apply String.eqb_eq.
Qed.

Lemma task_selected_spec end_dt start_dt codes t c :
  task_selected end_dt start_dt codes (t, c) = true <->
  inclusive_overlap (teprevbegin t) (teprevend t) start_dt end_dt
  /\ testato t = "C" /\ In (cacodcal c) codes.
Proof.
  unfold task_selected, inclusive_overlap, ts_le, ts_ge. cbn [fst snd].
  rewrite !andb_true_iff, !Z.leb_le, String.eqb_eq, member_In, Z.ge_le_iff.
  tauto.
Qed.

(** The rows of the task query, for three codes. *)
Lemma select_tasks_In w end_dt start_dt codes results b :
  select_tasks end_dt start_dt codes w = inr results ->
  In b results <->
  exists t c,
    b = booking_of t c /\ In t (tasks w) /\ In c (calendar w)
    /\ tecodcal t = cacodcal c /\ testato t = "C" /\ In (cacodcal c) codes
    /\ inclusive_overlap (teprevbegin t) (teprevend t) start_dt end_dt.
Proof.
  unfold select_tasks.
  destruct (Nat.compare (length codes) 3); try discriminate.
  intros [= <-]. rewrite order_by_In, in_map_iff. split.
  - intros ([t c] & <- & Hin). apply filter_In in Hin as [Hj Hs].
    apply tasks_join_calendar_In in Hj as (Ht & Hc & E).
    apply task_selected_spec in Hs as (Ho & Hst & Hm).
    exists t, c. cbn [fst snd]. repeat split; auto; apply Ho.
  - intros (t & c & -> & Ht & Hc & E & Hst & Hm & Ho).
    exists (t, c). split; [reflexivity|]. apply filter_In. split.
    + now apply tasks_join_calendar_In.
    + now apply task_selected_spec.
Qed.

Lemma select_tasks_three w end_dt start_dt codes :
  length codes = 3%nat ->
  exists results, select_tasks end_dt start_dt codes w = inr results.
Proof. intros H. unfold select_tasks. rewrite H. cbn. eauto. Qed.

Lemma assoc_get_app {A} k (d : list (string * A)) k' v :
  assoc_get k (d ++ [(k', v)])
  = match assoc_get k d with
    | Some x => Some x
    | None => if String.eqb k k' then Some v else None
    end.
Proof.
  induction d as [|[k0 v0] d IH]; cbn [app assoc_get]; [reflexivity|].
  destruct (String.eqb k k0); [reflexivity|exact IH].
Qed.

Lemma assoc_get_update {A} k k' (f : A -> A) (d : list (string * A)) :
  assoc_get k (assoc_update k' f d)
  = if String.eqb k k' then option_map f (assoc_get k d) else assoc_get k d.
Proof.
  induction d as [|[k0 v0] d IH]; cbn [assoc_update assoc_get].
  - now destruct (String.eqb k k').
  - destruct (String.eqb_spec k' k0) as [->|Hne]; cbn [assoc_get].
    + destruct (String.eqb k k0); reflexivity.
    + destruct (String.eqb_spec k k0) as [->|Hne2].
      * destruct (String.eqb_spec k0 k'); [congruence|reflexivity].
      * exact IH.
Qed.

Lemma assoc_get_map {A B} k (F : A -> B) (d : list (string * A)) :
  assoc_get k (map (fun kv => (fst kv, F (snd kv))) d)
  = option_map F (assoc_get k d).
Proof.
  induction d as [|[k0 v0] d IH]; cbn [map assoc_get fst snd]; [reflexivity|].
  destruct (String.eqb k k0); [reflexivity|exact IH].
Qed.

(** What the first loop has gathered after the rows [results]: the number
    of rows, and for every calendar code the events of its rows, in order;
    a code without rows has no entry. *)
Lemma fold_add_booking results :
  let '(d, n, h) := fold_left add_booking results ([], 0, PyInt 0) in
  n = Z.of_nat (length results)
  /\ forall k,
       option_map eventi (assoc_get k d)
       = match rows_of_calendar k results with
         | [] => None
         | rows => Some (map evento_info rows)
         end.
Proof.
  induction results as [|b results IH] using rev_ind.
  - cbn. split; [reflexivity|]. intros k. reflexivity.
  - rewrite fold_left_app. cbn [fold_left].
    destruct (fold_left add_booking results ([], 0, PyInt 0)) as [[d n] h].
    destruct IH as [Hn Hd]. unfold add_booking.
    split; [rewrite length_app; cbn [length]; lia|].
    intros k. unfold rows_of_calendar. rewrite List.filter_app.
    cbn [List.filter]. fold (rows_of_calendar k results).
    rewrite assoc_get_update.
    specialize (Hd k).
    destruct (String.eqb_spec k (cod_calendario b)) as [->|Hne].
    + rewrite String.eqb_refl.
      destruct (assoc_get (cod_calendario b) d) as [g|] eqn:Eg.
      * rewrite Eg. cbn [option_map eventi] in *.
        destruct (rows_of_calendar (cod_calendario b) results) as [|b0 rows];
          [discriminate|].
        injection Hd as ->. cbn [app map]. now rewrite map_app.
      * rewrite assoc_get_app, Eg, String.eqb_refl.
        cbn [option_map eventi] in *.
        destruct (rows_of_calendar (cod_calendario b) results) as [|b0 rows];
          [reflexivity|discriminate].
    + destruct (String.eqb_spec (cod_calendario b) k) as [E|_]; [congruence|].
      rewrite app_nil_r.
      destruct (assoc_get (cod_calendario b) d) as [g|] eqn:Eg; [exact Hd|].
      rewrite assoc_get_app.
      destruct (assoc_get k d); [exact Hd|].
      destruct (String.eqb_spec k (cod_calendario b)); [congruence|exact Hd].
Qed.

Lemma bookings_report_events start_time end_time start_dt end_dt results :
  jpath ["riepilogo"; "eventi_totali"]
    (bookings_report start_time end_time start_dt end_dt results)
  = Some (JLen results)
  /\ forall k,
       reported_events k
         (bookings_report start_time end_time start_dt end_dt results)
       = match rows_of_calendar k results with
         | [] => None
         | rows => Some (JList (map evento_info rows))
         end.
Proof.
  pose proof (fold_add_booking results) as H.
  unfold bookings_report, reported_events.
  destruct (fold_left add_booking results ([], 0, PyInt 0)) as [[d n] h].
  destruct H as [Hn Hd]. split.
  - cbn. unfold JLen. now rewrite Hn.
  - intros k. specialize (Hd k).
    cbn [jpath jget assoc_get String.eqb Ascii.eqb Bool.eqb].
    unfold round_groups. rewrite map_map. cbn [fst snd].
    rewrite (assoc_get_map k
               (fun g => group_json
                           (mk_group (group_nome_calendario g) (eventi g)
                                     (py_round1 (ore_totali g))))).
    destruct (assoc_get k d) as [g|]; cbn [option_map] in *.
    + destruct (rows_of_calendar k results); [discriminate|].
      injection Hd as Hd. cbn. now rewrite Hd.
    + destruct (rows_of_calendar k results); [reflexivity|discriminate].
Qed.

(** The hours that the first loop adds up: all durations for the global
    total, the durations of a calendar's rows for its group, each sum
    taken from the integer 0 in the order of the rows, unrounded. *)
Lemma fold_add_booking_hours results :
  let '(d, n, h) := fold_left add_booking results ([], 0, PyInt 0) in
  h = fold_left py_add (map durata_ore results) (PyInt 0)
  /\ forall k g,
       assoc_get k d = Some g ->
       ore_totali g
       = fold_left py_add (map durata_ore (rows_of_calendar k results)) (PyInt 0).
Proof.
  induction results as [|b results IH] using rev_ind.
  - cbn. split; [reflexivity|]. intros k g [=].
  - rewrite fold_left_app. cbn [fold_left].
    pose proof (fold_add_booking results) as Hev.
    destruct (fold_left add_booking results ([], 0, PyInt 0)) as [[d n] h].
    destruct IH as [Hh Hd]. destruct Hev as [_ Hev]. unfold add_booking.
    split; [rewrite map_app, fold_left_app, <- Hh; reflexivity|].
    intros k g. unfold rows_of_calendar. rewrite List.filter_app.
    cbn [List.filter]. fold (rows_of_calendar k results).
    rewrite assoc_get_update.
    destruct (String.eqb_spec k (cod_calendario b)) as [->|Hne].
    + rewrite String.eqb_refl, map_app, fold_left_app. cbn [map fold_left].
      destruct (assoc_get (cod_calendario b) d) as [g0|] eqn:Eg.
      * rewrite Eg. cbn [option_map]. intros [= <-]. cbn [ore_totali].
        now rewrite (Hd _ _ Eg).
      * rewrite assoc_get_app, Eg, String.eqb_refl. cbn [option_map].
        intros [= <-]. cbn [ore_totali].
        specialize (Hev (cod_calendario b)). rewrite Eg in Hev.
        destruct (rows_of_calendar (cod_calendario b) results);
          [reflexivity|discriminate].
    + destruct (String.eqb_spec (cod_calendario b) k) as [E|_]; [congruence|].
      rewrite app_nil_r.
      destruct (assoc_get (cod_calendario b) d) as [g0|] eqn:Eg; [apply Hd|].
      rewrite assoc_get_app.
      destruct (assoc_get k d) eqn:Ek; [intros [= <-]; now apply Hd|].
      destruct (String.eqb_spec k (cod_calendario b)); [congruence|discriminate].
Qed.

(* ================================================================== *)
(** ** The listing of active bookings *)

(** C1, as amended.  When the three configured codes are read and the
    query runs, [get_active_bookings] selects a confirmed task of a listed
    calendar exactly when [taskStart <= windowEnd] and
    [taskEnd >= windowStart], bounds included (the availability check uses
    [<] and [>]); the report lists, under each calendar code, the events of
    the selected rows of that calendar, and counts the selected rows. *)
Theorem listing_uses_inclusive_overlap :
  forall (w : world) (start_time end_time : string)
         (start_dt end_dt : datetime) (codes : list string),
    strptime start_time = inr start_dt ->
    strptime end_time = inr end_dt ->
    get_calendar_codes w = (inr codes, w) ->
    length codes = 3%nat ->
    faults w = [] ->
    exists results report,
      fst (get_active_bookings start_time end_time w) = inr report
      /\ report = bookings_report start_time end_time start_dt end_dt results
      /\ (forall t c,
            In t (tasks w) -> In c (calendar w) ->
            tecodcal t = cacodcal c -> testato t = "C" ->
            In (cacodcal c) codes ->
            (In (booking_of t c) results <->
             inclusive_overlap (teprevbegin t) (teprevend t) start_dt end_dt))
      /\ (forall k,
            reported_events k report
            = match rows_of_calendar k results with
              | [] => None
              | rows => Some (JList (map evento_info rows))
              end)
      /\ jpath ["riepilogo"; "eventi_totali"] report = Some (JNum (PyInt (Z.of_nat (length results)))).
Proof.
  intros w start_time end_time start_dt end_dt codes Hs He Hc Hlen Hf.
  destruct (select_tasks_three w end_dt start_dt codes Hlen) as [results Hsel].
  exists results. eexists.
  split.
  { rewrite (get_active_bookings_run _ _ _ _ _ _ Hs He Hc Hf), Hsel.
    reflexivity. }
  split; [reflexivity|].
  pose proof (bookings_report_events start_time end_time start_dt end_dt results)
    as [Htot Hev].
  split; [|split; [exact Hev|exact Htot]].
  intros t c Ht Hcal Hjoin Hst Hm.
  rewrite (select_tasks_In _ _ _ _ _ _ Hsel). split.
  - intros (t' & c' & E & _ & _ & _ & _ & _ & Ho).
    assert (Eb : teprevbegin t = teprevbegin t')
      by exact (f_equal inizio E).
    assert (Ee : teprevend t = teprevend t')
      by exact (f_equal fine E).
    now rewrite Eb, Ee.
  - intros Ho. exists t, c. repeat split; auto; apply Ho.
Qed.

Lemma listing_uses_inclusive_overlap_witness :
  exists report,
    fst (get_active_bookings "2024-06-01 10:30" "2024-06-01 12:00"
           (timetable "CAL1, CAL2, CAL3")) = inr report
    /\ jpath ["riepilogo"; "eventi_totali"] report = Some (JInt 1).
Proof.
  destruct (listing_uses_inclusive_overlap
              (timetable "CAL1, CAL2, CAL3")
              "2024-06-01 10:30" "2024-06-01 12:00"
              (mk_datetime 2024 6 1 10 30 0) (mk_datetime 2024 6 1 12 0 0)
              ["CAL1"; "CAL2"; "CAL3"]
              eq_refl eq_refl eq_refl eq_refl eq_refl)
    as (results & report & Hrun & _).
  exists report. split; [exact Hrun|].
  vm_compute in Hrun. injection Hrun as <-. reflexivity.
Defined.

(** C1, as stated, fails: the lesson ends at 11:00, the window starts at
    11:00, the strict predicate of the availability check rejects the
    pair, and the lesson is listed. *)
Lemma listing_uses_inclusive_overlap_counterexample :
  exists report,
    fst (get_active_bookings "2024-06-01 11:00" "2024-06-01 12:00"
           (timetable "CAL1,CAL2,CAL3")) = inr report
    /\ reported_events "CAL1" report
       = Some (JList [evento_info
                        (booking_of
                           (mk_task "Lezione" 7 "CAL1" "Aula 1" "AULA01"
                              (mk_datetime 2024 6 1 10 0 0)
                              (mk_datetime 2024 6 1 11 0 0) "C")
                           (mk_calendar "CAL1" "Aule"))])
    /\ ~ strict_overlap (mk_datetime 2024 6 1 10 0 0)
                        (mk_datetime 2024 6 1 11 0 0)
                        (mk_datetime 2024 6 1 11 0 0)
                        (mk_datetime 2024 6 1 12 0 0)
    /\ conflicts (mk_datetime 2024 6 1 12 0 0) (mk_datetime 2024 6 1 11 0 0)
         (mk_reservation (Some "AULA01")
            (mk_datetime 2024 6 1 10 0 0) (mk_datetime 2024 6 1 11 0 0))
       = false.
Proof.
  eexists. split; [vm_compute; reflexivity|].
  split; [reflexivity|]. split; [|reflexivity].
  unfold strict_overlap. vm_compute. intros [_ H]. discriminate H.
Qed.

(** C3 at its failing input: with two configured codes the parameter tuple
    has four entries for the five placeholders of the task query, and the
    call ends in an error report although a confirmed task of a listed
    calendar lies in the window. *)
Lemma two_calendar_codes_fail :
  get_calendar_codes (timetable "CAL1,CAL2")
  = (inr ["CAL1"; "CAL2"], timetable "CAL1,CAL2")
  /\ fst (get_active_bookings "2024-06-01 09:00" "2024-06-01 12:00"
            (timetable "CAL1,CAL2"))
     = inr (JDict [("error", JStr "tuple index out of range")])
  /\ statements (snd (get_active_bookings "2024-06-01 09:00" "2024-06-01 12:00"
                        (timetable "CAL1,CAL2")))
     = [SelectTasks (mk_datetime 2024 6 1 12 0 0) (mk_datetime 2024 6 1 9 0 0)
          ["CAL1"; "CAL2"]].
Proof. repeat split; vm_compute; reflexivity. Qed.

(* ================================================================== *)
(** ** Errors never escape *)

Lemma try_except_returns {A} (body : M A) (f : exn -> A) w :
  exists a w', try_except body (fun e => ret (f e)) w = (inr a, w').
Proof.
  unfold try_except, ret. destruct (body w) as [[e|a] w']; eauto.
Qed.

(** [strptime] raises nothing but [ValueError]. *)
Lemma strptime_raises_ValueError s e :
  strptime s = inl e -> is_ValueError e = true.
Proof.
  unfold strptime.
  destruct (re_format s) as [|[d rest] l]; [now intros [= <-]|].
  destruct rest; [|now intros [= <-]].
  destruct (year d <? 1); [now intros [= <-]|].
  destruct (days_in_month (year d) (month d) <? day d);
    [now intros [= <-]|discriminate].
Qed.

Lemma parse_failure_cases start_time end_time e :
  parse_failure start_time end_time = Some e ->
  strptime start_time = inl e
  \/ exists start_dt, strptime start_time = inr start_dt
                      /\ strptime end_time = inl e.
Proof.
  unfold parse_failure.
  destruct (strptime start_time) as [e1|d1]; [intros [= ->]; now left|].
  destruct (strptime end_time) as [e2|d2]; [|discriminate].
  intros [= ->]. right. now exists d1.
Qed.

(** The resolution itself is not a tool and catches nothing: a failure of
    the connection leaves [resolve_resource_info] as an exception, for its
    caller to catch. *)
Lemma resolve_resource_info_propagates resource w e fs :
  faults w = Some e :: fs ->
  resolve_resource_info resource w = (inl e, set_faults fs w).
Proof.
  intros H. unfold resolve_resource_info, bind, get_db_connection,
    try_except, database_operation, raise.
  now rewrite H.
Qed.

(** C9, as amended.  Each of the query operations returns a report,
    whatever the strings it is given, the tables, the environment and the
    failures of the database: no exception leaves it; so do [health_check]
    and [update_activity], whatever the part that talks to the REST service
    does, and what a tool raises the dispatcher returns as an error report.
    When [strptime] rejects one of the two date strings (of ASCII
    characters), the exception is a [ValueError] and the operation returns
    [{"error": message}], the message alone, before anything is sent to the
    database. *)
Theorem public_operations_never_raise :
  forall (w : world) (resource start_time end_time : string),
    (exists report w',
       get_active_bookings start_time end_time w = (inr report, w'))
    /\ (exists report w',
          check_resource_availability resource start_time end_time w
          = (inr report, w'))
    /\ (exists report w',
          find_free_resources start_time end_time w = (inr report, w'))
    /\ (exists report w', list_available_resources w = (inr report, w'))
    /\ (forall e,
          ascii_text start_time = true ->
          ascii_text end_time = true ->
          parse_failure start_time end_time = Some e ->
          exists message,
            e = ValueError message
            /\ get_active_bookings start_time end_time w
               = (inr (JDict [("error", JStr message)]), w)
            /\ check_resource_availability resource start_time end_time w
               = (inr (JDict [("error", JStr message)]), w)
            /\ find_free_resources start_time end_time w
               = (inr (JDict [("error", JStr message)]), w))
    /\ (forall now, exists report w', health_check now w = (inr report, w'))
    /\ (forall update_request task_id title resource_id location description
               priority clock,
          exists response w',
            update_activity update_request task_id title resource_id
              start_time end_time location description priority clock w
            = (inr response, w'))
    /\ (forall t name arguments tool e w',
          assoc_get name (tool_handlers t arguments) = Some (inr tool) ->
          tool w = (inl e, w') ->
          handle_call_tool t name arguments w
          = (JDict [("error", JStr (str_exn e))], w')).
Proof.
  intros w resource start_time end_time.
  split; [apply try_except_returns|].
  split; [apply try_except_returns|].
  split; [apply try_except_returns|].
  split; [apply try_except_returns|].
  split.
  { intros e _ _ Hfail.
    apply parse_failure_cases in Hfail as [Hs|(start_dt & Hs & He)].
    - pose proof (strptime_raises_ValueError _ _ Hs) as Hv.
      destruct e as [message| | | |]; try discriminate Hv.
      exists message. split; [reflexivity|].
      unfold_operations. rewrite Hs. repeat split.
    - pose proof (strptime_raises_ValueError _ _ He) as Hv.
      destruct e as [message| | | |]; try discriminate Hv.
      exists message. split; [reflexivity|].
      unfold_operations. rewrite Hs, He. repeat split. }
  split; [intros now; apply try_except_returns|].
  split.
  { intros update_request task_id title resource_id location description
      priority clock.
    unfold update_activity. apply try_except_returns. }
  intros t name arguments tool e w' Hh Ht.
  unfold handle_call_tool. now rewrite Hh, Ht.
Qed.

Lemma public_operations_never_raise_witness :
  get_active_bookings "01/06/2024 09:30" "2024-06-01 10:30" campus
  = (inr (JDict [("error",
                  JStr "time data '01/06/2024 09:30' does not match format '%Y-%m-%d %H:%M'")]),
     campus)
  /\ check_resource_availability "AULA01" "2024-06-01 09:30" "2024-02-30 10:30"
       campus
     = (inr (JDict [("error", JStr "day is out of range for month")]), campus).
Proof.
  split.
  - destruct (public_operations_never_raise campus "AULA01"
                "01/06/2024 09:30" "2024-06-01 10:30")
      as (_ & _ & _ & _ & H & _).
    destruct (H _ eq_refl eq_refl eq_refl) as (message & E & Hg & _).
    injection E as <-. exact Hg.
  - destruct (public_operations_never_raise campus "AULA01"
                "2024-06-01 09:30" "2024-02-30 10:30")
      as (_ & _ & _ & _ & H & _).
    destruct (H _ eq_refl eq_refl eq_refl) as (message & E & _ & Hc & _).
    injection E as <-. exact Hc.
Defined.

(** C9, as stated, fails.  The string [2024-6-1 9:5] is not in the form
    [YYYY-MM-DD HH:MM], and [get_active_bookings] accepts it and returns a
    listing.  The report of a rejected date is [{"error": message}]: it has
    no kind, and has the keys of the report of a database failure.  And
    [resolve_resource_info], the resolution of section 4.1, lets the
    failure of the database leave it as an exception. *)
Lemma public_operations_never_raise_counterexample :
  in_form "2024-6-1 9:5" = false
  /\ (exists report,
        fst (get_active_bookings "2024-6-1 9:5" "2024-06-01 12:00"
               (timetable "CAL1,CAL2,CAL3")) = inr report
        /\ jpath ["error"] report = None
        /\ jpath ["periodo"; "inizio"] report = Some (JStr "2024-6-1 9:5")
        /\ jpath ["riepilogo"; "eventi_totali"] report = Some (JNum (PyInt 1)))
  /\ fst (get_active_bookings "01/06/2024 09:30" "2024-06-01 12:00"
            (timetable "CAL1,CAL2,CAL3"))
     = inr (JDict [("error",
                    JStr "time data '01/06/2024 09:30' does not match format '%Y-%m-%d %H:%M'")])
  /\ fst (get_active_bookings "2024-06-01 09:30" "2024-06-01 12:00"
            (set_faults [Some (DatabaseError "connection refused")]
               (timetable "CAL1,CAL2,CAL3")))
     = inr (JDict [("error", JStr "connection refused")])
  /\ fst (resolve_resource_info "AULA01"
            (set_faults [Some (DatabaseError "connection refused")] campus))
     = inl (DatabaseError "connection refused").
Proof.
  split; [reflexivity|].
  split.
  { eexists. split; [vm_compute; reflexivity|]. repeat split; reflexivity. }
  repeat split; vm_compute; reflexivity.
Qed.

(* ================================================================== *)
(** ** Scenarios *)

(** The format is the one of [strptime]: fields of one digit and a run of
    blanks between date and time are accepted, a day that does not exist
    and trailing characters are not. *)
Example strptime_scenarios :
  strptime "2024-06-01 09:30" = inr (mk_datetime 2024 6 1 9 30 0)
  /\ strptime "2024-6-1  9:5" = inr (mk_datetime 2024 6 1 9 5 0)
  /\ strptime "2024-02-30 09:30" = inl (ValueError "day is out of range for month")
  /\ strptime "2024-06-01 09:30:00" = inl (ValueError "unconverted data remains: :00")
  /\ strftime (mk_datetime 2024 6 1 9 5 0) = "2024-06-01 09:05".
Proof. repeat split; reflexivity. Qed.

(** Without a reservation in the window, [find_free_resources] returns
    every active resource, by type label. *)
Example find_free_resources_scenario :
  fst (find_free_resources "2024-06-02 09:00" "2024-06-02 10:30"
         (mk_world (resources campus) (resourcelist campus) [] []
            [("RESOURCE_TYPE_ROOMS", "R"); ("RESOURCE_TYPE_VEHICLES", "V")]
            [] []))
  = inr (JDict [
      ("periodo_richiesto", JDict [
         ("inizio", JStr "2024-06-02 09:00");
         ("fine", JStr "2024-06-02 10:30");
         ("durata_ore",
          JNum (PyFloat (F_round1 (F_div (F_of_int 5400) (F_of_int 3600))))) ]);
      ("riepilogo", JDict [
         ("risorse_libere_totali", JInt 3);
         ("tipi_disponibili", JInt 2) ]);
      ("risorse_per_tipo", JDict [
         ("Aule/Stanze", JList [
            JDict [("id", JStr "AULA01"); ("descrizione", JStr "Aula Corsi");
                   ("tipo_codice", JStr "R")];
            JDict [("id", JStr "AULA02");
                   ("descrizione", JStr "Aula Corsi Grande");
                   ("tipo_codice", JStr "R")] ]);
         ("Automezzi", JList [
            JDict [("id", JStr "FIAT01"); ("descrizione", JStr "Fiat Panda");
                   ("tipo_codice", JStr "V")] ]) ]) ]).
Proof. vm_compute. reflexivity. Qed.

(** A failure of the database inside [check_resource_availability] comes
    back as an error report. *)
Example database_failure_scenario :
  check_resource_availability "AULA01" "2024-06-01 09:30" "2024-06-01 10:30"
    (set_faults [None; None; Some (DatabaseError "connection refused")] campus)
  = (inr (JDict [("error", JStr "connection refused")]),
     add_statement (SelectResourceById "AULA01") campus).
Proof. vm_compute. reflexivity. Qed.

(** With two configured codes the parameters of the task query do not fit
    its placeholders: psycopg2 raises before the statement reaches the
    server, and the failure that is pending there is not met. *)
Example binding_failure_precedes_database_failure :
  get_active_bookings "2024-06-01 09:00" "2024-06-01 12:00"
    (set_faults [None; Some (DatabaseError "permission denied")]
       (timetable "CAL1,CAL2"))
  = (inr (JDict [("error", JStr "tuple index out of range")]),
     add_statement
       (SelectTasks (mk_datetime 2024 6 1 12 0 0) (mk_datetime 2024 6 1 9 0 0)
          ["CAL1"; "CAL2"])
       (set_faults [Some (DatabaseError "permission denied")]
          (timetable "CAL1,CAL2"))).
Proof. vm_compute. reflexivity. Qed.

(* ================================================================== *)
(** ** The conflict predicate and the two views of availability *)

(** X1.  For a reservation and a window that both start before they end,
    the conflict predicate of the availability queries holds exactly when
    the two intervals share an instant, each taken with its start and
    without its end. *)
Theorem conflicts_iff_common_instant :
  forall (end_dt start_dt : datetime) (r : reservation),
    seconds_of (rlprevbegin r) < seconds_of (rlprevend r) ->
    seconds_of start_dt < seconds_of end_dt ->
    (conflicts end_dt start_dt r = true <->
     exists t,
       seconds_of (rlprevbegin r) <= t < seconds_of (rlprevend r)
       /\ seconds_of start_dt <= t < seconds_of end_dt).
Proof.
  intros end_dt start_dt r Hr Hw. unfold conflicts, ts_lt, ts_gt.
  rewrite andb_true_iff, !Z.ltb_lt. split.
  - intros [H1 H2].
    exists (Z.max (seconds_of (rlprevbegin r)) (seconds_of start_dt)). lia.
  - intros (t & H1 & H2). lia.
Qed.

Lemma conflicts_iff_common_instant_witness :
  conflicts (mk_datetime 2024 6 1 10 30 0) (mk_datetime 2024 6 1 9 30 0)
    (mk_reservation (Some "AULA01")
       (mk_datetime 2024 6 1 9 0 0) (mk_datetime 2024 6 1 10 0 0)) = true.
Proof.
  apply (conflicts_iff_common_instant
           (mk_datetime 2024 6 1 10 30 0) (mk_datetime 2024 6 1 9 30 0)
           (mk_reservation (Some "AULA01")
              (mk_datetime 2024 6 1 9 0 0) (mk_datetime 2024 6 1 10 0 0))).
  - vm_compute. reflexivity.
  - vm_compute. reflexivity.
  - exists (seconds_of (mk_datetime 2024 6 1 9 45 0)). vm_compute.
    repeat split; discriminate.
Defined.

Lemma filter_length_le {A} (f g : A -> bool) l :
  (forall x, f x = true -> g x = true) ->
  (length (List.filter f l) <= length (List.filter g l))%nat.
Proof.
  intros H. induction l as [|x l IH]; [reflexivity|].
  cbn [List.filter]. destruct (f x) eqn:Ef.
  - rewrite (H x Ef). cbn [length]. lia.
  - destruct (g x); cbn [length]; lia.
Qed.

Lemma conflicts_widen end_dt start_dt end_dt' start_dt' r :
  seconds_of start_dt' <= seconds_of start_dt ->
  seconds_of end_dt <= seconds_of end_dt' ->
  conflicts end_dt start_dt r = true ->
  conflicts end_dt' start_dt' r = true.
Proof.
  unfold conflicts, ts_lt, ts_gt. rewrite !andb_true_iff, !Z.ltb_lt. lia.
Qed.

(** The ids that the query of [find_free_resources] holds busy are those
    with a reservation that conflicts with the window. *)
Lemma busy_resource_ids_In end_dt start_dt w i :
  In i (busy_resource_ids end_dt start_dt w) <->
  exists r, In r (resourcelist w) /\ rlresourceid r = Some i
            /\ conflicts end_dt start_dt r = true.
Proof.
  unfold busy_resource_ids. rewrite List.nodup_In.
  rewrite <- list_elem_of_In, list_elem_of_omap. split.
  - intros (r & Hr & Hi). apply list_elem_of_In, filter_In in Hr as [Hr Hc].
    now exists r.
  - intros (r & Hr & Hi & Hc). exists r. split; [|exact Hi].
    apply list_elem_of_In, filter_In. now split.
Qed.

Lemma conflict_count_zero i end_dt start_dt w :
  conflict_count i end_dt start_dt w = 0 <->
  ~ In i (busy_resource_ids end_dt start_dt w).
Proof.
  rewrite busy_resource_ids_In. unfold conflict_count. split.
  - intros H (r & Hr & Hi & Hc).
    assert (Hin : In r (List.filter (fun r => rl_is i r && conflicts end_dt start_dt r)
                          (resourcelist w))).
    { apply filter_In. split; [exact Hr|]. unfold rl_is.
      now rewrite Hi, String.eqb_refl, Hc. }
    destruct (List.filter _ (resourcelist w)); [destruct Hin|discriminate].
  - intros H.
    destruct (List.filter (fun r => rl_is i r && conflicts end_dt start_dt r)
                (resourcelist w)) as [|r l] eqn:E; [reflexivity|].
    exfalso. apply H.
    assert (Hin : In r (List.filter (fun r => rl_is i r && conflicts end_dt start_dt r)
                          (resourcelist w))) by (rewrite E; now left).
    apply filter_In in Hin as [Hr Hp]. apply andb_prop in Hp as [Hi Hc].
    exists r. repeat split; auto. unfold rl_is in Hi.
    destruct (rlresourceid r) as [k|]; [|discriminate].
    apply String.eqb_eq in Hi. now subst.
Qed.

(** The rows of the query of [find_free_resources]. *)
Lemma select_free_resources_In end_dt start_dt w r :
  In r (select_free_resources end_dt start_dt w) <->
  In r (resources w) /\ flactive r = 1
  /\ conflict_count (reresourceid r) end_dt start_dt w = 0.
Proof.
  unfold select_free_resources.
  rewrite order_by_In, filter_In, andb_true_iff, Z.eqb_eq, negb_true_iff.
  rewrite conflict_count_zero, <- member_In.
  destruct (member (reresourceid r) (busy_resource_ids end_dt start_dt w));
    intuition congruence.
Qed.

(** X2.  Widening the window never lowers the number of conflicts of a
    resource, and never adds a resource to the rows that
    [find_free_resources] selects. *)
Theorem wider_window_more_conflicts :
  forall (w : world) (end_dt start_dt end_dt' start_dt' : datetime),
    seconds_of start_dt' <= seconds_of start_dt ->
    seconds_of end_dt <= seconds_of end_dt' ->
    (forall resource_id,
       conflict_count resource_id end_dt start_dt w
       <= conflict_count resource_id end_dt' start_dt' w)
    /\ (forall r,
          In r (select_free_resources end_dt' start_dt' w) ->
          In r (select_free_resources end_dt start_dt w)).
Proof.
  intros w end_dt start_dt end_dt' start_dt' Hs He.
  assert (Hcount : forall resource_id,
             conflict_count resource_id end_dt start_dt w
             <= conflict_count resource_id end_dt' start_dt' w).
  { intros i. unfold conflict_count. apply Nat2Z.inj_le, filter_length_le.
    intros r Hr. apply andb_prop in Hr as [Hi Hc]. rewrite Hi.
    now rewrite (conflicts_widen _ _ _ _ _ Hs He Hc). }
  split; [exact Hcount|].
  intros r Hr. apply select_free_resources_In in Hr as (H1 & H2 & H3).
  apply select_free_resources_In. repeat split; auto.
  specialize (Hcount (reresourceid r)).
  unfold conflict_count in *. lia.
Qed.

Lemma wider_window_more_conflicts_witness :
  conflict_count "AULA01"
    (mk_datetime 2024 6 1 11 0 0) (mk_datetime 2024 6 1 10 0 0) campus
  <= conflict_count "AULA01"
       (mk_datetime 2024 6 1 12 0 0) (mk_datetime 2024 6 1 9 30 0) campus.
Proof.
  destruct (wider_window_more_conflicts campus
              (mk_datetime 2024 6 1 11 0 0) (mk_datetime 2024 6 1 10 0 0)
              (mk_datetime 2024 6 1 12 0 0) (mk_datetime 2024 6 1 9 30 0))
    as [H _].
  - vm_compute. discriminate.
  - vm_compute. discriminate.
  - apply H.
Defined.

(** X3.  For a token that resolves to kind [exact], the availability flag
    of [check_resource_availability] is true exactly when the resolved
    resource is among the rows that [find_free_resources] selects for the
    same window. *)
Theorem available_iff_listed_free :
  forall (w : world) (resource start_time end_time : string)
         (start_dt end_dt : datetime) (info : resource_info) (w1 : world),
    strptime start_time = inr start_dt ->
    strptime end_time = inr end_dt ->
    resolve_resource_info resource w = (inr info, w1) ->
    info_type info = exact ->
    faults w1 = [] ->
    exists r report,
      info_resources info = [r]
      /\ fst (check_resource_availability resource start_time end_time w)
         = inr report
      /\ (jpath ["disponibile"] report = Some (JBool true) <->
          In r (select_free_resources end_dt start_dt w)).
Proof.
  intros w resource start_time end_time start_dt end_dt info w1
         Hs He Hres Hkind Hf.
  destruct (check_resource_availability_exact
              _ _ _ _ _ _ _ _ Hs He Hres Hkind Hf) as (r & Hr & Hsel & Hrun).
  apply select_resource_by_id_In in Hsel as (Hin & Hact & _).
  exists r. eexists. split; [exact Hr|]. split; [now rewrite Hrun|].
  rewrite select_free_resources_In.
  cbn [jpath jget specific_report assoc_get String.eqb Ascii.eqb Bool.eqb].
  destruct (Z.eqb_spec (conflict_count (reresourceid r) end_dt start_dt w) 0)
    as [E|E]; split; intros H; auto; try discriminate.
  destruct H as (_ & _ & H). contradiction.
Qed.

Lemma available_iff_listed_free_witness :
  exists report,
    fst (check_resource_availability "aula02"
           "2024-06-01 09:30" "2024-06-01 10:30" campus) = inr report
    /\ jpath ["disponibile"] report = Some (JBool true)
    /\ In (mk_resource "AULA02" "Aula Corsi Grande" "R" "CAL1" 1)
          (select_free_resources
             (mk_datetime 2024 6 1 10 30 0) (mk_datetime 2024 6 1 9 30 0) campus).
Proof.
  destruct (available_iff_listed_free campus "aula02"
              "2024-06-01 09:30" "2024-06-01 10:30"
              (mk_datetime 2024 6 1 9 30 0) (mk_datetime 2024 6 1 10 30 0)
              (mk_resource_info exact
                 [mk_resource "AULA02" "Aula Corsi Grande" "R" "CAL1" 1]
                 (Some "CAL1"))
              (add_statement (SelectResourceById "aula02") campus)
              eq_refl eq_refl eq_refl eq_refl eq_refl)
    as (r & report & Hr & Hrun & Hiff).
  injection Hr as <-.
  exists report. split; [exact Hrun|].
  assert (Hd : jpath ["disponibile"] report = Some (JBool true)).
  { vm_compute in Hrun. injection Hrun as <-. reflexivity. }
  split; [exact Hd|]. now apply Hiff.
Defined.

(* ================================================================== *)
(** ** [ORDER BY] on two keys *)

Section Lexicographic.

Context {A : Type}.
Variable key : A -> string.
Variable leb2 : A -> A -> bool.
Hypothesis leb2_total : forall a b, leb2 a b = true \/ leb2 b a = true.
Hypothesis leb2_trans :
  forall a b c, leb2 a b = true -> leb2 b c = true -> leb2 a c = true.

Lemma lex_leb_total a b :
  lex_leb key leb2 a b = true \/ lex_leb key leb2 b a = true.
Proof.
  unfold lex_leb. rewrite (String.eqb_sym (key b) (key a)).
  destruct (String.eqb (key a) (key b)); [apply leb2_total|].
  apply String.leb_total.
Qed.

Lemma lex_leb_trans a b c :
  lex_leb key leb2 a b = true -> lex_leb key leb2 b c = true ->
  lex_leb key leb2 a c = true.
Proof.
  unfold lex_leb.
  destruct (String.eqb_spec (key a) (key b)) as [Eab|Nab];
    destruct (String.eqb_spec (key b) (key c)) as [Ebc|Nbc];
    destruct (String.eqb_spec (key a) (key c)) as [Eac|Nac];
    intros H1 H2;
    first
      [ congruence
      | solve [eapply leb2_trans; eassumption]
      | solve [eapply leb_trans; eassumption]
      | solve [rewrite Eab; exact H2]
      | solve [rewrite <- Ebc; exact H1]
      | exfalso; apply Nab; apply String.leb_antisym;
        [exact H1|rewrite Eac; exact H2] ].
Qed.

End Lexicographic.

(** A total and transitive comparison makes [ORDER BY] return its rows in
    order. *)
Lemma order_by_sorted {A} (leb : A -> A -> bool) l :
  (forall a b, leb a b = true \/ leb b a = true) ->
  (forall a b c, leb a b = true -> leb b c = true -> leb a c = true) ->
  StronglySorted (fun a b => leb a b = true) (order_by leb l).
Proof.
  intros Htotal Htrans. unfold order_by.
  assert (Htot : Total (fun a b => Is_true (leb a b))).
  { intros a b. destruct (Htotal a b) as [H|H]; rewrite H; [left|right]; exact I. }
  assert (Htr : Transitive (fun a b => Is_true (leb a b))).
  { intros a b c H1 H2. apply Is_true_true. apply Is_true_true in H1, H2.
    eapply Htrans; eassumption. }
  pose proof (StronglySorted_merge_sort (fun a b => Is_true (leb a b)) l) as H.
  induction H as [|x xs Hs IH Hall]; constructor; [exact IH|].
  eapply List.Forall_impl; [|exact Hall].
  intros y Hy. now apply Is_true_true in Hy.
Qed.

Lemma StronglySorted_filter {A} (R : A -> A -> Prop) (f : A -> bool) l :
  StronglySorted R l -> StronglySorted R (List.filter f l).
Proof.
  induction 1 as [|x l Hs IH Hall]; cbn [List.filter]; [constructor|].
  destruct (f x); [|exact IH]. constructor; [exact IH|].
  rewrite List.Forall_forall in *. intros y Hy.
  apply filter_In in Hy as [Hy _]. now apply Hall.
Qed.

Lemma ts_le_total a b : ts_le a b = true \/ ts_le b a = true.
Proof. unfold ts_le. rewrite !Z.leb_le. lia. Qed.

Lemma ts_le_trans a b c : ts_le a b = true -> ts_le b c = true -> ts_le a c = true.
Proof. unfold ts_le. rewrite !Z.leb_le. lia. Qed.

(* ================================================================== *)
(** ** The reports of [find_free_resources] and [list_available_resources] *)

(** What the loop of [find_free_resources] has gathered after the rows
    [results]: their number, and for every label the entries of the rows
    that bear it, in order; a label without rows has no entry. *)
Lemma fold_add_free_resource rooms vehicles projectors results :
  let '(d, n) :=
    fold_left (add_free_resource rooms vehicles projectors) results ([], 0) in
  n = Z.of_nat (length results)
  /\ forall label,
       assoc_get label d
       = match rows_of_type rooms vehicles projectors label results with
         | [] => None
         | rows => Some (map free_resource_json rows)
         end.
Proof.
  induction results as [|r results IH] using rev_ind.
  - cbn. split; [reflexivity|]. intros label. reflexivity.
  - rewrite fold_left_app. cbn [fold_left].
    destruct (fold_left (add_free_resource rooms vehicles projectors)
                results ([], 0)) as [d n].
    destruct IH as [Hn Hd]. unfold add_free_resource. cbn [fst snd].
    split; [rewrite length_app; cbn [length]; lia|].
    intros label. unfold rows_of_type. rewrite List.filter_app.
    cbn [List.filter]. fold (rows_of_type rooms vehicles projectors label results).
    rewrite assoc_get_update. specialize (Hd label).
    set (tipo := tipo_descrizione rooms vehicles projectors r) in *.
    destruct (String.eqb_spec label tipo) as [->|Hne].
    + rewrite String.eqb_refl.
      destruct (assoc_get tipo d) as [l|] eqn:El.
      * rewrite El. cbn [option_map].
        destruct (rows_of_type rooms vehicles projectors tipo results)
          as [|r0 rows]; [discriminate|].
        injection Hd as ->. cbn [app map]. now rewrite map_app.
      * rewrite assoc_get_app, El, String.eqb_refl. cbn [option_map].
        destruct (rows_of_type rooms vehicles projectors tipo results)
          as [|r0 rows]; [reflexivity|discriminate].
    + destruct (String.eqb_spec tipo label) as [E|_]; [congruence|].
      rewrite app_nil_r.
      destruct (assoc_get tipo d) as [l|] eqn:El; [exact Hd|].
      rewrite assoc_get_app.
      destruct (assoc_get label d); [exact Hd|].
      destruct (String.eqb_spec label tipo); [congruence|exact Hd].
Qed.

Lemma filter_none {A} (f : A -> bool) l :
  (forall x, In x l -> f x = false) -> List.filter f l = [].
Proof.
  induction l as [|x l IH]; intros H; [reflexivity|].
  cbn [List.filter]. rewrite (H x (or_introl eq_refl)).
  apply IH. intros y Hy. apply H. now right.
Qed.

Lemma string_leb_total_tt a b : String.leb a b = true \/ String.leb b a = true.
Proof. apply String.leb_total. Qed.

Lemma resource_type_leb_sorted by_description l :
  StronglySorted (fun a b => resource_type_leb by_description a b = true)
                 (order_by (resource_type_leb by_description) l).
Proof.
  apply order_by_sorted.
  - intros a b.
    apply (lex_leb_total retype
             (fun a b => if by_description
                         then String.leb (redescri a) (redescri b)
                         else String.leb (reresourceid a) (reresourceid b))).
    intros x y. destruct by_description; apply String.leb_total.
  - intros a b c.
    apply (lex_leb_trans retype
             (fun a b => if by_description
                         then String.leb (redescri a) (redescri b)
                         else String.leb (reresourceid a) (reresourceid b))).
    intros x y z. destruct by_description; apply leb_trans.
Qed.

(** X4.  When the dates are parsed and the database answers,
    [find_free_resources] reports the active resources without a
    conflicting reservation in the window, and no others: their number as
    [risorse_libere_totali], each under the label of its type, the rows in
    the order of type and then id.  When no reservation conflicts with the
    window, that number is the number of active resources. *)
Theorem free_resources_report :
  forall (w : world) (start_time end_time : string) (start_dt end_dt : datetime),
    strptime start_time = inr start_dt ->
    strptime end_time = inr end_dt ->
    faults w = [] ->
    exists rows report,
      fst (find_free_resources start_time end_time w) = inr report
      /\ (forall r, In r rows <->
                    In r (resources w) /\ flactive r = 1
                    /\ conflict_count (reresourceid r) end_dt start_dt w = 0)
      /\ StronglySorted (fun a b => resource_type_leb false a b = true) rows
      /\ jpath ["riepilogo"; "risorse_libere_totali"] report = Some (JNum (PyInt (Z.of_nat (length rows))))
      /\ (forall label,
            jpath ["risorse_per_tipo"; label] report
            = match rows_of_type (assoc_get "RESOURCE_TYPE_ROOMS" (environ w))
                                 (assoc_get "RESOURCE_TYPE_VEHICLES" (environ w))
                                 (assoc_get "RESOURCE_TYPE_PROJECTORS" (environ w))
                                 label rows with
              | [] => None
              | l => Some (JList (map free_resource_json l))
              end)
      /\ ((forall r, In r (resourcelist w) -> conflicts end_dt start_dt r = false) ->
          length rows
          = length (List.filter (fun r => flactive r =? 1) (resources w))).
Proof.
  intros w start_time end_time start_dt end_dt Hs He Hf.
  exists (select_free_resources end_dt start_dt w).
  set (rooms := assoc_get "RESOURCE_TYPE_ROOMS" (environ w)).
  set (vehicles := assoc_get "RESOURCE_TYPE_VEHICLES" (environ w)).
  set (projectors := assoc_get "RESOURCE_TYPE_PROJECTORS" (environ w)).
  pose proof (fold_add_free_resource rooms vehicles projectors
                (select_free_resources end_dt start_dt w)) as Hfold.
  unfold find_free_resources, try_except, find_free_resources_body, bind, lift.
  rewrite Hs, He. rewrite get_db_connection_ok by assumption.
  unfold getenv. fold rooms vehicles projectors.
  rewrite execute_ok by assumption.
  change (select_free_resources end_dt start_dt
            (add_statement (SelectFreeResources end_dt start_dt
                              [rooms; vehicles; projectors]) w))
    with (select_free_resources end_dt start_dt w).
  destruct (fold_left (add_free_resource rooms vehicles projectors)
              (select_free_resources end_dt start_dt w) ([], 0)) as [d n].
  destruct Hfold as [Hn Hd]. unfold ret. cbn [fst].
  eexists. split; [reflexivity|].
  split; [intros r; apply select_free_resources_In|].
  split; [apply resource_type_leb_sorted|].
  split; [cbn; unfold JLen; now rewrite Hn|].
  split.
  - intros label.
    cbn [jpath jget assoc_get String.eqb Ascii.eqb Bool.eqb].
    rewrite (assoc_get_map label JList), Hd.
    destruct (rows_of_type rooms vehicles projectors label
                (select_free_resources end_dt start_dt w)); reflexivity.
  - intros Hnone. unfold select_free_resources.
    rewrite (Permutation_length (order_by_Permutation _ _)).
    f_equal. apply List.filter_ext. intros r.
    unfold busy_resource_ids. rewrite (filter_none _ _ Hnone).
    cbn. now rewrite andb_true_r.
Qed.

Lemma free_resources_report_witness :
  exists report,
    fst (find_free_resources "2024-06-01 09:30" "2024-06-01 10:30" campus)
    = inr report
    /\ jpath ["riepilogo"; "risorse_libere_totali"] report = Some (JInt 2)
    /\ jpath ["risorse_per_tipo"; "Altro"] report
       = Some (JList [free_resource_json
                        (mk_resource "AULA02" "Aula Corsi Grande" "R" "CAL1" 1);
                      free_resource_json
                        (mk_resource "FIAT01" "Fiat Panda" "V" "CAL2" 1)]).
Proof.
  destruct (free_resources_report campus
              "2024-06-01 09:30" "2024-06-01 10:30"
              (mk_datetime 2024 6 1 9 30 0) (mk_datetime 2024 6 1 10 30 0)
              eq_refl eq_refl eq_refl)
    as (rows & report & Hrun & _).
  exists report. split; [exact Hrun|].
  vm_compute in Hrun. injection Hrun as <-. split; reflexivity.
Defined.

(** X5.  When the database answers, [list_available_resources] lists the
    active resources and no others, each once per row of the table, in the
    order of type and then description, and [total_resources] is their
    number. *)
Theorem available_resources_report :
  forall (w : world),
    faults w = [] ->
    exists rows,
      list_available_resources w
      = (inr (JDict [ ("total_resources", JNum (PyInt (Z.of_nat (length rows))));
                      ("resources", JList (map resource_json rows)) ]),
         add_statement SelectActiveResources w)
      /\ Permutation rows (List.filter (fun r => flactive r =? 1) (resources w))
      /\ (forall r, In r rows <-> In r (resources w) /\ flactive r = 1)
      /\ StronglySorted (fun a b => resource_type_leb true a b = true) rows.
Proof.
  intros w Hf. exists (select_active_resources w).
  split; [|split; [|split]].
  - unfold list_available_resources, try_except,
      list_available_resources_body, bind.
    rewrite get_db_connection_ok by assumption.
    rewrite execute_ok by assumption. unfold ret.
    change (select_active_resources (add_statement SelectActiveResources w))
      with (select_active_resources w).
    unfold JLen. rewrite length_map. reflexivity.
  - apply order_by_Permutation.
  - intros r. unfold select_active_resources.
    now rewrite order_by_In, filter_In, Z.eqb_eq.
  - apply resource_type_leb_sorted.
Qed.

Lemma available_resources_report_witness :
  exists rows,
    fst (list_available_resources campus)
    = inr (JDict [ ("total_resources", JNum (PyInt (Z.of_nat (length rows))));
                   ("resources", JList (map resource_json rows)) ])
    /\ length rows = 3%nat.
Proof.
  destruct (available_resources_report campus eq_refl)
    as (rows & Hrun & Hperm & _).
  exists rows. split; [now rewrite Hrun|].
  rewrite (Permutation_length Hperm). reflexivity.
Defined.

(* ================================================================== *)
(** ** The order and the edges of the listing of active bookings *)

Lemma booking_leb_sorted l :
  StronglySorted (fun a b => booking_leb a b = true) (order_by booking_leb l).
Proof.
  apply order_by_sorted.
  - intros a b.
    apply (lex_leb_total nome_calendario
             (fun a b => ts_le (inizio a) (inizio b))).
    intros x y. apply ts_le_total.
  - intros a b c.
    apply (lex_leb_trans nome_calendario
             (fun a b => ts_le (inizio a) (inizio b))).
    intros x y z. apply ts_le_trans.
Qed.

Lemma StronglySorted_impl_In {A} (R R' : A -> A -> Prop) l :
  (forall a b, In a l -> In b l -> R a b -> R' a b) ->
  StronglySorted R l -> StronglySorted R' l.
Proof.
  intros Himpl Hs. induction Hs as [|x l Hs IH Hall]; [constructor|].
  constructor.
  - apply IH. intros a b Ha Hb. apply Himpl; now right.
  - rewrite List.Forall_forall in *. intros y Hy.
    apply Himpl; [now left|now right|now apply Hall].
Qed.

Lemma NoDup_map_eq {A B} (f : A -> B) l x y :
  List.NoDup (map f l) -> In x l -> In y l -> f x = f y -> x = y.
Proof.
  induction l as [|a l IH]; intros Hnd Hx Hy E; [destruct Hx|].
  cbn [map] in Hnd. apply List.NoDup_cons_iff in Hnd as [Ha Hnd].
  destruct Hx as [->|Hx], Hy as [->|Hy]; auto.
  - exfalso. apply Ha. rewrite E. now apply in_map.
  - exfalso. apply Ha. rewrite <- E. now apply in_map.
Qed.

(** X6.  When the three configured codes are read, the query runs and no
    two calendars share a code, the rows that [get_active_bookings] takes
    from its query are in the order of calendar name and then start, and
    the events that the report lists under a calendar code are in the
    order of their start. *)
Theorem events_in_start_order :
  forall (w : world) (start_time end_time : string)
         (start_dt end_dt : datetime) (codes : list string),
    strptime start_time = inr start_dt ->
    strptime end_time = inr end_dt ->
    get_calendar_codes w = (inr codes, w) ->
    length codes = 3%nat ->
    faults w = [] ->
    List.NoDup (map cacodcal (calendar w)) ->
    exists results,
      select_tasks end_dt start_dt codes w = inr results
      /\ fst (get_active_bookings start_time end_time w)
         = inr (bookings_report start_time end_time start_dt end_dt results)
      /\ StronglySorted (fun a b => booking_leb a b = true) results
      /\ forall k,
           reported_events k
             (bookings_report start_time end_time start_dt end_dt results)
           = match rows_of_calendar k results with
             | [] => None
             | rows => Some (JList (map evento_info rows))
             end
           /\ StronglySorted
                (fun a b => seconds_of (inizio a) <= seconds_of (inizio b))
                (rows_of_calendar k results).
Proof.
  intros w start_time end_time start_dt end_dt codes Hs He Hc Hlen Hf Hnd.
  destruct (select_tasks_three w end_dt start_dt codes Hlen) as [results Hsel].
  exists results.
  assert (Hsorted : StronglySorted (fun a b => booking_leb a b = true) results).
  { unfold select_tasks in Hsel. rewrite Hlen in Hsel. cbn in Hsel.
    injection Hsel as <-. apply booking_leb_sorted. }
  split; [exact Hsel|].
  split.
  { rewrite (get_active_bookings_run _ _ _ _ _ _ Hs He Hc Hf), Hsel.
    reflexivity. }
  split; [exact Hsorted|].
  intros k. split.
  { apply bookings_report_events. }
  apply (StronglySorted_impl_In (fun a b => booking_leb a b = true)).
  - intros a b Ha Hb Hab.
    apply filter_In in Ha as [Ha Hka]. apply filter_In in Hb as [Hb Hkb].
    apply String.eqb_eq in Hka, Hkb.
    apply (select_tasks_In _ _ _ _ _ _ Hsel) in Ha
      as (ta & ca & -> & _ & Hca & _).
    apply (select_tasks_In _ _ _ _ _ _ Hsel) in Hb
      as (tb & cb & -> & _ & Hcb & _).
    cbn [booking_of cod_calendario] in Hka, Hkb.
    assert (E : ca = cb)
      by (apply (NoDup_map_eq cacodcal (calendar w)); congruence).
    subst cb. unfold booking_leb in Hab.
    cbn [booking_of nome_calendario inizio] in *.
    rewrite String.eqb_refl in Hab. unfold ts_le in Hab.
    now apply Z.leb_le.
  - now apply StronglySorted_filter.
Qed.

Lemma events_in_start_order_witness :
  exists results,
    fst (get_active_bookings "2024-06-01 08:00" "2024-06-01 13:00" agenda)
    = inr (bookings_report "2024-06-01 08:00" "2024-06-01 13:00"
             (mk_datetime 2024 6 1 8 0 0) (mk_datetime 2024 6 1 13 0 0)
             results)
    /\ map tetitle (tasks agenda) = ["Seminario"; "Lezione B"; "Lezione A"]
    /\ map evento results = ["Lezione A"; "Lezione B"; "Seminario"]
    /\ map evento (rows_of_calendar "CAL1" results)
       = ["Lezione A"; "Lezione B"]
    /\ StronglySorted (fun a b => booking_leb a b = true) results
    /\ StronglySorted
         (fun a b => seconds_of (inizio a) <= seconds_of (inizio b))
         (rows_of_calendar "CAL1" results).
Proof.
  destruct (events_in_start_order agenda
              "2024-06-01 08:00" "2024-06-01 13:00"
              (mk_datetime 2024 6 1 8 0 0) (mk_datetime 2024 6 1 13 0 0)
              ["CAL1"; "CAL2"; "CAL3"]
              eq_refl eq_refl eq_refl eq_refl eq_refl)
    as (results & Hsel & Hrun & Hsorted & Hk).
  - repeat constructor; cbn; intuition discriminate.
  - exists results. split; [exact Hrun|]. split; [reflexivity|].
    split; [|split; [|split; [exact Hsorted|exact (proj2 (Hk "CAL1"))]]].
    + vm_compute in Hsel. injection Hsel as <-. reflexivity.
    + vm_compute in Hsel. injection Hsel as <-. reflexivity.
Defined.

(** X7.  When the three configured codes are read, the query runs and no
    confirmed task of a listed calendar meets the window, the report of
    [get_active_bookings] has no calendar entry, counts 0 calendars and 0
    events, and its total of hours is the integer 0. *)
Theorem empty_listing :
  forall (w : world) (start_time end_time : string)
         (start_dt end_dt : datetime) (codes : list string),
    strptime start_time = inr start_dt ->
    strptime end_time = inr end_dt ->
    get_calendar_codes w = (inr codes, w) ->
    length codes = 3%nat ->
    faults w = [] ->
    (forall t c,
       In t (tasks w) -> In c (calendar w) -> tecodcal t = cacodcal c ->
       testato t = "C" -> In (cacodcal c) codes ->
       ~ inclusive_overlap (teprevbegin t) (teprevend t) start_dt end_dt) ->
    fst (get_active_bookings start_time end_time w)
    = inr (JDict [
        ("periodo", JDict [
           ("inizio", JStr start_time);
           ("fine", JStr end_time);
           ("durata_totale_ore",
            JNum (py_round1 (hours_between start_dt end_dt))) ]);
        ("riepilogo", JDict [
           ("risorse_impegnate", JInt 0);
           ("eventi_totali", JInt 0);
           ("ore_totali", JInt 0) ]);
        ("risorse", JDict []) ]).
Proof.
  intros w start_time end_time start_dt end_dt codes Hs He Hc Hlen Hf Hnone.
  destruct (select_tasks_three w end_dt start_dt codes Hlen) as [results Hsel].
  rewrite (get_active_bookings_run _ _ _ _ _ _ Hs He Hc Hf), Hsel.
  assert (E : results = []).
  { destruct results as [|b l]; [reflexivity|]. exfalso.
    assert (Hb : In b (b :: l)) by now left.
    apply (select_tasks_In _ _ _ _ _ _ Hsel) in Hb
      as (t & c & _ & Ht & Hcal & Hj & Hst & Hm & Ho).
    exact (Hnone t c Ht Hcal Hj Hst Hm Ho). }
  subst results. reflexivity.
Qed.

Lemma empty_listing_witness :
  jpath ["riepilogo"; "ore_totali"]
    (match fst (get_active_bookings "2024-06-02 09:00" "2024-06-02 12:00"
                  (timetable "CAL1,CAL2,CAL3")) with
     | inr report => report
     | inl _ => JNull
     end)
  = Some (JInt 0).
Proof.
  rewrite (empty_listing (timetable "CAL1,CAL2,CAL3")
             "2024-06-02 09:00" "2024-06-02 12:00"
             (mk_datetime 2024 6 2 9 0 0) (mk_datetime 2024 6 2 12 0 0)
             ["CAL1"; "CAL2"; "CAL3"] eq_refl eq_refl eq_refl eq_refl eq_refl).
  - reflexivity.
  - intros t c [<-|[<-|[<-|[]]]] _ _ _ _ [H1 H2]; vm_compute in H1, H2;
      first [now apply H1 | now apply H2].
Defined.

(* ================================================================== *)
(** ** The configured calendar codes *)

Lemma split_comma_length s :
  length (split_comma s) = S (count_commas s).
Proof.
  induction s as [|c s IH]; [reflexivity|].
  cbn [split_comma count_commas]. destruct (Ascii.eqb c ",").
  - cbn [length]. now rewrite IH.
  - destruct (split_comma s) as [|f fs]; [discriminate IH|exact IH].
Qed.

Lemma rstrip_last s c : last_char (rstrip s) = Some c -> is_space c = false.
Proof.
  induction s as [|a s IH]; [discriminate|].
  cbn [rstrip]. destruct (rstrip s) as [|b r] eqn:E.
  - destruct (is_space a) eqn:Ea; [discriminate|].
    cbn. now intros [= <-].
  - intros H. apply IH. exact H.
Qed.

Lemma rstrip_first s c :
  first_char s = Some c -> is_space c = false -> first_char (rstrip s) = Some c.
Proof.
  destruct s as [|a s]; [discriminate|]. cbn [first_char]. intros [= ->] Hc.
  cbn [rstrip]. destruct (rstrip s); [now rewrite Hc|reflexivity].
Qed.

Lemma lstrip_first s c : first_char (lstrip s) = Some c -> is_space c = false.
Proof.
  induction s as [|a s IH]; [discriminate|].
  cbn [lstrip]. destruct (is_space a) eqn:Ea; [exact IH|].
  cbn. now intros [= <-].
Qed.

Lemma first_char_rstrip s c :
  first_char (rstrip s) = Some c -> first_char s = Some c.
Proof.
  destruct s as [|a s]; [discriminate|]. cbn [rstrip].
  destruct (rstrip s); [destruct (is_space a); [discriminate|]|]; trivial.
Qed.

Lemma strip_stripped s : stripped (strip s).
Proof.
  unfold stripped, strip. split.
  - intros c H. apply (lstrip_first s). now apply first_char_rstrip.
  - intros c H. now apply (rstrip_last (lstrip s)).
Qed.

(** X8.  When [CALENDAR_CODES] is set, [get_calendar_codes] returns one
    code more than the value has commas (one code for a value without
    comma, the empty value included), and no code starts or ends with a
    blank. *)
Theorem calendar_codes_split_and_stripped :
  forall (w : world) (value : string),
    assoc_get "CALENDAR_CODES" (environ w) = Some value ->
    exists codes,
      get_calendar_codes w = (inr codes, w)
      /\ length codes = S (count_commas value)
      /\ Forall stripped codes.
Proof.
  intros w value H. exists (map strip (split_comma value)).
  split; [|split].
  - unfold get_calendar_codes, bind, getenv, ret. now rewrite H.
  - now rewrite length_map, split_comma_length.
  - apply List.Forall_forall. intros c Hc.
    apply in_map_iff in Hc as (f & <- & _). apply strip_stripped.
Qed.

Lemma calendar_codes_split_and_stripped_witness :
  get_calendar_codes (timetable " CAL1 ,CAL2,, ")
  = (inr ["CAL1"; "CAL2"; ""; ""], timetable " CAL1 ,CAL2,, ").
Proof.
  destruct (calendar_codes_split_and_stripped
              (timetable " CAL1 ,CAL2,, ") " CAL1 ,CAL2,, " eq_refl)
    as (codes & H & _).
  rewrite H. vm_compute in H. injection H as <-. reflexivity.
Defined.

(** X9.  When [CALENDAR_CODES] is not set, [get_active_bookings] with
    dates that parse returns the error report of the failed [split]
    without a connection to the database: nothing is sent and no pending
    fault is used. *)
Theorem missing_calendar_codes_is_reported :
  forall (w : world) (start_time end_time : string)
         (start_dt end_dt : datetime),
    strptime start_time = inr start_dt ->
    strptime end_time = inr end_dt ->
    assoc_get "CALENDAR_CODES" (environ w) = None ->
    get_active_bookings start_time end_time w
    = (inr (JDict [("error", JStr "'NoneType' object has no attribute 'split'")]), w).
Proof.
  intros w start_time end_time start_dt end_dt Hs He Henv.
  unfold get_active_bookings, get_active_bookings_body, get_calendar_codes,
    try_except, bind, lift, getenv, raise, ret.
  now rewrite Hs, He, Henv.
Qed.

Lemma missing_calendar_codes_is_reported_witness :
  get_active_bookings "2024-06-01 09:30" "2024-06-01 10:30" campus
  = (inr (JDict [("error", JStr "'NoneType' object has no attribute 'split'")]), campus).
Proof.
  exact (missing_calendar_codes_is_reported campus
           "2024-06-01 09:30" "2024-06-01 10:30"
           (mk_datetime 2024 6 1 9 30 0) (mk_datetime 2024 6 1 10 30 0)
           eq_refl eq_refl eq_refl).
Defined.

(* ================================================================== *)
(** ** What a resolution can return *)

Lemma LIKE_rows_active p w r :
  In r (select_resources_by_description p w) ->
  In r (resources w) /\ flactive r = 1
  /\ LIKE (LOWER (redescri r)) (LOWER p) = true.
Proof.
  unfold select_resources_by_description.
  rewrite order_by_In, filter_In, andb_true_iff, Z.eqb_eq. tauto.
Qed.

(** X10.  Whatever the token and the failures of the database, a
    resolution that returns holds only active rows of [resources]; its
    kind is [not_found] exactly when it holds none, [multiple] exactly
    when it holds two or more, and its calendar code is the code of the
    first resource it holds. *)
Theorem resolution_holds_active_resources :
  forall (w : world) (resource : string) (info : resource_info) (w1 : world),
    resolve_resource_info resource w = (inr info, w1) ->
    (forall r, In r (info_resources info) ->
               In r (resources w) /\ flactive r = 1)
    /\ (info_type info = not_found <-> info_resources info = [])
    /\ (info_type info = multiple <-> (2 <= length (info_resources info))%nat)
    /\ (info_type info = exact -> length (info_resources info) = 1%nat)
    /\ info_calendar_code info = option_map recodcal (head (info_resources info)).
Proof.
  intros w resource info w1 Hres.
  apply resolve_resource_info_inv in Hres as [_ Hshape].
  destruct Hshape as [(r & rest & Hsel & -> & _)|(_ & _ & Hrows & Hk & Hc)].
  - cbn [info_resources info_type info_calendar_code].
    split; [|repeat split; intros; try discriminate; try reflexivity;
             cbn in *; lia].
    intros r' [<-|[]].
    assert (Hr : In r (select_resource_by_id resource w))
      by (rewrite Hsel; now left).
    apply select_resource_by_id_In in Hr. tauto.
  - split.
    { intros r Hr. rewrite Hrows in Hr. apply LIKE_rows_active in Hr. tauto. }
    rewrite Hk. split; [|split; [|split; [|exact Hc]]].
    + destruct (info_resources info) as [|a [|b l]]; split;
        intros; try discriminate; reflexivity.
    + destruct (info_resources info) as [|a [|b l]]; split; cbn;
        intros; try discriminate; try reflexivity; lia.
    + intros H. now apply kind_of_matches_not_exact in H.
Qed.

Lemma resolution_holds_active_resources_witness :
  List.Forall (fun r => In r (resources campus) /\ flactive r = 1)
    [mk_resource "AULA01" "Aula Corsi" "R" "CAL1" 1;
     mk_resource "AULA02" "Aula Corsi Grande" "R" "CAL1" 1].
Proof.
  apply List.Forall_forall.
  exact (proj1 (resolution_holds_active_resources campus "aula corsi"
                  (mk_resource_info multiple
                     [mk_resource "AULA01" "Aula Corsi" "R" "CAL1" 1;
                      mk_resource "AULA02" "Aula Corsi Grande" "R" "CAL1" 1]
                     (Some "CAL1"))
                  (add_statement (SelectResourcesByDescription "%aula corsi%")
                     (add_statement (SelectResourceById "aula corsi") campus))
                  eq_refl)).
Defined.

(* ================================================================== *)
(** ** Failures of the database *)

Lemma database_operation_fails w e fs :
  faults w = Some e :: fs -> database_operation w = (inl e, set_faults fs w).
Proof. intros H. unfold database_operation. now rewrite H. Qed.

Lemma database_operation_passes w fs :
  faults w = None :: fs -> database_operation w = (inr tt, set_faults fs w).
Proof. intros H. unfold database_operation. now rewrite H. Qed.

Lemma get_db_connection_fails w e fs :
  faults w = Some e :: fs -> get_db_connection w = (inl e, set_faults fs w).
Proof.
  intros H. unfold get_db_connection, try_except, raise.
  now rewrite (database_operation_fails _ _ _ H).
Qed.

Lemma get_db_connection_passes w fs :
  faults w = None :: fs -> get_db_connection w = (inr tt, set_faults fs w).
Proof.
  intros H. unfold get_db_connection, try_except.
  now rewrite (database_operation_passes _ _ H).
Qed.

Lemma execute_fails {R} st (rows : world -> exn + list R) w e fs :
  faults w = Some e :: fs ->
  execute st rows w = (inl e, set_faults fs (add_statement st w)).
Proof.
  intros H. unfold execute.
  now rewrite (database_operation_fails (add_statement st w) e fs H).
Qed.

Lemma execute_passes {R} st (rows : world -> exn + list R) w fs :
  faults w = None :: fs ->
  execute st rows w
  = (rows (set_faults fs (add_statement st w)),
     set_faults fs (add_statement st w)).
Proof.
  intros H. unfold execute.
  now rewrite (database_operation_passes (add_statement st w) fs H).
Qed.

Ltac database_step :=
  first
    [ erewrite get_db_connection_fails by (cbn; eassumption || reflexivity)
    | erewrite get_db_connection_passes by (cbn; eassumption || reflexivity)
    | erewrite execute_fails by (cbn; eassumption || reflexivity)
    | erewrite execute_passes by (cbn; eassumption || reflexivity) ].

(** X11.  When one of the first two operations on the database fails (the
    connection or the first statement), each query tool returns the report
    [{"error": str(e)}] of that failure and nothing else, and performs no
    further operation on the database; for [get_active_bookings] this is
    with three configured calendar codes, since with another number the
    task query does not reach the database.  For
    [check_resource_availability] the same holds for its third operation,
    which is the description query or the second connection. *)
Theorem database_failure_is_reported :
  forall (w : world) (n : nat) (e : exn) (fs : list (option exn))
         (start_time end_time value : string) (start_dt end_dt : datetime),
    faults w = repeat None n ++ Some e :: fs ->
    (n <= 1)%nat ->
    strptime start_time = inr start_dt ->
    strptime end_time = inr end_dt ->
    assoc_get "CALENDAR_CODES" (environ w) = Some value ->
    count_commas value = 2%nat ->
    reports_failure e fs (list_available_resources w)
    /\ reports_failure e fs (find_free_resources start_time end_time w)
    /\ reports_failure e fs (get_active_bookings start_time end_time w)
    /\ (forall resource,
          reports_failure e fs
            (check_resource_availability resource start_time end_time w))
    /\ (forall resource w',
          faults w' = None :: None :: Some e :: fs ->
          reports_failure e fs
            (check_resource_availability resource start_time end_time w')).
Proof.
  intros w n e fs start_time end_time value start_dt end_dt Hf Hn Hs He Hc
         Hthree.
  unfold reports_failure.
  assert (Hcases : faults w = Some e :: fs \/ faults w = None :: Some e :: fs).
  { destruct n as [|[|n]]; [now left|now right|lia]. }
  clear Hf Hn n.
  repeat split.
  - unfold list_available_resources, list_available_resources_body, try_except, bind.
    destruct Hcases as [H|H]; repeat database_step; reflexivity.
  - unfold list_available_resources, list_available_resources_body, try_except, bind.
    destruct Hcases as [H|H]; repeat database_step; reflexivity.
  - unfold_operations. rewrite Hs, He. unfold getenv.
    destruct Hcases as [H|H]; repeat database_step; reflexivity.
  - unfold_operations. rewrite Hs, He. unfold getenv.
    destruct Hcases as [H|H]; repeat database_step; reflexivity.
  - unfold_operations. unfold get_calendar_codes, bind, getenv, ret.
    rewrite Hs, He, Hc. unfold execute_merged.
    rewrite length_map, split_comma_length, Hthree. cbn [Nat.add Nat.compare].
    destruct Hcases as [H|H]; repeat database_step; reflexivity.
  - unfold_operations. unfold get_calendar_codes, bind, getenv, ret.
    rewrite Hs, He, Hc. unfold execute_merged.
    rewrite length_map, split_comma_length, Hthree. cbn [Nat.add Nat.compare].
    destruct Hcases as [H|H]; repeat database_step; reflexivity.
  - unfold_operations. rewrite Hs, He.
    unfold resolve_resource_info, bind.
    destruct Hcases as [H|H]; repeat database_step; reflexivity.
  - unfold_operations. rewrite Hs, He.
    unfold resolve_resource_info, bind.
    destruct Hcases as [H|H]; repeat database_step; reflexivity.
  - unfold_operations. rewrite Hs, He.
    unfold resolve_resource_info, bind.
    repeat database_step.
    destruct (select_resource_by_id _ _) as [|r0 rows]; cbn [ret];
      repeat database_step; reflexivity.
  - unfold_operations. rewrite Hs, He.
    unfold resolve_resource_info, bind.
    repeat database_step.
    destruct (select_resource_by_id _ _) as [|r0 rows]; cbn [ret];
      repeat database_step; reflexivity.
Qed.

Lemma database_failure_is_reported_witness :
  reports_failure (DatabaseError "server closed the connection") []
    (get_active_bookings "2024-06-01 09:00" "2024-06-01 12:00"
       (set_faults [None; Some (DatabaseError "server closed the connection")]
          (timetable "CAL1,CAL2,CAL9"))).
Proof.
  refine (proj1 (proj2 (proj2
    (database_failure_is_reported
       (set_faults [None; Some (DatabaseError "server closed the connection")]
          (timetable "CAL1,CAL2,CAL9"))
       1 (DatabaseError "server closed the connection") []
       "2024-06-01 09:00" "2024-06-01 12:00" "CAL1,CAL2,CAL9"
       (mk_datetime 2024 6 1 9 0 0) (mk_datetime 2024 6 1 12 0 0)
       eq_refl _ eq_refl eq_refl eq_refl eq_refl)))).
  lia.
Defined.

(* ================================================================== *)
(** ** The fields of a parsed timestamp *)

Lemma two_digits_range lo1 hi1 lo2 hi2 s v r :
  In (v, r) (two_digits lo1 hi1 lo2 hi2 s) ->
  10 * lo1 + lo2 <= v <= 10 * hi1 + hi2.
Proof.
  unfold two_digits. destruct s as [|c1 [|c2 s]]; try (intros []).
  destruct (digit_in lo1 hi1 c1 && digit_in lo2 hi2 c2) eqn:E; [|intros []].
  intros [[= <- _]|[]]. unfold digit_in in E.
  rewrite !andb_true_iff, !Z.leb_le in E. lia.
Qed.

Lemma one_digit_range lo hi s v r :
  In (v, r) (one_digit lo hi s) -> lo <= v <= hi.
Proof.
  unfold one_digit. destruct s as [|c s]; [intros []|].
  destruct (digit_in lo hi c) eqn:E; [|intros []].
  intros [[= <- _]|[]]. unfold digit_in in E.
  rewrite !andb_true_iff, !Z.leb_le in E. lia.
Qed.

Lemma seq_In {A B} (p : matcher A) (k : A -> matcher B) s b r :
  In (b, r) (seq p k s) <-> exists a r', In (a, r') (p s) /\ In (b, r) (k a r').
Proof.
  unfold seq. rewrite in_flat_map. split.
  - intros [[a r'] [H1 H2]]. eauto.
  - intros (a & r' & H1 & H2). exists (a, r'). auto.
Qed.

Lemma alt_In {A} (p q : matcher A) s x :
  In x (alt p q s) <-> In x (p s) \/ In x (q s).
Proof. unfold alt. apply in_app_iff. Qed.

Lemma re_Y_range s v r : In (v, r) (re_Y s) -> 0 <= v <= 9999.
Proof.
  unfold re_Y. rewrite seq_In. intros (hi & r1 & H1 & H2).
  rewrite seq_In in H2. destruct H2 as (lo & r2 & H2 & [[= <- _]|[]]).
  apply two_digits_range in H1, H2. lia.
Qed.

Lemma re_m_range s v r : In (v, r) (re_m s) -> 1 <= v <= 12.
Proof.
  unfold re_m. rewrite !alt_In. intros [H|[H|H]];
    [apply two_digits_range in H|apply two_digits_range in H
    |apply one_digit_range in H]; lia.
Qed.

Lemma re_d_range s v r : In (v, r) (re_d s) -> 1 <= v <= 31.
Proof.
  unfold re_d. rewrite !alt_In. intros [H|[H|[H|[H|H]]]].
  1-3: apply two_digits_range in H; lia.
  - apply one_digit_range in H; lia.
  - rewrite seq_In in H. destruct H as (a & r' & _ & H).
    apply one_digit_range in H; lia.
Qed.

Lemma re_H_range s v r : In (v, r) (re_H s) -> 0 <= v <= 23.
Proof.
  unfold re_H. rewrite !alt_In. intros [H|[H|H]];
    [apply two_digits_range in H|apply two_digits_range in H
    |apply one_digit_range in H]; lia.
Qed.

Lemma re_M_range s v r : In (v, r) (re_M s) -> 0 <= v <= 59.
Proof.
  unfold re_M. rewrite !alt_In. intros [H|H];
    [apply two_digits_range in H|apply one_digit_range in H]; lia.
Qed.

Lemma re_format_range s d r :
  In (d, r) (re_format s) ->
  0 <= year d <= 9999 /\ 1 <= month d <= 12 /\ 1 <= day d <= 31
  /\ 0 <= hour d <= 23 /\ 0 <= minute d <= 59 /\ second d = 0.
Proof.
  unfold re_format.
  rewrite seq_In. intros (y & r1 & Hy & H).
  rewrite seq_In in H. destruct H as (? & r2 & _ & H).
  rewrite seq_In in H. destruct H as (m & r3 & Hm & H).
  rewrite seq_In in H. destruct H as (? & r4 & _ & H).
  rewrite seq_In in H. destruct H as (dd & r5 & Hd & H).
  rewrite seq_In in H. destruct H as (? & r6 & _ & H).
  rewrite seq_In in H. destruct H as (h & r7 & Hh & H).
  rewrite seq_In in H. destruct H as (? & r8 & _ & H).
  rewrite seq_In in H. destruct H as (mi & r9 & Hmi & [[= <- _]|[]]).
  cbn [year month day hour minute second].
  apply re_Y_range in Hy. apply re_m_range in Hm. apply re_d_range in Hd.
  apply re_H_range in Hh. apply re_M_range in Hmi. repeat split; lia.
Qed.

(** X12.  A timestamp that [strptime] accepts names a minute that exists:
    the year is between 1 and 9999, the month between 1 and 12, the day
    between 1 and the length of that month in that year, the hour between 0
    and 23, the minute between 0 and 59, and the seconds are 0. *)
Theorem strptime_fields_are_valid :
  forall (s : string) (d : datetime),
    strptime s = inr d ->
    1 <= year d <= 9999
    /\ 1 <= month d <= 12
    /\ 1 <= day d <= days_in_month (year d) (month d)
    /\ 0 <= hour d <= 23
    /\ 0 <= minute d <= 59
    /\ second d = 0.
Proof.
  intros s d. unfold strptime.
  destruct (re_format s) as [|[d' rest] tl] eqn:E; [discriminate|].
  destruct rest; [|discriminate].
  destruct (year d' <? 1) eqn:Ey; [discriminate|].
  destruct (days_in_month (year d') (month d') <? day d') eqn:Ed; [discriminate|].
  intros [= <-].
  assert (Hin : In (d', EmptyString) (re_format s)) by (rewrite E; now left).
  apply re_format_range in Hin.
  apply Z.ltb_ge in Ey, Ed. lia.
Qed.

Lemma strptime_fields_are_valid_witness :
  1 <= 2 <= days_in_month 2024 2.
Proof.
  exact (proj1 (proj2 (proj2
    (strptime_fields_are_valid "2024-2-2 9:5" (mk_datetime 2024 2 2 9 5 0)
       eq_refl)))).
Defined.

(* ================================================================== *)
(** ** Reading back a printed timestamp *)

Lemma range_In (lo n v : Z) :
  0 <= lo -> lo <= v < lo + n ->
  In v (map Z.of_nat (List.seq (Z.to_nat lo) (Z.to_nat n))).
Proof.
  intros Hlo Hv. apply in_map_iff. exists (Z.to_nat v). split; [lia|].
  apply List.in_seq. lia.
Qed.

Lemma range_Forall (P : Z -> Prop) (lo n : Z) :
  0 <= lo ->
  List.Forall P (map Z.of_nat (List.seq (Z.to_nat lo) (Z.to_nat n))) ->
  forall v, lo <= v < lo + n -> P v.
Proof.
  intros Hlo H v Hv. rewrite List.Forall_forall in H. apply H.
  now apply range_In.
Qed.

Lemma range_forallb (f : Z -> bool) (lo n : Z) :
  0 <= lo ->
  forallb f (map Z.of_nat (List.seq (Z.to_nat lo) (Z.to_nat n))) = true ->
  forall v, lo <= v < lo + n -> f v = true.
Proof.
  intros Hlo H v Hv. rewrite forallb_forall in H. apply H.
  now apply range_In.
Qed.

Ltac each_value v lo n :=
  let l := eval vm_compute in
             (map Z.of_nat (List.seq (Z.to_nat lo) (Z.to_nat n))) in
  pattern v; apply (range_Forall _ lo n); [lia| |lia];
  match goal with
  | |- List.Forall ?P _ => change (List.Forall P l)
  end.

Lemma first_match_seq {A B} (p : matcher A) (k : A -> matcher B) s a r b r' :
  first_match p s a r -> first_match (k a) r b r' ->
  first_match (seq p k) s b r'.
Proof.
  intros [tl H] [tl' H']. unfold first_match, seq. rewrite H.
  cbn [flat_map]. rewrite H'. cbn [app]. eauto.
Qed.

Lemma first_match_literal c r : first_match (literal c) (String c r) tt r.
Proof.
  exists []. unfold literal. now rewrite Ascii.eqb_refl.
Qed.

Lemma zero_pad_year y :
  1000 <= y <= 9999 ->
  zero_pad 4 y
  = String (digit_char (y / 1000)) (String (digit_char (y / 100 mod 10))
      (String (digit_char (y / 10 mod 10))
         (String (digit_char (y mod 10)) EmptyString))).
Proof.
  intros H. apply String.eqb_eq.
  apply (range_forallb
           (fun y => String.eqb (zero_pad 4 y)
              (String (digit_char (y / 1000))
                 (String (digit_char (y / 100 mod 10))
                    (String (digit_char (y / 10 mod 10))
                       (String (digit_char (y mod 10)) EmptyString)))))
           1000 9000); [lia|vm_compute; reflexivity|lia].
Qed.

Lemma digit_char_digit v :
  0 <= v <= 9 ->
  digit_in 0 9 (digit_char v) = true /\ digit_value (digit_char v) = v.
Proof.
  intros Hv. each_value v 0 10.
  repeat (constructor; [split; reflexivity|]). constructor.
Qed.

Lemma two_digits_chars a b r :
  0 <= a <= 9 -> 0 <= b <= 9 ->
  two_digits 0 9 0 9 (String (digit_char a) (String (digit_char b) r))
  = [(10 * a + b, r)].
Proof.
  intros Ha Hb. unfold two_digits.
  destruct (digit_char_digit a Ha) as [-> ->].
  destruct (digit_char_digit b Hb) as [-> ->]. reflexivity.
Qed.

Lemma first_match_re_Y y r :
  1000 <= y <= 9999 ->
  first_match re_Y (String.append (zero_pad 4 y) r) y r.
Proof.
  intros H. rewrite (zero_pad_year y H). exists [].
  change (String.append (String ?a (String ?b (String ?c (String ?d ""))) ) r)
    with (String a (String b (String c (String d r)))).
  unfold re_Y, seq.
  rewrite two_digits_chars by (Z.div_mod_to_equations; lia).
  cbn [flat_map app].
  rewrite two_digits_chars by (Z.div_mod_to_equations; lia).
  cbn [flat_map app]. repeat f_equal.
  Z.div_mod_to_equations; lia.
Qed.

Ltac first_match_by_cases v lo n :=
  each_value v lo n;
  repeat (constructor; [eexists; cbv; reflexivity|]); constructor.

Lemma first_match_re_m m r :
  1 <= m <= 12 -> first_match re_m (String.append (zero_pad 2 m) r) m r.
Proof. intros H. first_match_by_cases m 1 12. Qed.

Lemma first_match_re_d d r :
  1 <= d <= 31 -> first_match re_d (String.append (zero_pad 2 d) r) d r.
Proof. intros H. first_match_by_cases d 1 31. Qed.

Lemma first_match_re_spaces h r :
  0 <= h <= 23 ->
  first_match re_spaces (String " " (String.append (zero_pad 2 h) r)) tt
    (String.append (zero_pad 2 h) r).
Proof. intros H. first_match_by_cases h 0 24. Qed.

Lemma first_match_re_H h r :
  0 <= h <= 23 -> first_match re_H (String.append (zero_pad 2 h) r) h r.
Proof. intros H. first_match_by_cases h 0 24. Qed.

Lemma first_match_re_M mi :
  0 <= mi <= 59 -> first_match re_M (zero_pad 2 mi) mi EmptyString.
Proof. intros H. first_match_by_cases mi 0 60. Qed.

Lemma first_match_re_format y m d h mi :
  1000 <= y <= 9999 -> 1 <= m <= 12 -> 1 <= d <= 31 ->
  0 <= h <= 23 -> 0 <= mi <= 59 ->
  first_match re_format (strftime (mk_datetime y m d h mi 0))
    (mk_datetime y m d h mi 0) EmptyString.
Proof.
  intros Hy Hm Hd Hh Hmi. unfold re_format, strftime.
  cbn [year month day hour minute].
  eapply first_match_seq; [apply first_match_re_Y; exact Hy|].
  eapply first_match_seq; [apply first_match_literal|].
  eapply first_match_seq; [apply first_match_re_m; exact Hm|].
  eapply first_match_seq; [apply first_match_literal|].
  eapply first_match_seq; [apply first_match_re_d; exact Hd|].
  eapply first_match_seq; [apply first_match_re_spaces; exact Hh|].
  eapply first_match_seq; [apply first_match_re_H; exact Hh|].
  eapply first_match_seq; [apply first_match_literal|].
  eapply first_match_seq; [apply first_match_re_M; exact Hmi|].
  now exists [].
Qed.

(** X13.  Reading back a printed timestamp: for every minute that exists
    in the years 1000 to 9999, [strptime] accepts the text that [strftime]
    prints for it and returns that minute.  The [inizio] and [fine] of a
    reported event can be given back as the bounds of a window. *)
Theorem strptime_reads_strftime :
  forall d : datetime,
    1000 <= year d <= 9999 ->
    1 <= month d <= 12 ->
    1 <= day d <= days_in_month (year d) (month d) ->
    0 <= hour d <= 23 ->
    0 <= minute d <= 59 ->
    second d = 0 ->
    strptime (strftime d) = inr d.
Proof.
  intros [y m d h mi s]. cbn [year month day hour minute second].
  intros Hy Hm Hd Hh Hmi ->.
  assert (Hd31 : 1 <= d <= 31).
  { split; [lia|]. transitivity (days_in_month y m); [lia|].
    unfold days_in_month.
    destruct (m =? 2); [destruct (is_leap y); lia|].
    destruct ((m =? 4) || (m =? 6) || (m =? 9) || (m =? 11)); lia. }
  destruct (first_match_re_format y m d h mi Hy Hm Hd31 Hh Hmi) as [tl E].
  unfold strptime. rewrite E. cbn [year month day].
  destruct (y <? 1) eqn:Ey; [apply Z.ltb_lt in Ey; lia|].
  destruct (days_in_month y m <? d) eqn:Ed; [apply Z.ltb_lt in Ed; lia|].
  reflexivity.
Qed.

Lemma strptime_reads_strftime_witness :
  strptime "2024-02-29 23:59" = inr (mk_datetime 2024 2 29 23 59 0).
Proof.
  apply (strptime_reads_strftime (mk_datetime 2024 2 29 23 59 0));
    try (vm_compute; split; discriminate); reflexivity.
Defined.

(* ================================================================== *)
(** ** Escaping of text for the XML of an activity *)

Lemma append_associative a b c :
  String.append (String.append a b) c = String.append a (String.append b c).
Proof.
  induction a as [|x a IH]; [reflexivity|].
  rewrite !append_cons. now rewrite IH.
Qed.

Lemma replace_append old new a b :
  replace old new (String.append a b)
  = String.append (replace old new a) (replace old new b).
Proof.
  induction a as [|c a IH]; [reflexivity|].
  change (String.append (String c a) b) with (String c (String.append a b)).
  cbn [replace]. rewrite IH. destruct (Ascii.eqb c old).
  - now rewrite append_associative.
  - reflexivity.
Qed.

Lemma replace_chain_entity (c : ascii) :
  replace "'" "&#39;"
    (replace quote_char "&quot;"
       (replace ">" "&gt;"
          (replace "<" "&lt;"
             (replace "&" "&amp;" (String c EmptyString)))))
  = xml_entity c.
Proof.
  destruct c as [[] [] [] [] [] [] [] []]; reflexivity.
Qed.

Lemma replace_chain_cons (c : ascii) (s : string) :
  replace "'" "&#39;"
    (replace quote_char "&quot;"
       (replace ">" "&gt;"
          (replace "<" "&lt;"
             (replace "&" "&amp;" (String c s)))))
  = String.append (xml_entity c)
      (replace "'" "&#39;"
         (replace quote_char "&quot;"
            (replace ">" "&gt;"
               (replace "<" "&lt;"
                  (replace "&" "&amp;" s))))).
Proof.
  change (String c s) with (String.append (String c EmptyString) s).
  rewrite !replace_append. now rewrite replace_chain_entity.
Qed.

Lemma replace_chain_escape_once (s : string) :
  replace "'" "&#39;"
    (replace quote_char "&quot;"
       (replace ">" "&gt;"
          (replace "<" "&lt;"
             (replace "&" "&amp;" s))))
  = escape_once s.
Proof.
  induction s as [|c s IH]; [reflexivity|].
  rewrite replace_chain_cons, IH. reflexivity.
Qed.

Lemma escape_xml_escape_once text : _escape_xml text = escape_once text.
Proof.
  destruct text as [|c s]; [reflexivity|].
  unfold _escape_xml. apply replace_chain_escape_once.
Qed.

Lemma has_char_append c a b :
  has_char c (String.append a b) = has_char c a || has_char c b.
Proof.
  induction a as [|x a IH]; [reflexivity|].
  change (String.append (String x a) b) with (String x (String.append a b)).
  cbn [has_char]. rewrite IH. now rewrite orb_assoc.
Qed.

Lemma xml_entity_no_markup c :
  has_char "<" (xml_entity c) = false
  /\ has_char ">" (xml_entity c) = false
  /\ has_char quote_char (xml_entity c) = false
  /\ has_char "'" (xml_entity c) = false.
Proof.
  destruct c as [[] [] [] [] [] [] [] []]; repeat split; reflexivity.
Qed.

(** X14.  [_escape_xml] leaves no markup: although the five replacements
    are chained, no character of an entity is escaped again (the result is
    the one-pass replacement of every character by its entity), and the
    result holds no [<], no [>], no double quote and no apostrophe. *)
Theorem escape_xml_leaves_no_markup :
  forall text : string,
    _escape_xml text = escape_once text
    /\ has_char "<" (_escape_xml text) = false
    /\ has_char ">" (_escape_xml text) = false
    /\ has_char quote_char (_escape_xml text) = false
    /\ has_char "'" (_escape_xml text) = false.
Proof.
  intros text. split; [apply escape_xml_escape_once|].
  rewrite escape_xml_escape_once.
  induction text as [|c s IH]; [repeat split; reflexivity|].
  cbn [escape_once]. rewrite !has_char_append.
  destruct (xml_entity_no_markup c) as (-> & -> & -> & ->).
  exact IH.
Qed.

Lemma xml_unescape_entity c s :
  xml_unescape (String.append (xml_entity c) s) = String c (xml_unescape s).
Proof.
  unfold xml_unescape.
  destruct c as [[] [] [] [] [] [] [] []]; reflexivity.
Qed.

(** X15.  Escaping loses nothing: an XML parser that resolves the five
    references reads the escaped text back as the original, so two
    different texts never get the same escaped form. *)
Theorem escape_xml_is_reversible :
  forall text : string,
    xml_unescape (_escape_xml text) = text
    /\ (forall text', _escape_xml text' = _escape_xml text -> text' = text).
Proof.
  assert (Hback : forall text, xml_unescape (_escape_xml text) = text).
  { intros text. rewrite escape_xml_escape_once.
    induction text as [|c s IH]; [reflexivity|].
    cbn [escape_once]. rewrite xml_unescape_entity. now rewrite IH. }
  intros text. split; [apply Hback|].
  intros text' H. rewrite <- (Hback text'), H. apply Hback.
Qed.

(* ================================================================== *)
(** ** Validation of the data of an activity *)

Lemma not_in_app_singleton {A} (x y : A) l :
  ~ In x l -> x <> y -> ~ In x (l ++ [y]).
Proof.
  intros Hl Hy H. apply in_app_iff in H as [H|[H|[]]]; [auto|congruence].
Qed.

Lemma app_singleton_not_nil {A} (l : list A) x : l ++ [x] <> [].
Proof. destruct l; discriminate. Qed.

Lemma length_eqb_0 {A} (l : list A) : Nat.eqb (length l) 0 = true <-> l = [].
Proof. destruct l; cbn; split; intros; congruence. Qed.

Lemma validate_activity_data_spec :
  forall (title resource_id start_time end_time : string)
         (now : clock_reading),
  exists v,
    validate_activity_data title resource_id start_time end_time now = inr v
    /\ (valid v = true <-> errors v = [])
    /\ (valid v = true <->
        acceptable title resource_id start_time end_time now)
    /\ (In format_error (errors v) <->
        parse_failure start_time end_time <> None)
    /\ (In format_error (errors v) ->
        ~ In order_error (errors v) /\ ~ In past_error (errors v)).
Proof.
  intros title resource_id start_time end_time now.
  unfold validate_activity_data, acceptable, parse_failure.
  destruct (strptime start_time) as [e|start_dt] eqn:Es.
  { rewrite (strptime_raises_ValueError _ _ Es).
    eexists. split; [reflexivity|]. cbn [valid errors].
    rewrite length_eqb_0.
    split; [tauto|]. split.
    - split; [intros H; now apply app_singleton_not_nil in H|].
      intros (_ & _ & s & e' & [=] & _).
    - split; [split; [discriminate|intros _; apply in_app_iff; right; now left]|].
      intros _. destruct (blank title), (blank resource_id); cbn;
        intuition discriminate. }
  destruct (strptime end_time) as [e|end_dt] eqn:Ee.
  { rewrite (strptime_raises_ValueError _ _ Ee).
    eexists. split; [reflexivity|]. cbn [valid errors].
    rewrite length_eqb_0.
    split; [tauto|]. split.
    - split; [intros H; now apply app_singleton_not_nil in H|].
      intros (_ & _ & s & e' & _ & [=] & _).
    - split; [split; [discriminate|intros _; apply in_app_iff; right; now left]|].
      intros _. destruct (blank title), (blank resource_id); cbn;
        intuition discriminate. }
  eexists. split; [reflexivity|]. cbn [valid errors].
  rewrite length_eqb_0. split; [tauto|].
  unfold ts_ge.
  assert (Hnames : forall l,
            incl l [title_error; resource_error; order_error; past_error] ->
            ~ In format_error l).
  { intros l Hl H. apply Hl in H. cbv in H. intuition discriminate. }
  destruct (blank title), (blank resource_id),
    (seconds_of end_dt <=? seconds_of start_dt) eqn:Eo,
    (before_now start_dt now) eqn:Ep; cbn [app].
  all: split;
    [split;
     [intros H;
      first [discriminate H
            |split; [reflexivity|split; [reflexivity|
               exists start_dt, end_dt;
               split; [reflexivity|split; [reflexivity|
                 split; [apply Z.leb_gt in Eo; lia|exact Ep]]]]]]
     |intros (Ht & Hr & s & e' & Hs & He' & Hlt & Hnow);
      injection Hs as <-; injection He' as <-;
      first [congruence|apply Z.leb_le in Eo; lia]]
    |].
  all: match goal with
       | |- (In _ ?l <-> _) /\ _ =>
           assert (Hno : ~ In format_error l)
             by (apply Hnames; intros x Hx; cbn in Hx |- *; tauto)
       end.
  all: split; [split; [intros H; now elim Hno|intros H; now elim H]
              |intros H; now elim Hno].
Qed.

(** X16.  [validate_activity_data] never raises, and it accepts the data
    exactly when the title and the resource id are not blank, both dates
    are accepted by [strptime], the start is strictly before the end and
    the start is not before the reading of the clock.  The format error is
    reported exactly when a date is rejected, and then neither the order
    nor the past is judged. *)
Theorem validation_accepts_exactly :
  forall (title resource_id start_time end_time : string)
         (now : clock_reading),
  exists v,
    validate_activity_data title resource_id start_time end_time now = inr v
    /\ (valid v = true <-> errors v = [])
    /\ (valid v = true <->
        acceptable title resource_id start_time end_time now)
    /\ (In format_error (errors v) <->
        parse_failure start_time end_time <> None)
    /\ (In format_error (errors v) ->
        ~ In order_error (errors v) /\ ~ In past_error (errors v)).
Proof. exact validate_activity_data_spec. Qed.

Lemma validate_activity_data_returns title resource_id start_time end_time now :
  exists v,
    validate_activity_data title resource_id start_time end_time now = inr v
    /\ (valid v = true <->
        acceptable title resource_id start_time end_time now)
    /\ (valid v = false -> errors v <> []).
Proof.
  destruct (validate_activity_data_spec title resource_id start_time end_time
              now) as (v & Hv & Hnil & Hacc & _).
  exists v. split; [exact Hv|]. split; [exact Hacc|].
  intros Hf Hn. apply Hnil in Hn. congruence.
Qed.

(** The validation loop never raises; it lets the ids pass exactly when
    each of them is acceptable at its reading of the clock, and otherwise
    names one of them with at least one error. *)
Lemma first_rejected_spec title start_time end_time clock ids :
  forall n,
    (first_rejected title ids start_time end_time clock n = inr None
     /\ forall i resource_id,
          nth_error ids i = Some resource_id ->
          acceptable title resource_id start_time end_time (clock (n + i)%nat))
    \/ (exists resource_id errors,
          first_rejected title ids start_time end_time clock n
          = inr (Some (resource_id, errors))
          /\ In resource_id ids /\ errors <> []
          /\ exists i, nth_error ids i = Some resource_id
                       /\ ~ acceptable title resource_id start_time end_time
                            (clock (n + i)%nat)).
Proof.
  induction ids as [|rid rest IH]; intros n.
  - left. split; [reflexivity|]. intros [|i] r; discriminate.
  - cbn [first_rejected].
    destruct (validate_activity_data_returns title rid start_time end_time
                (clock n)) as (v & -> & Hacc & Herr).
    destruct (valid v) eqn:Ev.
    + destruct (IH (S n)) as [[-> Hall]|(r & errs & -> & Hin & Hne & i & Hi & Hno)].
      * left. split; [reflexivity|]. intros [|i] r Hr.
        -- injection Hr as <-. rewrite Nat.add_0_r. now apply Hacc.
        -- cbn in Hr. replace (n + S i)%nat with (S n + i)%nat by lia. eauto.
      * right. exists r, errs. split; [reflexivity|].
        split; [now right|]. split; [exact Hne|].
        exists (S i). split; [exact Hi|].
        now replace (n + S i)%nat with (S n + i)%nat by lia.
    + right. exists rid, (errors v). split; [reflexivity|].
      split; [now left|]. split; [now apply Herr|].
      exists O. split; [reflexivity|]. rewrite Nat.add_0_r.
      intros H. apply Hacc in H. congruence.
Qed.

(** X17.  [create_new_activity] calls the manager only with data that
    passed the validation: either every resource id is acceptable at its
    reading of the clock and the result is the manager's, or the result is
    the rejection of one of the ids with at least one error, and nothing
    else happens.  A single id given as a string is validated as a
    whole. *)
Theorem create_validates_every_resource :
  forall (manager_create_activity :
            string -> list string -> string -> string -> M json)
         (title : string) (resource_ids : resource_ids_value)
         (start_time end_time : string) (clock : nat -> clock_reading)
         (w : world),
    let ids := match resource_ids with IdStr s => [s] | IdList l => l end in
    (create_new_activity manager_create_activity title resource_ids
       start_time end_time clock w
     = manager_create_activity title ids start_time end_time w
     /\ forall i resource_id,
          nth_error ids i = Some resource_id ->
          acceptable title resource_id start_time end_time (clock i))
    \/ (exists resource_id errors,
          In resource_id ids /\ errors <> []
          /\ create_new_activity manager_create_activity title resource_ids
               start_time end_time clock w
             = (inr (JDict [ ("success", JBool false);
                             ("error", JStr (rejection_message resource_id
                                               errors)) ]), w)).
Proof.
  intros manager title resource_ids start_time end_time clock w ids.
  unfold create_new_activity, bind, lift. fold ids.
  destruct (first_rejected_spec title start_time end_time clock ids 0%nat)
    as [[-> Hall]|(r & errs & -> & Hin & Hne & _)].
  - left. split; [reflexivity|exact Hall].
  - right. exists r, errs. repeat split; assumption.
Qed.

Lemma blank_character c : blank (String c EmptyString) = is_space c.
Proof.
  unfold blank, strip. cbn [lstrip]. destruct (is_space c) eqn:E.
  - reflexivity.
  - cbn [rstrip]. now rewrite E.
Qed.

Lemma In_characters x s :
  In x (characters s) <->
  exists c, x = String c EmptyString /\ has_char c s = true.
Proof.
  induction s as [|a s IH]; cbn [characters has_char In].
  - split; [intros []|intros (c & _ & [=])].
  - rewrite IH. split.
    + intros [<-|(c & -> & Hc)].
      * exists a. now rewrite Ascii.eqb_refl.
      * exists c. rewrite Hc. now rewrite orb_true_r.
    + intros (c & -> & Hc). apply orb_true_iff in Hc as [Hc|Hc].
      * apply Ascii.eqb_eq in Hc as ->. now left.
      * right. eauto.
Qed.

(** X18.  An empty [resource_id] is not validated by [update_activity]:
    the loop over its characters has nothing to check, so whatever the
    title and the dates are, blank or not in form, the request part runs
    and its response is the result. *)
Theorem update_skips_validation_of_empty_id :
  forall (update_request :
            Z -> string -> resource_ids_value -> string -> string -> string
            -> M json)
         (task_id : Z) (title start_time end_time location description : string)
         (priority : Z) (clock : nat -> clock_reading)
         (w w' : world) (response : json),
    update_request task_id title (IdStr EmptyString) start_time end_time
      location w = (inr response, w') ->
    update_activity update_request task_id title EmptyString start_time
      end_time location description priority clock w
    = (inr response, w').
Proof.
  intros update_request task_id title start_time end_time location
    description priority clock w w' response H.
  unfold update_activity, try_except, bind, lift.
  cbn [resource_ids_of has_char iterate characters first_rejected].
  now rewrite H.
Qed.

Lemma update_skips_validation_of_empty_id_witness :
  update_activity (fun _ _ _ _ _ _ => ret (JDict [("success", JBool true)]))
    7 "   " "" "tomorrow" "never" "" "" 5
    (fun _ => mk_clock (mk_datetime 2024 6 1 9 0 0) 0) campus
  = (inr (JDict [("success", JBool true)]), campus).
Proof.
  exact (update_skips_validation_of_empty_id
           (fun _ _ _ _ _ _ => ret (JDict [("success", JBool true)]))
           7 "   " "tomorrow" "never" "" "" 5
           (fun _ => mk_clock (mk_datetime 2024 6 1 9 0 0) 0)
           campus campus (JDict [("success", JBool true)]) eq_refl).
Defined.

(** X19.  [update_activity] validates a [resource_id] without comma one
    character at a time.  When one of its characters is a blank the update
    is rejected, whatever the other data: the response names one character
    of the id as the resource and at least one error, and the request part
    does not run.  ([create_new_activity] validates the same id as a
    whole.) *)
Theorem update_rejects_id_with_blank :
  forall (update_request :
            Z -> string -> resource_ids_value -> string -> string -> string
            -> M json)
         (task_id : Z)
         (title resource_id start_time end_time location description : string)
         (priority : Z) (clock : nat -> clock_reading) (w : world)
         (c : ascii),
    has_char "," resource_id = false ->
    has_char c resource_id = true ->
    is_space c = true ->
    exists c' errors,
      has_char c' resource_id = true /\ errors <> []
      /\ update_activity update_request task_id title resource_id start_time
           end_time location description priority clock w
         = (inr (JDict [
              ("success", JBool false);
              ("error", JStr (rejection_message (String c' EmptyString) errors));
              ("details", update_details task_id title (IdStr resource_id)
                            start_time end_time) ]), w).
Proof.
  intros update_request task_id title resource_id start_time end_time
    location description priority clock w c Hcomma Hc Hsp.
  unfold update_activity, resource_ids_of. rewrite Hcomma.
  unfold try_except, bind, lift. cbn [iterate].
  destruct (first_rejected_spec title start_time end_time clock
              (characters resource_id) 0%nat)
    as [[_ Hall]|(r & errs & -> & Hin & Hne & _)].
  - exfalso.
    assert (Hin : In (String c EmptyString) (characters resource_id))
      by (apply In_characters; eauto).
    apply In_nth_error in Hin as [i Hi].
    destruct (Hall i _ Hi) as (_ & Hb & _).
    rewrite blank_character in Hb. congruence.
  - apply In_characters in Hin as (c' & -> & Hc').
    exists c', errs. repeat split; assumption.
Qed.

Lemma update_rejects_id_with_blank_witness :
  exists c' errors,
    has_char c' "AULA 01" = true /\ errors <> []
    /\ update_activity (fun _ _ _ _ _ _ => ret JNull)
         7 "Lezione" "AULA 01" "2024-06-01 10:00" "2024-06-01 11:00" "" "" 5
         (fun _ => mk_clock (mk_datetime 2024 5 1 9 0 0) 0) campus
       = (inr (JDict [
            ("success", JBool false);
            ("error", JStr (rejection_message (String c' EmptyString) errors));
            ("details", update_details 7 "Lezione" (IdStr "AULA 01")
                          "2024-06-01 10:00" "2024-06-01 11:00") ]), campus).
Proof.
  exact (update_rejects_id_with_blank (fun _ _ _ _ _ _ => ret JNull)
           7 "Lezione" "AULA 01" "2024-06-01 10:00" "2024-06-01 11:00" "" "" 5
           (fun _ => mk_clock (mk_datetime 2024 5 1 9 0 0) 0) campus " "
           eq_refl eq_refl eq_refl).
Defined.

(* ================================================================== *)
(** ** The dispatcher of the server *)

Lemma item_Some arguments key :
  is_Some (arguments !! key) ->
  exists v, item arguments key = inr v.
Proof. intros [v H]. exists v. unfold item. now rewrite H. Qed.

Lemma item_None arguments key :
  arguments !! key = None -> item arguments key = inl (KeyError key).
Proof. intros H. unfold item. now rewrite H. Qed.

Ltac first_missing_key :=
  match goal with
  | Hk : ?pre ++ ?k :: ?post = _ |- _ =>
      destruct pre as [|? pre]; cbn [app] in Hk;
      [ injection Hk as <- _ || discriminate Hk
      | (injection Hk as <- Hk || discriminate Hk);
        match goal with
        | Hp : List.Forall _ (_ :: _) |- _ =>
            let Hx := fresh "Hx" in
            apply List.Forall_cons_iff in Hp as [Hx Hp];
            apply item_Some in Hx as [? Hx]; rewrite Hx; cbn [and_then]
        end ]
  end.

(** X20.  The errors of the dispatcher.  A name that is none of the seven
    tools is answered [{"error": "Tool sconosciuto: <name>"}]; a call of a
    tool without one of the keys that its handler reads is answered
    [{"error": "'<key>'"}] for the first such key in the order of reading.
    In both cases no tool runs and nothing else happens. *)
Theorem dispatcher_errors :
  forall (t : tools) (name : string) (arguments : gmap string json)
         (w : world),
    (required_keys name = None ->
     handle_call_tool t name arguments w
     = (JDict [("error", JStr (String.append "Tool sconosciuto: " name))], w))
    /\ (forall keys pre key post,
          required_keys name = Some keys ->
          pre ++ key :: post = keys ->
          List.Forall (fun k => is_Some (arguments !! k)) pre ->
          arguments !! key = None ->
          handle_call_tool t name arguments w
          = (JDict [("error", JStr (py_repr key))], w)).
Proof.
  intros t name arguments w.
  unfold required_keys, handle_call_tool, tool_handlers.
  cbn [assoc_get].
  repeat match goal with
         | |- context [String.eqb name ?s] => destruct (String.eqb name s)
         end.
  all: split; [intros H; try discriminate H; try reflexivity|].
  all: intros keys pre key post [= <-] Hk Hp Hnone.
  all: apply item_None in Hnone.
  all: repeat first_missing_key.
  all: try (rewrite Hnone; reflexivity).
  all: destruct pre; discriminate Hk.
Qed.

(* ================================================================== *)
(** ** Conversion of the [Decimal] values *)

Lemma pyvalue_induction (P : pyvalue -> Prop) :
  P PNone ->
  (forall b, P (PBool b)) ->
  (forall z, P (PInt_ z)) ->
  (forall f, P (PFloat_ f)) ->
  (forall d, P (PDecimal d)) ->
  (forall s, P (PStr s)) ->
  (forall l, List.Forall P l -> P (PList l)) ->
  (forall l, P (PTuple l)) ->
  (forall kv, List.Forall (fun item => P (snd item)) kv -> P (PDict kv)) ->
  forall obj, P obj.
Proof.
  intros HNone HBool HInt HFloat HDecimal HStr HList HTuple HDict.
  fix IH 1. intros [ |b|z|f|d|s|l|l|kv].
  - exact HNone.
  - apply HBool.
  - apply HInt.
  - apply HFloat.
  - apply HDecimal.
  - apply HStr.
  - apply HList. induction l as [|x l IHl]; constructor; [apply IH|exact IHl].
  - apply HTuple.
  - apply HDict. induction kv as [|[k v] kv IHkv]; constructor;
      [apply IH|exact IHkv].
Qed.

Lemma map_id_Forall {A} (f : A -> A) l :
  List.Forall (fun x => f x = x) l -> map f l = l.
Proof. induction 1; cbn; congruence. Qed.

Lemma map_ext_Forall {A B} (f g : A -> B) l :
  List.Forall (fun x => f x = g x) l -> map f l = map g l.
Proof. induction 1; cbn; congruence. Qed.

(** X21.  [convert_decimals] leaves no [Decimal] that can be reached
    through the items of lists and the values of dictionaries, at any
    depth; a second conversion changes nothing; a value without such a
    [Decimal] is returned as it is; and a tuple is returned as it is, with
    the [Decimal] values it may hold. *)
Theorem convert_decimals_reaches_lists_and_dicts :
  forall (float_of_decimal : py_decimal -> pyfloat) (obj : pyvalue),
    reaches_decimal (convert_decimals float_of_decimal obj) = false
    /\ convert_decimals float_of_decimal
         (convert_decimals float_of_decimal obj)
       = convert_decimals float_of_decimal obj
    /\ (reaches_decimal obj = false ->
        convert_decimals float_of_decimal obj = obj)
    /\ (forall l, convert_decimals float_of_decimal (PTuple l) = PTuple l).
Proof.
  intros f obj. split; [|split; [|split; [|reflexivity]]].
  - induction obj using pyvalue_induction; try reflexivity.
    + cbn [convert_decimals reaches_decimal].
      induction H as [|x l Hx Hl IH]; [reflexivity|].
      cbn [map existsb]. now rewrite Hx, IH.
    + cbn [convert_decimals reaches_decimal].
      induction H as [|[k v] kv Hv Hkv IH]; [reflexivity|].
      cbn [map existsb]. cbn [snd] in Hv. now rewrite Hv, IH.
  - induction obj using pyvalue_induction; try reflexivity.
    + cbn [convert_decimals]. f_equal. rewrite map_map.
      now apply map_ext_Forall.
    + cbn [convert_decimals]. f_equal. rewrite map_map.
      apply map_ext_Forall.
      eapply List.Forall_impl; [|exact H].
      intros [k v] Hv. cbn [snd] in Hv. now rewrite Hv.
  - induction obj using pyvalue_induction; try reflexivity; try discriminate.
    + cbn [convert_decimals reaches_decimal]. intros Hno. f_equal.
      apply map_id_Forall.
      induction H as [|x l Hx Hl IH]; [constructor|].
      cbn [existsb] in Hno. apply orb_false_iff in Hno as [H1 H2].
      constructor; auto.
    + cbn [convert_decimals reaches_decimal]. intros Hno. f_equal.
      apply map_id_Forall.
      induction H as [|[k v] kv Hv Hkv IH]; [constructor|].
      cbn [existsb] in Hno. apply orb_false_iff in Hno as [H1 H2].
      cbn [snd] in Hv. constructor; [now rewrite Hv|auto].
Qed.

(* ================================================================== *)
(** ** The groups of the report of [get_active_bookings] *)

Lemma assoc_update_keys {A} k (f : A -> A) (d : list (string * A)) :
  map fst (assoc_update k f d) = map fst d.
Proof.
  induction d as [|[k0 v0] d IH]; [reflexivity|].
  cbn [assoc_update]. destruct (String.eqb k k0); cbn [map fst]; congruence.
Qed.

Lemma assoc_get_None_keys {A} k (d : list (string * A)) :
  assoc_get k d = None <-> ~ In k (map fst d).
Proof.
  induction d as [|[k0 v0] d IH]; cbn [assoc_get map fst In]; [tauto|].
  destruct (String.eqb_spec k k0) as [->|Hne].
  - split; [discriminate|intros H; elim H; now left].
  - rewrite IH. split; [intros H [E|Hin]; [congruence|tauto]|tauto].
Qed.

Lemma fold_add_booking_keys results :
  let '(d, n, h) := fold_left add_booking results ([], 0, PyInt 0) in
  List.NoDup (map fst d)
  /\ forall k, In k (map fst d) <-> In k (map cod_calendario results).
Proof.
  induction results as [|b results IH] using rev_ind.
  - cbn. split; [constructor|tauto].
  - rewrite fold_left_app. cbn [fold_left].
    destruct (fold_left add_booking results ([], 0, PyInt 0)) as [[d n] h].
    destruct IH as [Hnd Hin]. unfold add_booking.
    rewrite assoc_update_keys, map_app. cbn [map].
    destruct (assoc_get (cod_calendario b) d) as [g|] eqn:Eg.
    + assert (Hk : In (cod_calendario b) (map fst d)).
      { destruct (in_dec String.string_dec (cod_calendario b) (map fst d))
          as [Hy|Hn]; [exact Hy|].
        apply assoc_get_None_keys in Hn. congruence. }
      split; [exact Hnd|]. intros k. rewrite in_app_iff, Hin.
      cbn [In]. split; [tauto|]. intros [H|[<-|[]]]; [exact H|].
      now apply Hin.
    + apply assoc_get_None_keys in Eg.
      rewrite map_app. cbn [map fst]. split.
      * apply List.NoDup_app; repeat split;
          [exact Hnd|repeat constructor; intros []|].
        intros x Hx [<-|[]]. contradiction.
      * intros k. rewrite !in_app_iff, Hin. reflexivity.
Qed.

Lemma list_sum_head (a : nat) l : list_sum (a :: l) = (a + list_sum l)%nat.
Proof. reflexivity. Qed.

Lemma count_in_distinct_keys (keys : list string) (c : string) :
  List.NoDup keys -> In c keys ->
  list_sum (map (fun k => if String.eqb c k then 1%nat else 0%nat) keys)
  = 1%nat.
Proof.
  induction 1 as [|k keys Hk Hnd IH]; [intros []|].
  cbn [map]; rewrite ?list_sum_head. intros [->|Hin].
  - rewrite String.eqb_refl.
    assert (Hz : list_sum (map (fun k => if String.eqb c k then 1%nat else 0%nat)
                              keys) = 0%nat).
    { clear IH Hnd. induction keys as [|k' keys IH']; [reflexivity|].
      cbn [map]; rewrite ?list_sum_head. destruct (String.eqb_spec c k') as [->|_].
      - elim Hk. now left.
      - rewrite IH'; [reflexivity|]. intros H. apply Hk. now right. }
    now rewrite Hz.
  - destruct (String.eqb_spec c k) as [->|_]; [contradiction|].
    now rewrite (IH Hin).
Qed.

Lemma rows_of_calendar_partition (keys : list string) results :
  List.NoDup keys ->
  (forall b, In b results -> In (cod_calendario b) keys) ->
  list_sum (map (fun k => length (rows_of_calendar k results)) keys)
  = length results.
Proof.
  intros Hnd. induction results as [|b results IH]; intros Hall.
  - cbn [rows_of_calendar List.filter length]. induction keys; [reflexivity|].
    cbn [map]; rewrite ?list_sum_head. cbn [Nat.add].
    apply IHkeys; [now inversion Hnd|intros b' []].
  - assert (Hsplit :
      forall ks,
        list_sum (map (fun k => length (rows_of_calendar k (b :: results))) ks)
        = (list_sum (map (fun k => if String.eqb (cod_calendario b) k
                                   then 1%nat else 0%nat) ks)
           + list_sum (map (fun k => length (rows_of_calendar k results)) ks))%nat).
    { induction ks as [|k ks IHks]; [reflexivity|].
      cbn [map]; rewrite ?list_sum_head. rewrite IHks.
      unfold rows_of_calendar at 1. cbn [List.filter].
      fold (rows_of_calendar k results).
      destruct (String.eqb (cod_calendario b) k); cbn [length]; lia. }
    rewrite Hsplit, IH, count_in_distinct_keys; cbn [length]; auto.
    + apply Hall. now left.
    + intros b' Hb'. apply Hall. now right.
Qed.

(** X22.  Every row of the task query is reported once.  The keys of
    [risorse] are distinct and are the calendar codes of the rows;
    [risorse_impegnate] is their number (a number of calendars),
    [eventi_totali] is the number of rows, each key lists the events of
    its rows in the order of the query, and the sizes of these lists add
    up to [eventi_totali]. *)
Theorem every_event_reported_once :
  forall (start_time end_time : string) (start_dt end_dt : datetime)
         (results : list booking),
  exists entries,
    let report :=
      bookings_report start_time end_time start_dt end_dt results in
    jpath ["risorse"] report = Some (JDict entries)
    /\ List.NoDup (map fst entries)
    /\ (forall k, In k (map fst entries) <->
                  exists b, In b results /\ cod_calendario b = k)
    /\ jpath ["riepilogo"; "risorse_impegnate"] report = Some (JNum (PyInt (Z.of_nat (length entries))))
    /\ jpath ["riepilogo"; "eventi_totali"] report = Some (JNum (PyInt (Z.of_nat (length results))))
    /\ (forall k, In k (map fst entries) ->
                  reported_events k report
                  = Some (JList (map evento_info (rows_of_calendar k results))))
    /\ list_sum (map (fun k => length (rows_of_calendar k results))
                     (map fst entries))
       = length results.
Proof.
  intros start_time end_time start_dt end_dt results.
  pose proof (fold_add_booking_keys results) as Hkeys.
  pose proof (bookings_report_events start_time end_time start_dt end_dt
                results) as [Htot Hev].
  pose proof (fold_add_booking results) as Hn.
  unfold bookings_report in *.
  destruct (fold_left add_booking results ([], 0, PyInt 0)) as [[d n] h].
  destruct Hkeys as [Hnd Hin]. destruct Hn as [Hn _].
  exists (map (fun kg => (fst kg, group_json (snd kg))) (round_groups d)).
  assert (Hfst : map fst (map (fun kg => (fst kg, group_json (snd kg)))
                            (round_groups d)) = map fst d).
  { unfold round_groups. rewrite !map_map. reflexivity. }
  cbv zeta. rewrite Hfst.
  assert (Hcodes : forall k, In k (map fst d) <->
                             exists b, In b results /\ cod_calendario b = k).
  { intros k. rewrite Hin, in_map_iff. split; intros (b & H1 & H2); eauto. }
  split; [reflexivity|]. split; [exact Hnd|]. split; [exact Hcodes|].
  split; [cbn; unfold JLen; now rewrite !length_map|].
  split; [exact Htot|]. split.
  - intros k Hk. rewrite Hev.
    destruct (rows_of_calendar k results) as [|r rows] eqn:E; [|reflexivity].
    exfalso. apply Hcodes in Hk as (b & Hb & <-).
    assert (Hmem : In b (rows_of_calendar (cod_calendario b) results)).
    { unfold rows_of_calendar. apply filter_In. split; [exact Hb|].
      apply String.eqb_refl. }
    rewrite E in Hmem. exact Hmem.
  - apply rows_of_calendar_partition; [exact Hnd|].
    intros b Hb. apply Hcodes. eauto.
Qed.

Lemma dispatcher_errors_witness :
  handle_call_tool query_tools "get_active_bookings"
    (<["start_time" := JStr "2024-06-01 09:00"]>
       (<["end_time" := JStr "2024-06-01 12:00"]> ∅))
    campus
  = (JDict [("error", JStr "'start_date'")], campus).
Proof.
  apply (proj2 (dispatcher_errors query_tools "get_active_bookings"
                  (<["start_time" := JStr "2024-06-01 09:00"]>
                     (<["end_time" := JStr "2024-06-01 12:00"]> ∅))
                  campus)
           ["start_date"; "end_date"] [] "start_date" ["end_date"]
           eq_refl eq_refl).
  - constructor.
  - reflexivity.
Defined.

(* ================================================================== *)
(** ** The number of configured calendar codes *)

(** X23.  [get_active_bookings] answers with a listing only when
    [CALENDAR_CODES] holds exactly two commas, that is three codes.  With
    dates that parse and a database that answers, fewer codes give the
    report of an [IndexError], more codes the report of a [TypeError], and
    three codes the report of the rows of the task query. *)
Theorem calendar_codes_must_be_three :
  forall (w : world) (start_time end_time value : string)
         (start_dt end_dt : datetime),
    strptime start_time = inr start_dt ->
    strptime end_time = inr end_dt ->
    assoc_get "CALENDAR_CODES" (environ w) = Some value ->
    faults w = [] ->
    ((count_commas value < 2)%nat ->
     fst (get_active_bookings start_time end_time w)
     = inr (JDict [("error", JStr "tuple index out of range")]))
    /\ ((count_commas value > 2)%nat ->
        fst (get_active_bookings start_time end_time w)
        = inr (JDict [("error",
                       JStr "not all arguments converted during string formatting")]))
    /\ (count_commas value = 2%nat ->
        exists results,
          select_tasks end_dt start_dt (map strip (split_comma value)) w
          = inr results
          /\ fst (get_active_bookings start_time end_time w)
             = inr (bookings_report start_time end_time start_dt end_dt
                      results)).
Proof.
  intros w start_time end_time value start_dt end_dt Hs He Henv Hf.
  assert (Hcodes : get_calendar_codes w
                   = (inr (map strip (split_comma value)), w)).
  { unfold get_calendar_codes, bind, getenv, ret. now rewrite Henv. }
  rewrite (get_active_bookings_run w start_time end_time start_dt end_dt
             _ Hs He Hcodes Hf).
  cbn [fst]. unfold select_tasks.
  rewrite length_map, split_comma_length.
  split; [|split]; intros Hn.
  - destruct (Nat.compare_spec (S (count_commas value)) 3); try lia.
    reflexivity.
  - destruct (Nat.compare_spec (S (count_commas value)) 3); try lia.
    reflexivity.
  - rewrite Hn. cbn [Nat.compare]. eexists. split; reflexivity.
Qed.

Lemma calendar_codes_must_be_three_witness :
  fst (get_active_bookings "2024-06-01 09:00" "2024-06-01 12:00"
         (timetable "CAL1,CAL2,CAL9,"))
  = inr (JDict [("error", JStr "not all arguments converted during string formatting")]).
Proof.
  apply (proj1 (proj2 (calendar_codes_must_be_three
                         (timetable "CAL1,CAL2,CAL9,")
                         "2024-06-01 09:00" "2024-06-01 12:00"
                         "CAL1,CAL2,CAL9,"
                         (mk_datetime 2024 6 1 9 0 0)
                         (mk_datetime 2024 6 1 12 0 0)
                         eq_refl eq_refl eq_refl eq_refl))).
  cbn. lia.
Defined.

(* ================================================================== *)
(** ** The empty search token *)

Lemma contains_empty s : contains EmptyString s.
Proof. exists EmptyString, s. reflexivity. Qed.

(** X24.  The empty token matches everything: when no active resource has
    the empty id and the database answers, [resolve_resource_info("")]
    returns every active resource, in the order of the ids, and the kind
    that their number gives. *)
Theorem empty_token_matches_every_resource :
  forall w : world,
    faults w = [] ->
    (forall r, In r (resources w) -> flactive r = 1 ->
               reresourceid r <> EmptyString) ->
    exists info w1,
      resolve_resource_info EmptyString w = (inr info, w1)
      /\ (forall r, In r (info_resources info) <->
                    In r (resources w) /\ flactive r = 1)
      /\ info_type info = kind_of_matches (info_resources info)
      /\ info_resources info
         = order_by resource_id_leb
             (List.filter (fun r => flactive r =? 1) (resources w)).
Proof.
  intros w Hf Hid.
  assert (Hnone : select_resource_by_id EmptyString w = []).
  { unfold select_resource_by_id.
    apply filter_none. intros r Hr.
    destruct (flactive r =? 1) eqn:Ea; [|now rewrite andb_false_r].
    apply Z.eqb_eq in Ea. rewrite andb_true_r.
    apply String.eqb_neq. intros E.
    apply (Hid r Hr Ea). destruct (reresourceid r); [reflexivity|discriminate]. }
  assert (Hall : select_resources_by_description
                   (description_pattern EmptyString) w
                 = order_by resource_id_leb
                     (List.filter (fun r => flactive r =? 1) (resources w))).
  { unfold select_resources_by_description. f_equal.
    apply List.filter_ext. intros r.
    assert (HL : LIKE (LOWER (redescri r))
                   (LOWER (description_pattern EmptyString)) = true).
    { apply (LIKE_LOWER_contains_ci EmptyString); [reflexivity|].
      apply contains_empty. }
    now rewrite HL. }
  pose proof (resolve_resource_info_run EmptyString w Hf) as Hrun.
  cbv zeta in Hrun. rewrite Hnone, Hall in Hrun.
  destruct (order_by resource_id_leb
              (List.filter (fun r => flactive r =? 1) (resources w)))
    as [|r0 rest] eqn:E.
  - eexists _, _. split; [exact Hrun|]. cbn [info_resources info_type].
    split; [|split; reflexivity].
    intros r. split; [intros []|]. intros [Hr Ha].
    assert (Hin : In r (order_by resource_id_leb
              (List.filter (fun r => flactive r =? 1) (resources w)))).
    { apply order_by_In, filter_In. split; [exact Hr|now apply Z.eqb_eq]. }
    now rewrite E in Hin.
  - eexists _, _. split; [exact Hrun|]. cbn [info_resources info_type].
    split; [|split; [|reflexivity]].
    + intros r. rewrite <- E, order_by_In, filter_In, Z.eqb_eq. tauto.
    + destruct rest as [|r1 rest]; [reflexivity|].
      cbn [length kind_of_matches].
      destruct (Z.ltb_spec 1 (Z.of_nat (S (S (length rest)))));
        [reflexivity|lia].
Qed.

Lemma empty_token_matches_every_resource_witness :
  exists info w1,
    resolve_resource_info EmptyString campus = (inr info, w1)
    /\ length (info_resources info) = 3%nat.
Proof.
  destruct (empty_token_matches_every_resource campus eq_refl)
    as (info & w1 & Hrun & _ & _ & Hrows).
  - intros r Hr Ha E. cbn in Hr.
    destruct Hr as [<-|[<-|[<-|[<-|[]]]]]; discriminate.
  - exists info, w1. split; [exact Hrun|]. rewrite Hrows. reflexivity.
Defined.

(* ================================================================== *)
(** ** The hours of the listing *)

Lemma Qround1_close x : (Qabs (Qround1 x - x) <= 1 # 20)%Q.
Proof.
  unfold Qround1.
  pose proof (Qfloor_le (x * 10)) as Hlo.
  pose proof (Qlt_floor (x * 10)) as Hhi.
  rewrite inject_Z_plus in Hhi. change (inject_Z 1) with 1%Q in Hhi.
  set (f := Qfloor (x * 10)) in *.
  apply Qabs_Qle_condition.
  destruct (Qcompare_spec (x * 10 - inject_Z f) (1 # 2)) as [E|L|G].
  - destruct (Z.even f);
      [|rewrite inject_Z_plus; change (inject_Z 1) with 1%Q]; split; lra.
  - split; lra.
  - rewrite inject_Z_plus. change (inject_Z 1) with 1%Q. split; lra.
Qed.

Lemma Qround1_integer z : (Qround1 (inject_Z z) == inject_Z z)%Q.
Proof.
  unfold Qround1.
  assert (Hf : Qfloor (inject_Z z * 10) = (z * 10)%Z).
  { rewrite <- (Qfloor_Z (z * 10)). apply Qfloor_comp.
    rewrite inject_Z_mult. reflexivity. }
  rewrite Hf.
  destruct (Qcompare_spec (inject_Z z * 10 - inject_Z (z * 10)) (1 # 2))
    as [E|L|G];
    rewrite inject_Z_mult in *; change (inject_Z 10) with 10%Q in *;
    try lra.
Qed.

Lemma Qround1_comp x y : (x == y)%Q -> (Qround1 x == Qround1 y)%Q.
Proof.
  intros E. unfold Qround1.
  assert (Et : (x * 10 == y * 10)%Q) by (rewrite E; reflexivity).
  rewrite (Qfloor_comp _ _ Et).
  assert (Ec : Qcompare (x * 10 - inject_Z (Qfloor (y * 10))) (1 # 2)
               = Qcompare (y * 10 - inject_Z (Qfloor (y * 10))) (1 # 2)).
  { apply Qcompare_comp; [rewrite Et; reflexivity|reflexivity]. }
  rewrite Ec. reflexivity.
Qed.

(** Rounding half to even is a rounding to a nearest tenth. *)
Lemma Qround1_nearest_tenth : nearest_tenth Qround1.
Proof.
  split; [exact Qround1_close|].
  split; [exact Qround1_comp|exact Qround1_integer].
Qed.

Lemma Qsum_cons x l : Qsum (x :: l) = (x + Qsum l)%Q.
Proof. reflexivity. Qed.

Lemma Qsum_one_key (keys : list string) (c : string) (h : Q) :
  List.NoDup keys -> In c keys ->
  (Qsum (map (fun k => if String.eqb c k then h else 0) keys) == h)%Q.
Proof.
  induction 1 as [|k keys Hk Hnd IH]; [intros []|].
  cbn [map]. rewrite Qsum_cons. intros [->|Hin].
  - rewrite String.eqb_refl.
    assert (Hz : (Qsum (map (fun k => if String.eqb c k then h else 0) keys)
                  == 0)%Q).
    { clear IH Hnd. induction keys as [|k' keys IH']; [reflexivity|].
      cbn [map]. rewrite Qsum_cons.
      destruct (String.eqb_spec c k') as [->|_].
      - elim Hk. now left.
      - rewrite IH'; [lra|]. intros H. apply Hk. now right. }
    rewrite Hz. lra.
  - destruct (String.eqb_spec c k) as [->|_]; [contradiction|].
    rewrite (IH Hin). lra.
Qed.

Lemma filter_all {A} (f : A -> bool) l :
  (forall x, In x l -> f x = true) -> List.filter f l = l.
Proof.
  induction l as [|x l IH]; intros H; [reflexivity|].
  cbn [List.filter]. rewrite (H x (or_introl eq_refl)).
  f_equal. apply IH. intros y Hy. apply H. now right.
Qed.

Lemma assoc_get_Some_keys {A} k (d : list (string * A)) :
  In k (map fst d) -> exists v, assoc_get k d = Some v.
Proof.
  intros H. destruct (assoc_get k d) as [v|] eqn:E; [eauto|].
  apply assoc_get_None_keys in E. contradiction.
Qed.

Section HoursOfTheListing.

Variable round1 : Q -> Q.
Hypothesis round1_nearest : nearest_tenth round1.

Lemma num_value_py_add a b :
  (num_value round1 (py_add a b)
   == num_value round1 a + num_value round1 b)%Q.
Proof.
  destruct a as [x|f], b as [y|g]; cbn [py_add num_value as_float float_value];
    try reflexivity.
  rewrite inject_Z_plus. reflexivity.
Qed.

Lemma num_value_py_round1 a :
  (num_value round1 (py_round1 a) == round1 (num_value round1 a))%Q.
Proof.
  destruct a as [z|f]; cbn [py_round1 num_value float_value];
    [symmetry; apply round1_nearest|reflexivity].
Qed.

Lemma num_value_fold l acc :
  (num_value round1 (fold_left py_add l acc)
   == num_value round1 acc + Qsum (map (num_value round1) l))%Q.
Proof.
  revert acc. induction l as [|x l IH]; intros acc;
    cbn [fold_left map Qsum fold_right].
  - lra.
  - fold (Qsum (map (num_value round1) l)).
    rewrite IH, num_value_py_add. lra.
Qed.

Lemma Qsum_rounded_close (xs : list Q) :
  (- ((1 # 20) * inject_Z (Z.of_nat (length xs)))
   <= Qsum (map round1 xs) - Qsum xs
   <= (1 # 20) * inject_Z (Z.of_nat (length xs)))%Q.
Proof.
  induction xs as [|x xs IH].
  - cbn [map length Qsum fold_right].
    change (inject_Z (Z.of_nat 0)) with 0%Q. split; lra.
  - cbn [map length]. rewrite !Qsum_cons, Nat2Z.inj_succ.
    unfold Z.succ. rewrite inject_Z_plus. change (inject_Z 1) with 1%Q.
    pose proof (proj1 round1_nearest x) as Hx.
    apply Qabs_Qle_condition in Hx. split; lra.
Qed.

(** The hours of the rows are the hours of the calendars, added up. *)
Lemma calendar_hours_partition (keys : list string) results :
  List.NoDup keys ->
  (forall b, In b results -> In (cod_calendario b) keys) ->
  (Qsum (map (calendar_hours round1 results) keys)
   == Qsum (map (hours_of round1) results))%Q.
Proof.
  intros Hnd. induction results as [|b results IH]; intros Hall.
  - cbn [map Qsum fold_right]. induction keys as [|k keys IHk]; [reflexivity|].
    cbn [map]. rewrite Qsum_cons.
    rewrite IHk; [cbn; lra|now inversion Hnd|intros b' []].
  - assert (Hsplit :
      forall ks,
        (Qsum (map (calendar_hours round1 (b :: results)) ks)
         == Qsum (map (fun k => if String.eqb (cod_calendario b) k
                                then hours_of round1 b else 0) ks)
            + Qsum (map (calendar_hours round1 results) ks))%Q).
    { induction ks as [|k ks IHks]; [cbn; lra|].
      cbn [map]. rewrite !Qsum_cons, IHks.
      unfold calendar_hours at 1, rows_of_calendar. cbn [List.filter].
      fold (rows_of_calendar k results).
      fold (calendar_hours round1 results k).
      destruct (String.eqb (cod_calendario b) k); cbn [map];
        rewrite ?Qsum_cons; fold (calendar_hours round1 results k); lra. }
    rewrite Hsplit, IH, Qsum_one_key.
    + cbn [map]. rewrite Qsum_cons. lra.
    + exact Hnd.
    + apply Hall. now left.
    + intros b' Hb'. apply Hall. now right.
Qed.

(** The hours of a report, for any rows: the global total is the rounded
    sum of the unrounded hours of the rows, the total of a calendar the
    rounded sum of the unrounded hours of its rows, and the global total is
    within one tenth per calendar of the sum of the totals of the
    calendars. *)
Lemma bookings_report_hours start_time end_time start_dt end_dt results :
  exists (keys : list string) (total : pynum),
    List.NoDup keys
    /\ (forall k, In k keys <-> In k (map cod_calendario results))
    /\ jpath ["riepilogo"; "ore_totali"]
         (bookings_report start_time end_time start_dt end_dt results)
       = Some (JNum total)
    /\ (num_value round1 total
        == round1 (Qsum (map (hours_of round1) results)))%Q
    /\ (forall k, In k keys ->
          exists t,
            jpath ["risorse"; k; "ore_totali"]
              (bookings_report start_time end_time start_dt end_dt results)
            = Some (JNum t)
            /\ (num_value round1 t
                == round1 (calendar_hours round1 results k))%Q)
    /\ (forall k, keys = [k] ->
          jpath ["risorse"; k; "ore_totali"]
            (bookings_report start_time end_time start_dt end_dt results)
          = Some (JNum total))
    /\ (Qabs (num_value round1 total
              - Qsum (map (fun k => round1 (calendar_hours round1 results k))
                          keys))
        <= (1 # 10) * inject_Z (Z.of_nat (length keys)))%Q.
Proof.
  pose proof (fold_add_booking_keys results) as Hkeys.
  pose proof (fold_add_booking_hours results) as Hhours.
  destruct round1_nearest as (Hnear & Hcomp & Hint).
  unfold bookings_report.
  destruct (fold_left add_booking results ([], 0, PyInt 0)) as [[d n] h].
  destruct Hkeys as [Hnd Hin]. destruct Hhours as [Hh Hd].
  exists (map fst d), (py_round1 h).
  assert (Htotal : (num_value round1 (py_round1 h)
                    == round1 (Qsum (map (hours_of round1) results)))%Q).
  { rewrite num_value_py_round1. apply Hcomp.
    rewrite Hh, num_value_fold, map_map. cbn [num_value].
    change (inject_Z 0) with 0%Q. unfold hours_of. lra. }
  split; [exact Hnd|]. split; [exact Hin|].
  split; [reflexivity|]. split; [exact Htotal|].
  split.
  { intros k Hk. apply assoc_get_Some_keys in Hk as [g Hg].
    exists (py_round1 (ore_totali g)). split.
    - cbn [jpath jget assoc_get String.eqb Ascii.eqb Bool.eqb].
      unfold round_groups. rewrite map_map. cbn [fst snd].
      rewrite (assoc_get_map k
                 (fun g => group_json
                             (mk_group (group_nome_calendario g) (eventi g)
                                       (py_round1 (ore_totali g))))).
      rewrite Hg. reflexivity.
    - rewrite num_value_py_round1. apply Hcomp.
      rewrite (Hd _ _ Hg), num_value_fold, map_map. cbn [num_value].
      change (inject_Z 0) with 0%Q. unfold calendar_hours, hours_of. lra. }
  split.
  { intros k Hk.
    assert (Hmem : In k (map fst d)) by (rewrite Hk; now left).
    apply assoc_get_Some_keys in Hmem as [g Hg].
    assert (Hall : rows_of_calendar k results = results).
    { unfold rows_of_calendar. apply filter_all. intros b Hb.
      assert (Hc : In (cod_calendario b) (map fst d))
        by (apply Hin; now apply in_map).
      rewrite Hk in Hc. destruct Hc as [<-|[]]. apply String.eqb_refl. }
    cbn [jpath jget assoc_get String.eqb Ascii.eqb Bool.eqb].
    unfold round_groups. rewrite map_map. cbn [fst snd].
    rewrite (assoc_get_map k
               (fun g => group_json
                           (mk_group (group_nome_calendario g) (eventi g)
                                     (py_round1 (ore_totali g))))).
    rewrite Hg. cbn. rewrite (Hd _ _ Hg), Hall, Hh. reflexivity. }
  assert (Hpart : (Qsum (map (calendar_hours round1 results) (map fst d))
                   == Qsum (map (hours_of round1) results))%Q).
  { apply calendar_hours_partition; [exact Hnd|].
    intros b Hb. apply Hin. now apply in_map. }
  pose proof (Qsum_rounded_close
                (map (calendar_hours round1 results) (map fst d)))
    as Hclose.
  rewrite !map_map, !length_map in Hclose.
  rewrite map_map in Hpart.
  pose proof (Hnear (Qsum (map (hours_of round1) results))) as Hs.
  apply Qabs_Qle_condition in Hs.
  rewrite Htotal, length_map, map_map.
  apply Qabs_Qle_condition.
  destruct d as [|kg d'].
  - cbn [map length Qsum fold_right] in *.
    change (inject_Z (Z.of_nat 0)) with 0%Q in *.
    destruct results as [|b results].
    + cbn [map Qsum fold_right].
      pose proof (Hint 0) as H0. change (inject_Z 0) with 0%Q in H0.
      rewrite H0. split; lra.
    + exfalso. apply (proj2 (Hin (cod_calendario b))). now left.
  - assert (Hone : (1 <= inject_Z (Z.of_nat (length (kg :: d'))))%Q).
    { change 1%Q with (inject_Z 1). rewrite <- Zle_Qle. cbn [length]. lia. }
    split; lra.
Qed.

End HoursOfTheListing.


